(** * Document analysis pipeline: remote client, tolerant extraction, batch driver

    A shallow embedding of the scripts that push PDF reports through the
    remote inference service:

    - [GeminiAPIReport.extract_json_from_response] and the regular
      expression search it shares with the other scripts;
    - [GeminiAPIExtractActions.getScores] (the same code as
      [ExtractScope123Emissions.getScores] up to the artifact suffix),
      [ExtractEnergyInventoryActions.getScores],
      [GHGEmissionPercentage.extract_ghg_percentages] and
      [GeminiAPIReport.getScores];
    - the steps inside them: the paragraphs and bold runs added to the
      Word document (ExtractEnergyInventoryActions, lines 96-113) and the
      category scores and paragraphs of GeminiAPIReport (lines 234-276);
    - [GeminiAPIPromptValidation.save_text_as_excel] and
      [save_text_as_docx], and [consistency_check.clean_extracted_text].

    Modelling choices:

    - a Python [str] is a list of code points; [str.strip] and [\s] use
      the whitespace set of [str.isspace];
    - [re.search] is a backtracking matcher for the fragment of [re] the
      pattern needs, tried at every start position from the left;
    - [json.loads] and [ast.literal_eval] are parameters: functions from
      a text to a value, or to nothing when they raise; where the source
      tells a [JSONDecodeError] from other exceptions, in
      [extract_json_from_response], [json.loads] is a function to a value
      or to the exception it raises;
    - the remote service and the file system are an environment that
      decides the outcome of every call; a script is a computation over
      the local variables that outlive a statement, which returns how it
      ends and the calls it made, in order;
    - exceptions, [continue], [try]/[except] and [try]/[finally] are
      combinators of that computation;
    - the polling loop has no bound in the source; the model gives it
      fuel, and running out of fuel is an ending of its own, which no
      handler and no [finally] block sees;
    - console lines are kept without their pictographs, and the encoding
      and newline translation of text-mode files are not modelled: a
      write is recorded with the [str] given to it;
    - [pandas] and [python-docx] are part of the environment: a call to
      them is recorded with its arguments - a table is the list of rows
      given to [pd.DataFrame], a Word document the paragraphs and runs
      added to it - and whether it raises is the environment's answer;
    - Python's [+] on a [float] or a [complex] is a parameter. *)

From Stdlib Require Import String Ascii NArith ZArith Arith Lia Bool List.
Import ListNotations.
Set Warnings "-register-all".
Open Scope string_scope.
Open Scope list_scope.

(* ===================================================================== *)
(** ** Python strings *)
(* ===================================================================== *)

(** A Python [str] is a sequence of Unicode code points. *)
Definition pychar := N.
Definition pystr := list pychar.

(** An ASCII literal of the source, as a Python [str]. *)
Definition py (s : string) : pystr := map N_of_ascii (list_ascii_of_string s).

(** [str.isspace] on one code point, which is also what [\s] matches in a
    [str] pattern: U+0009..U+000D, U+001C..U+0020, U+0085, U+00A0, U+1680,
    U+2000..U+200A, U+2028, U+2029, U+202F, U+205F, U+3000. *)
Definition isspace (c : pychar) : bool :=
  (((9 <=? c) && (c <=? 13)) || ((28 <=? c) && (c <=? 32)) ||
   (c =? 133) || (c =? 160) || (c =? 5760) ||
   ((8192 <=? c) && (c <=? 8202)) ||
   (c =? 8232) || (c =? 8233) || (c =? 8239) || (c =? 8287) || (c =? 12288))%N.

(** [str.lstrip()], [str.rstrip()] and [str.strip()] without argument. *)
Fixpoint lstrip (s : pystr) : pystr :=
  match s with
  | c :: s' => if isspace c then lstrip s' else s
  | [] => []
  end.

Definition rstrip (s : pystr) : pystr := rev (lstrip (rev s)).

Definition strip (s : pystr) : pystr := rstrip (lstrip s).

(** [s.startswith(p)] and [s.endswith(p)]. *)
Fixpoint startswith (s p : pystr) : bool :=
  match p, s with
  | [], _ => true
  | a :: p', b :: s' => (a =? b)%N && startswith s' p'
  | _ :: _, [] => false
  end.

Definition endswith (s p : pystr) : bool := startswith (rev s) (rev p).

(** The slices [s[n:]] and [s[:-n]] (for [n > 0]). *)
Definition slice_from (n : nat) (s : pystr) : pystr := skipn n s.
Definition slice_to_last (n : nat) (s : pystr) : pystr := firstn (length s - n) s.

(** [s[i:i+n]]. *)
Definition substr (i n : nat) (s : pystr) : pystr := firstn n (skipn i s).

(* ===================================================================== *)
(** ** The fragment of [re] the scripts use *)
(* ===================================================================== *)

(** One-character atoms: a literal, [\s], and [.] under [re.DOTALL]. *)
Inductive atom : Type :=
| Lit (c : pychar)
| Space
| Dot.

(** An atom, a greedy star [a*] or a lazy star [a*?]. *)
Inductive piece : Type :=
| One (a : atom)
| Star (a : atom)
| LazyStar (a : atom).

Definition regex := list piece.

Definition atom_matches (a : atom) (c : pychar) : bool :=
  match a with
  | Lit d => (d =? c)%N
  | Space => isspace c
  | Dot => true
  end.

(** The backtracking matcher, in the order [re] tries the alternatives.
    [k] is the rest of the pattern; the result is the length matched. *)
Fixpoint star_greedy (a : atom) (k : pystr -> option nat) (s : pystr) : option nat :=
  match s with
  | c :: s' =>
      if atom_matches a c then
        match star_greedy a k s' with
        | Some n => Some (S n)
        | None => k s
        end
      else k s
  | [] => k s
  end.

Fixpoint star_lazy (a : atom) (k : pystr -> option nat) (s : pystr) : option nat :=
  match k s with
  | Some n => Some n
  | None =>
      match s with
      | c :: s' => if atom_matches a c then option_map S (star_lazy a k s') else None
      | [] => None
      end
  end.

Fixpoint match_here (r : regex) (s : pystr) : option nat :=
  match r with
  | [] => Some 0
  | One a :: r' =>
      match s with
      | c :: s' => if atom_matches a c then option_map S (match_here r' s') else None
      | [] => None
      end
  | Star a :: r' => star_greedy a (match_here r') s
  | LazyStar a :: r' => star_lazy a (match_here r') s
  end.

(** [re.search]: the leftmost position where the pattern matches, as
    (start, length); [i] counts the characters already skipped. *)
Fixpoint search_from (r : regex) (i : nat) (s : pystr) : option (nat * nat) :=
  match match_here r s with
  | Some n => Some (i, n)
  | None =>
      match s with
      | [] => None
      | _ :: s' => search_from r (S i) s'
      end
  end.

(** [m.group(0)] of [re.search(r, s, re.DOTALL)], when there is a match. *)
Definition re_search (r : regex) (s : pystr) : option pystr :=
  match search_from r 0 s with
  | Some (i, n) => Some (substr i n s)
  | None => None
  end.

Definition lbracket : pychar := 91%N.
Definition rbracket : pychar := 93%N.
Definition lbrace : pychar := 123%N.
Definition rbrace : pychar := 125%N.

(** [r'\[\s*{.*?}\s*]'], which the other scripts write [r"\[\s*{.*?}\s*\]"]. *)
Definition array_pattern : regex :=
  [One (Lit lbracket); Star Space; One (Lit lbrace); LazyStar Dot;
   One (Lit rbrace); Star Space; One (Lit rbracket)].

(* ===================================================================== *)
(** ** Python values *)
(* ===================================================================== *)

(** What [json.loads] and [ast.literal_eval] return.  The scripts look at a
    value only through [is None], [isinstance(_, list)],
    [isinstance(_, dict)], truth value, iteration, [in] and [dict.get];
    a tuple, set, bytes or complex literal is [POther]. *)
Inductive pyval : Type :=
| PNone
| PBool (b : bool)
| PInt (z : Z)
| PFloat (bits : Z)
| PStr (s : pystr)
| PList (items : list pyval)
| PDict (items : list (pyval * pyval))
| POther (repr : pystr).

Definition is_none (v : pyval) : bool :=
  match v with PNone => true | _ => false end.

Definition is_list (v : pyval) : bool :=
  match v with PList _ => true | _ => false end.

Definition is_dict (v : pyval) : bool :=
  match v with PDict _ => true | _ => false end.

(** [isinstance(data, list) and data and isinstance(data[0], dict)]. *)
Definition tabular (data : pyval) : bool :=
  match data with
  | PList (first :: _) => is_dict first
  | _ => false
  end.

(* ===================================================================== *)
(** ** Exceptions *)
(* ===================================================================== *)

(** The exceptions the scripts meet, all of them subclasses of
    [Exception]. *)
Inductive exn : Type :=
| EnvError (what : string)        (* raised by the service or the file system *)
| JSONDecodeError
| AttributeError (what : string)
| TypeError (what : string)
| UnboundLocalError (variable : string)
| RecursionError                  (* json.loads on brackets nested too deep *)
| KeyError (key : string)         (* pandas on a column the table has not *)
| ValueError (what : string).     (* python-docx on a text XML cannot hold *)

(** How a call ends: with a value or with an exception. *)
Inductive outcome (A : Type) : Type :=
| Returns (a : A)
| Raises (e : exn).
Arguments Returns {A} a.
Arguments Raises {A} e.

(* ===================================================================== *)
(** ** GeminiAPIReport.extract_json_from_response *)
(* ===================================================================== *)

Section Extraction.

(** [json.loads] on a [str]: the value it returns or the exception it
    raises, [JSONDecodeError] on a text that is no JSON document and
    another one where the decoder gives up on a text (a [RecursionError]
    on brackets nested too deep).  [ast.literal_eval] on a [str]: [None]
    when it raises, as its only caller catches every exception. *)
Variable json_loads : pystr -> outcome pyval.
Variable literal_eval : pystr -> option pyval.

(** Lines 24-31: drop a leading [```json] or [```], a trailing [```],
    and strip again. *)
Definition remove_markdown (text : pystr) : pystr :=
  let text :=
    if startswith text (py "```json") then slice_from 7 text
    else if startswith text (py "```") then slice_from 3 text
    else text in
  let text := if endswith text (py "```") then slice_to_last 3 text else text in
  strip text.

(** Lines 33-39: [except JSONDecodeError] catches that exception and no
    other, so any other exception of [json.loads] leaves the function;
    [except Exception] around [literal_eval] catches them all. *)
Definition parse_whole (text : pystr) : outcome pyval :=
  match json_loads text with
  | Returns v => Returns v
  | Raises JSONDecodeError =>
      match literal_eval text with
      | Some v => Returns v
      | None => Returns PNone
      end
  | Raises e => Raises e
  end.

(** Lines 13-39.  The result is the Python value returned, [PNone] for
    Python's [None], or the exception that leaves the function.  Around
    the parse of the matched text, lines 19-22, [except Exception: pass]
    catches every exception. *)
Definition extract_json_from_response (text : pystr) : outcome pyval :=
  let text := strip text in
  match re_search array_pattern text with
  | Some group0 =>
      match json_loads group0 with
      | Returns v => Returns v
      | Raises _ => parse_whole (remove_markdown text)
      end
  | None => parse_whole (remove_markdown text)
  end.

End Extraction.

(* ===================================================================== *)
(** ** The structured-extraction policy, from its description *)
(* ===================================================================== *)

(** A bracketed, brace-delimited array block: an opening bracket, blanks,
    an opening brace, anything, a closing brace, blanks, a closing bracket. *)
Definition is_array_block (s : pystr) : bool :=
  match s with
  | c1 :: s1 =>
      (c1 =? lbracket)%N &&
      match lstrip s1 with
      | c2 :: s2 =>
          (c2 =? lbrace)%N &&
          match rev s2 with
          | c3 :: r3 =>
              (c3 =? rbracket)%N &&
              match lstrip r3 with
              | c4 :: _ => (c4 =? rbrace)%N
              | [] => false
              end
          | [] => false
          end
      | [] => false
      end
  | [] => false
  end.

(** The shortest prefix of [t] that is an array block (non-greedy). *)
Definition shortest_block (t : pystr) : option nat :=
  find (fun n => is_array_block (firstn n t)) (seq 0 (S (length t))).

(** The first position of the text where an array block starts, with the
    shortest block there. *)
Fixpoint first_block_from (i : nat) (t : pystr) : option (nat * nat) :=
  match shortest_block t with
  | Some n => Some (i, n)
  | None =>
      match t with
      | [] => None
      | _ :: t' => first_block_from (S i) t'
      end
  end.

Definition first_array_block (text : pystr) : option pystr :=
  match first_block_from 0 text with
  | Some (i, n) => Some (substr i n text)
  | None => None
  end.



Section ExtractionPolicy.

Variable json_loads : pystr -> outcome pyval.
Variable literal_eval : pystr -> option pyval.




End ExtractionPolicy.

(* ===================================================================== *)
(** ** The remote service, the file system and the calls made to them *)
(* ===================================================================== *)

(** A file of the service: [pdf_file.name] and [pdf_file.state.name]. *)
Record File : Type := { name : string; state_name : string }.

(** A completion: [response.text] raises, is [None], or is a [str]. *)
Record response : Type := { text : outcome (option pystr) }.

(** The calls a script makes, in the order it makes them.  The payload of
    a write is what is written; console lines are kept without their
    pictographs. *)
Inductive event : Type :=
| EvUploadFile (pdf_stem : string)              (* genai.upload_file(path=pdf_path) *)
| EvSleep (seconds : nat)                       (* time.sleep(seconds) *)
| EvGetFile (file : string)                     (* genai.get_file(name=...) *)
| EvGenerateContent (pdf_file : File)           (* model.generate_content([prompt, pdf_file]) *)
| EvDeleteFile (file : string)                  (* genai.delete_file(name=...) *)
| EvWriteText (path : string) (content : pystr) (* open(path, "w"); f.write(content) *)
| EvJsonDump (path : string) (data : pyval)     (* open(path, "w"); json.dump(data, f, indent=2) *)
| EvDataFrame (data : pyval)                    (* pd.DataFrame(data) *)
| EvToExcel (path : string) (data : pyval)      (* df.to_excel(path, index=False) *)
| EvSaveDocx (path : string) (content : pyval)  (* doc.save(path) *)
| EvPrint (line : string)
| EvPrintExn (line : string) (e : exn)          (* print(f"... {e}") *)
| EvPrintValue (v : pyval)                      (* print(df) *)
| EvAddHeading (text : string)                  (* doc.add_heading(text, level=1) *)
| EvAddParagraph (label : string) (value : option pyval)
                                                (* doc.add_paragraph(f"{label}{value}"),
                                                   doc.add_paragraph(label), doc.add_paragraph() *)
| EvAddRun (text : pystr) (bold : bool)         (* p.add_run(text), then run.bold = True
                                                   when [bold] *)
| EvPandas (operation : string).                (* a pandas call on the table made before *)

(** How the service and the disk answer while one document is processed:
    the upload, the k-th [get_file], the completion, the scoring of the
    answers in GeminiAPIReport, and whether any other call raises. *)
Record remote : Type := {
  on_upload_file : outcome File;
  on_get_file : nat -> outcome File;
  on_generate_content : outcome response;
  on_score_report : pyval -> outcome pyval;
  on_call : event -> option exn
}.

(** The local variables of the loop that outlive one statement, and the
    number of [get_file] calls made for the current document. *)
Record store : Type := {
  pdf_file : option File;
  df : option pyval;
  all_data : list pyval;
  summary_data : list pyval;
  polls : nat
}.

Definition empty_store : store :=
  {| pdf_file := None; df := None; all_data := []; summary_data := []; polls := 0 |}.

(** How a statement ends other than normally: an exception, [continue],
    or the model's fuel for the polling loop running out. *)
Inductive signal : Type :=
| Raise (e : exn)
| Continue
| OutOfFuel.

Inductive result (A : Type) : Type :=
| Normal (a : A)
| Abrupt (sg : signal).
Arguments Normal {A} a.
Arguments Abrupt {A} sg.

Definition M (A : Type) : Type := store -> result A * list event * store.

Definition ret {A} (a : A) : M A := fun s => (Normal a, [], s).

Definition bind {A B} (m : M A) (f : A -> M B) : M B :=
  fun s =>
    match m s with
    | (Normal a, t1, s1) =>
        match f a s1 with
        | (r, t2, s2) => (r, t1 ++ t2, s2)
        end
    | (Abrupt sg, t1, s1) => (Abrupt sg, t1, s1)
    end.

Declare Scope py_scope.
Delimit Scope py_scope with py.
Notation "x <- c1 ;; c2" := (bind c1 (fun x => c2))
  (at level 61, c1 at next level, right associativity) : py_scope.
Notation "c1 ;; c2" := (bind c1 (fun _ => c2))
  (at level 61, right associativity) : py_scope.
Open Scope py_scope.

Definition signal_ {A} (sg : signal) : M A := fun s => (Abrupt sg, [], s).
Definition raise {A} (e : exn) : M A := signal_ (Raise e).
Definition continue : M unit := signal_ Continue.
Definition out_of_fuel : M unit := signal_ OutOfFuel.

Definition emit (e : event) : M unit := fun s => (Normal tt, [e], s).
Definition print (line : string) : M unit := emit (EvPrint line).

(** A call that returns nothing: made, then raising if the environment
    says so. *)
Definition call (raises : event -> option exn) (e : event) : M unit :=
  fun s =>
    match raises e with
    | Some x => (Abrupt (Raise x), [e], s)
    | None => (Normal tt, [e], s)
    end.

Definition answer {A} (e : event) (o : outcome A) : M A :=
  fun s =>
    match o with
    | Returns a => (Normal a, [e], s)
    | Raises x => (Abrupt (Raise x), [e], s)
    end.

Definition of_outcome {A} (o : outcome A) : M A :=
  match o with
  | Returns a => ret a
  | Raises e => raise e
  end.

Definition get_store : M store := fun s => (Normal s, [], s).
Definition set_pdf_file (f : option File) : M unit :=
  fun s => (Normal tt, [],
            {| pdf_file := f; df := df s; all_data := all_data s;
               summary_data := summary_data s; polls := polls s |}).
Definition set_df (d : pyval) : M unit :=
  fun s => (Normal tt, [],
            {| pdf_file := pdf_file s; df := Some d; all_data := all_data s;
               summary_data := summary_data s; polls := polls s |}).
Definition append_all_data (item : pyval) : M unit :=
  fun s => (Normal tt, [],
            {| pdf_file := pdf_file s; df := df s; all_data := all_data s ++ [item];
               summary_data := summary_data s; polls := polls s |}).
Definition append_summary_data (row : pyval) : M unit :=
  fun s => (Normal tt, [],
            {| pdf_file := pdf_file s; df := df s; all_data := all_data s;
               summary_data := summary_data s ++ [row]; polls := polls s |}).
Definition set_polls (n : nat) : M unit :=
  fun s => (Normal tt, [],
            {| pdf_file := pdf_file s; df := df s; all_data := all_data s;
               summary_data := summary_data s; polls := n |}).

(** [try: body except Exception as e: handler]. *)
Definition try_except {A} (body : M A) (handler : exn -> M A) : M A :=
  fun s =>
    match body s with
    | (Abrupt (Raise e), t1, s1) =>
        match handler e s1 with
        | (r, t2, s2) => (r, t1 ++ t2, s2)
        end
    | other => other
    end.

(** [try: body finally: cleanup].  The cleanup runs however the body ends;
    when it ends abruptly itself, that replaces the body's ending. *)
Definition try_finally {A} (body : M A) (cleanup : M unit) : M A :=
  fun s =>
    match body s with
    | (Abrupt OutOfFuel, t1, s1) => (Abrupt OutOfFuel, t1, s1)
    | (r, t1, s1) =>
        match cleanup s1 with
        | (Normal _, t2, s2) => (r, t1 ++ t2, s2)
        | (Abrupt sg, t2, s2) => (Abrupt sg, t1 ++ t2, s2)
        end
    end.

(** One iteration of a [for] loop: [continue] ends the iteration. *)
Definition iteration (body : M unit) : M unit :=
  fun s =>
    match body s with
    | (Abrupt Continue, t, s1) => (Normal tt, t, s1)
    | other => other
    end.

Fixpoint for_each {A} (xs : list A) (body : A -> M unit) : M unit :=
  match xs with
  | [] => ret tt
  | x :: xs' => iteration (body x) ;; for_each xs' body
  end.

(** *** The calls to the service *)

Definition upload_file (w : remote) (pdf_stem : string) : M File :=
  answer (EvUploadFile pdf_stem) (on_upload_file w).

Definition get_file (w : remote) (file : string) : M File :=
  s <- get_store ;;
  set_polls (S (polls s)) ;;
  answer (EvGetFile file) (on_get_file w (polls s)).

Definition generate_content (w : remote) (f : File) : M response :=
  answer (EvGenerateContent f) (on_generate_content w).

(** [pdf_file], which the loop reads after it was assigned. *)
Definition the_pdf_file : M File :=
  s <- get_store ;;
  match pdf_file s with
  | Some f => ret f
  | None => raise (AttributeError "state")
  end.

(** [while pdf_file.state.name == "PROCESSING": time.sleep(5);
    pdf_file = genai.get_file(name=pdf_file.name)], which in
    ExtractEnergyInventoryActions.py ([echo]) goes on with
    [print(f"Current file state: {pdf_file.state.name}")]. *)
Fixpoint while_processing (w : remote) (echo : bool) (fuel : nat) : M unit :=
  f <- the_pdf_file ;;
  if (state_name f =? "PROCESSING")%string then
    match fuel with
    | O => out_of_fuel
    | S fuel' =>
        emit (EvSleep 5) ;;
        f' <- get_file w (name f) ;;
        set_pdf_file (Some f') ;;
        (if echo then print ("Current file state: " ++ state_name f') else ret tt) ;;
        while_processing w echo fuel'
    end
  else ret tt.

(** [response.text.strip()]. *)
Definition text_strip (r : response) : M pystr :=
  match text r with
  | Returns (Some t) => ret (strip t)
  | Returns None => raise (AttributeError "strip")
  | Raises e => raise e
  end.

Fixpoint print_all (lines : list string) : M unit :=
  match lines with
  | [] => ret tt
  | l :: rest => print l ;; print_all rest
  end.

(** The [finally] block the scripts share, up to the lines printed:
    [if pdf_file and hasattr(pdf_file, 'name'): try: genai.delete_file(
    name=pdf_file.name); print(...) except Exception as cleanup_error:
    print(...)].  A [File] is true and has a [name]. *)
Definition cleanup (w : remote) (deleted failed : string -> string)
    (advice : list string) : M unit :=
  s <- get_store ;;
  match pdf_file s with
  | Some f =>
      try_except
        (call (on_call w) (EvDeleteFile (name f)) ;;
         print (deleted (name f)))
        (fun e => emit (EvPrintExn (failed (name f)) e) ;; print_all advice)
  | None => ret tt
  end.

(** The folder a script is started on: whether [genai.configure] raises,
    whether the folder exists, whether creating the output folder raises,
    the stems of [folder.glob("*.pdf")], the environment of each file, and
    whether a call made after the loop raises. *)
Record folder : Type := {
  configure : option exn;
  is_dir : bool;
  mkdir : option exn;
  pdf_files : list string;
  service : string -> remote;
  after_loop : event -> option exn
}.

(** How a run of a script ends, with the calls it made. *)
Definition run (m : M unit) : result unit * list event :=
  match m empty_store with
  | (r, t, _) => (r, t)
  end.

(* ===================================================================== *)
(** ** GeminiAPIExtractActions.getScores and ExtractScope123Emissions.getScores *)
(* ===================================================================== *)

Module GeminiAPIExtractActions.
Section Script.

Variable json_loads : pystr -> option pyval.

(** ["_energy_actions"] in GeminiAPIExtractActions.py,
    ["_scope123_emissions"] in ExtractScope123Emissions.py. *)
Variable suffix : string.

Definition raw_path (stem : string) : string := stem ++ "_RAW.txt".
Definition json_path (stem : string) : string := stem ++ suffix ++ ".json".
Definition excel_path (stem : string) : string := stem ++ suffix ++ ".xlsx".

(** Lines 129-152: the matched text is parsed and saved. *)
Definition save_parsed (w : remote) (stem : string) (raw_text json_text : pystr) : M unit :=
  try_except
    (data <- match json_loads json_text with
             | Some v => ret v
             | None => raise JSONDecodeError
             end ;;
     call (on_call w) (EvJsonDump (json_path stem) data) ;;
     print ("Saved JSON: " ++ json_path stem) ;;
     if tabular data then
       call (on_call w) (EvDataFrame data) ;;
       set_df data ;;
       call (on_call w) (EvToExcel (excel_path stem) data) ;;
       print ("Saved Excel: " ++ excel_path stem)
     else
       print "JSON structure not suitable for tabular output.")
    (fun e =>
       emit (EvPrintExn "JSON parsing error: " e) ;;
       call (on_call w) (EvWriteText (raw_path stem) raw_text) ;;
       print ("Raw fallback saved: " ++ raw_path stem)).

(** Lines 114-152: the completion and what is made of its text. *)
Definition analyse (w : remote) (stem : string) (f : File) : M unit :=
  response <- generate_content w f ;;
  raw_text <- text_strip response ;;
  match re_search array_pattern raw_text with
  | None =>
      print "No structured JSON found." ;;
      call (on_call w) (EvWriteText (raw_path stem) raw_text) ;;
      print ("Saved raw output: " ++ raw_path stem) ;;
      continue
  | Some json_text => save_parsed w stem raw_text json_text
  end.

(** Lines 103-152: the body of the [try]. *)
Definition try_body (w : remote) (fuel : nat) (stem : string) : M unit :=
  f <- upload_file w stem ;;
  set_pdf_file (Some f) ;;
  print ("Uploaded: " ++ name f) ;;
  while_processing w false fuel ;;
  f <- the_pdf_file ;;
  if negb (state_name f =? "ACTIVE")%string then
    print ("File not active. Skipping: " ++ stem ++ ".pdf") ;;
    continue
  else analyse w stem f.

(** Lines 154-156: [print(df)] reads a local that is bound only once an
    earlier Excel conversion got as far as [pd.DataFrame]. *)
Definition handler (stem : string) (e : exn) : M unit :=
  s <- get_store ;;
  match df s with
  | Some d => emit (EvPrintValue d)
  | None => raise (UnboundLocalError "df")
  end ;;
  emit (EvPrintExn ("Error with file '" ++ stem ++ ".pdf': ") e).

(** Lines 99-164: one iteration of the loop over the PDF files. *)
Definition process_pdf (w : remote) (fuel : nat) (stem : string) : M unit :=
  print ("Processing: " ++ stem ++ ".pdf") ;;
  set_pdf_file None ;;
  set_polls 0 ;;
  try_finally (try_except (try_body w fuel stem) (handler stem))
    (cleanup w (fun n => ("Deleted Gemini file: " ++ n)%string)
       (fun _ => "File cleanup error: ") []).

(** Lines 9-164. *)
Definition getScores (env : folder) (fuel : nat) : M unit :=
  match configure env with
  | Some e => emit (EvPrintExn "Error configuring Gemini API: " e)
  | None =>
      print "Gemini API configured." ;;
      if negb (is_dir env) then print "Folder not found"
      else
        match mkdir env with
        | Some e => raise e
        | None =>
            print "Output folder: analysis_output_excel" ;;
            match pdf_files env with
            | [] => print "No PDF files found in folder."
            | files => for_each files (fun stem => process_pdf (service env stem) fuel stem)
            end
        end
  end.

End Script.
End GeminiAPIExtractActions.

Module ExtractScope123Emissions.

Definition getScores (json_loads : pystr -> option pyval) : folder -> nat -> M unit :=
  GeminiAPIExtractActions.getScores json_loads "_scope123_emissions".

End ExtractScope123Emissions.

(* ===================================================================== *)
(** ** The paragraphs of the Word document *)
(* ===================================================================== *)

(** ExtractEnergyInventoryActions.getScores, lines 99-113, which
    GeminiAPIAnalysis.py and consistency_check.py repeat: each non-blank
    line of the answer becomes a paragraph, whose runs are the texts
    between [**] markers, in bold, and the texts around them.  The
    paragraphs and runs are added by calls to python-docx, which raises
    [ValueError] on a text that XML cannot hold, such as a control
    character: whether a call raises is the environment's answer. *)

Definition newline : pychar := 10%N.
Definition asterisk : pychar := 42%N.

(** [s.split(sep)] for a separator of one character. *)
Fixpoint split_on (sep : pychar) (s : pystr) : list pystr :=
  match s with
  | [] => [[]]
  | c :: s' =>
      if (c =? sep)%N then [] :: split_on sep s'
      else
        match split_on sep s' with
        | piece :: pieces => (c :: piece) :: pieces
        | [] => [[c]]
        end
  end.

(** [re.compile(r"\*\*(.+?)\*\*")].  Without [re.DOTALL] the dot matches
    every character but a newline; the pattern is only used on the pieces
    of [split("\n")], which hold none, and there [Dot] matches the same. *)
Definition bold_pattern : regex :=
  [One (Lit asterisk); One (Lit asterisk); One Dot; LazyStar Dot;
   One (Lit asterisk); One (Lit asterisk)].

(** [pattern.finditer(s)] for a pattern that matches no empty text: the
    matches from left to right, none overlapping the one before, as
    (start, length).  [skip] characters are still covered by the last
    match; [i] counts the characters already passed. *)
Fixpoint finditer_from (r : regex) (skip i : nat) (s : pystr) {struct s} : list (nat * nat) :=
  match skip with
  | S k =>
      match s with
      | [] => []
      | _ :: s' => finditer_from r k (S i) s'
      end
  | O =>
      match match_here r s with
      | Some n =>
          (i, n) :: match s with
                    | [] => []
                    | _ :: s' => finditer_from r (pred n) (S i) s'
                    end
      | None =>
          match s with
          | [] => []
          | _ :: s' => finditer_from r 0 (S i) s'
          end
      end
  end.

Definition finditer (r : regex) (s : pystr) : list (nat * nat) := finditer_from r 0 0 s.

(** The text given to [p.add_run], with [run.bold = True] or left unset. *)
Record text_run : Type := { run_text : pystr; bold : bool }.

(** Lines 105-113: the runs of one paragraph.  [match.group(1)] is the
    match without its two asterisks at each end. *)
Fixpoint runs_between (line : pystr) (last_idx : nat) (matches : list (nat * nat)) : list text_run :=
  match matches with
  | (start, n) :: rest =>
      (if (last_idx <? start)%nat
       then [{| run_text := substr last_idx (start - last_idx) line; bold := false |}]
       else [])
      ++ {| run_text := substr (start + 2) (n - 4) line; bold := true |}
      :: runs_between line (start + n) rest
  | [] =>
      if (last_idx <? length line)%nat
      then [{| run_text := slice_from last_idx line; bold := false |}]
      else []
  end.

Definition paragraph_runs (line : pystr) : list text_run :=
  runs_between line 0 (finditer bold_pattern line).

(** [p.add_run(text)] for the runs of one paragraph, in order. *)
Fixpoint add_runs (raises : event -> option exn) (runs : list text_run) : M unit :=
  match runs with
  | [] => ret tt
  | r :: rest => call raises (EvAddRun (run_text r) (bold r)) ;; add_runs raises rest
  end.

(** Lines 101-113, the body of the loop over the lines: [line =
    line.strip(); if not line: continue; p = doc.add_paragraph(); ...]. *)
Definition add_line (raises : event -> option exn) (line : pystr) : M unit :=
  match strip line with
  | [] => continue
  | line =>
      call raises (EvAddParagraph "" None) ;;
      add_runs raises (paragraph_runs line)
  end.

(** Prompt_validation.getScores, lines 173-185: [if not line.strip():
    continue] skips the blank lines and leaves the others unstripped. *)
Definition add_unstripped_line (raises : event -> option exn) (line : pystr) : M unit :=
  match strip line with
  | [] => continue
  | _ =>
      call raises (EvAddParagraph "" None) ;;
      add_runs raises (paragraph_runs line)
  end.

(** Lines 96-113: the heading and the paragraphs of the lines. *)
Definition build_document (raises : event -> option exn) (heading : string)
    (lines : list pystr) : M unit :=
  call raises (EvAddHeading heading) ;;
  for_each lines (add_line raises).
Arguments build_document : simpl never.

(** *** The document a run of calls builds *)

(** The runs added at the start of a sequence of calls, and the
    paragraphs of a sequence of calls: one for each [add_paragraph], with
    the runs added right after it. *)
Fixpoint runs_added (t : list event) : list text_run :=
  match t with
  | EvAddRun text bold :: t' => {| run_text := text; bold := bold |} :: runs_added t'
  | _ => []
  end.

Fixpoint paragraphs_added (t : list event) : list (list text_run) :=
  match t with
  | [] => []
  | EvAddParagraph _ _ :: t' => runs_added t' :: paragraphs_added t'
  | _ :: t' => paragraphs_added t'
  end.

(** A call to python-docx that adds to the document. *)
Definition is_docx_call (e : event) : bool :=
  match e with
  | EvAddHeading _ | EvAddParagraph _ _ | EvAddRun _ _ => true
  | _ => false
  end.

(** The calls that add a list of paragraphs, and calls made one after
    the other until one raises. *)
Definition run_call (r : text_run) : event := EvAddRun (run_text r) (bold r).

Definition paragraph_calls (runs : list text_run) : list event :=
  EvAddParagraph "" None :: map run_call runs.

Definition docx_calls (paragraphs : list (list text_run)) : list event :=
  flat_map paragraph_calls paragraphs.

Fixpoint make_calls (raises : event -> option exn) (calls : list event) : M unit :=
  match calls with
  | [] => ret tt
  | c :: rest => call raises c ;; make_calls raises rest
  end.

(** The paragraphs the loop over the lines asks for: one for each line
    that is not blank, with the runs of the stripped line, and, in
    Prompt_validation.py, of the line as it is. *)
Definition requested_paragraphs (lines : list pystr) : list (list text_run) :=
  flat_map (fun piece =>
              match strip piece with
              | [] => []
              | line => [paragraph_runs line]
              end)
           lines.

Definition requested_unstripped (lines : list pystr) : list (list text_run) :=
  flat_map (fun line =>
              match strip line with
              | [] => []
              | _ => [paragraph_runs line]
              end)
           lines.

(** A paragraph written back with its markers. *)
Definition markdown_of (runs : list text_run) : pystr :=
  flat_map (fun r => if bold r
                     then asterisk :: asterisk :: run_text r ++ [asterisk; asterisk]
                     else run_text r)
           runs.

(** The lines that are not blank, stripped. *)
Definition nonblank (lines : list pystr) : list pystr :=
  filter (fun line => match line with [] => false | _ => true end) (map strip lines).

Definition nonblank_lines (text : pystr) : list pystr := nonblank (split_on newline text).

(** A document whose paragraphs all have a run, and whose runs are not
    empty and hold no newline. *)
Definition well_formed_runs (paragraph : list text_run) : Prop :=
  Forall (fun r => run_text r <> [] /\ ~ In newline (run_text r)) paragraph.

Definition well_formed_document (paragraphs : list (list text_run)) : Prop :=
  Forall (fun p => p <> [] /\ well_formed_runs p) paragraphs.

(** Python-docx that accepts every text. *)
Definition accepting (e : event) : option exn := None.

(** Python-docx that refuses a run with a character below U+0020 other
    than a tab, a line feed or a carriage return. *)
Definition is_control (c : pychar) : bool :=
  ((c <? 32) && negb ((c =? 9) || (c =? 10) || (c =? 13)))%N.

Definition refusing_controls (e : event) : option exn :=
  match e with
  | EvAddRun text _ =>
      if existsb is_control text
      then Some (ValueError "All strings must be XML compatible")
      else None
  | _ => None
  end.

(* ===================================================================== *)
(** ** ExtractEnergyInventoryActions.getScores *)
(* ===================================================================== *)

Module ExtractEnergyInventoryActions.

Definition docx_path (stem : string) : string := stem ++ "_analysis.docx".

(** Lines 81-89: the file did not become active. *)
Definition not_active (w : remote) (f : File) : M unit :=
  print "Error: File processing failed or file is not active." ;;
  print ("Final state: " ++ state_name f) ;;
  try_except
    (call (on_call w) (EvDeleteFile (name f)) ;;
     print ("Cleaned up file " ++ name f ++ " from server."))
    (fun e => emit (EvPrintExn ("Note: Could not delete file " ++ name f) e)) ;;
  continue.

(** Lines 93-117.  The Word document is built from the lines of
    [response.text.strip()], by calls that may raise, and then saved;
    what is kept of the saved document is that text. *)
Definition analyse (w : remote) (stem : string) (f : File) : M unit :=
  print "Sending request to Gemini for analysis..." ;;
  response <- generate_content w f ;;
  match text response with
  | Raises e => raise e
  | Returns (Some (c :: t)) =>
      build_document (on_call w) ("Analysis for " ++ stem ++ ".pdf")
        (split_on newline (strip (c :: t))) ;;
      call (on_call w) (EvSaveDocx (docx_path stem) (PStr (strip (c :: t)))) ;;
      print ("Analysis saved to: " ++ docx_path stem)
  | Returns _ => print "[No text content received in the response]"
  end.

(** Lines 71-117: the body of the [try]. *)
Definition try_body (w : remote) (fuel : nat) (stem : string) : M unit :=
  print "Uploading file to Gemini..." ;;
  f <- upload_file w stem ;;
  set_pdf_file (Some f) ;;
  print ("Successfully uploaded as file ID: " ++ name f) ;;
  print "Waiting for file processing..." ;;
  while_processing w true fuel ;;
  f <- the_pdf_file ;;
  if negb (state_name f =? "ACTIVE")%string then not_active w f
  else
    print "File processed and ready for analysis." ;;
    analyse w stem f.

(** Lines 67-129: one iteration of the loop over the PDF files. *)
Definition process_pdf (w : remote) (fuel : nat) (stem : string) : M unit :=
  print ("Processing '" ++ stem ++ ".pdf'...") ;;
  set_pdf_file None ;;
  set_polls 0 ;;
  try_finally
    (try_except (try_body w fuel stem)
       (fun e => emit (EvPrintExn "An error occurred during processing or analysis: " e)))
    (cleanup w (fun n => ("Deleted file " ++ n ++ " from Gemini server.")%string)
       (fun n => ("Warning: Failed to delete file " ++ n ++ " from Gemini server: ")%string)
       ["You may need to delete it manually via the API or console."]).

(** Lines 9-129. *)
Definition getScores (env : folder) (fuel : nat) : M unit :=
  match configure env with
  | Some e => emit (EvPrintExn "Error configuring Gemini API: " e)
  | None =>
      print "Gemini API configured." ;;
      if negb (is_dir env) then print "Error: Folder not found"
      else
        match mkdir env with
        | Some e => raise e
        | None =>
            print "Created/accessed output folder" ;;
            match pdf_files env with
            | [] => print "No PDF files found in the specified folder."
            | files => for_each files (fun stem => process_pdf (service env stem) fuel stem)
            end
        end
  end.

End ExtractEnergyInventoryActions.

(* ===================================================================== *)
(** ** GHGEmissionPercentage.extract_ghg_percentages *)
(* ===================================================================== *)

Fixpoint pystr_eqb (a b : pystr) : bool :=
  match a, b with
  | [], [] => true
  | x :: a', y :: b' => (x =? y)%N && pystr_eqb a' b'
  | _, _ => false
  end.

(** [value == key] for a [str] key. *)
Definition is_str (key : pystr) (value : pyval) : bool :=
  match value with
  | PStr s => pystr_eqb s key
  | _ => false
  end.

(** [key in s] for two [str]. *)
Fixpoint contains (s key : pystr) : bool :=
  startswith s key ||
  match s with
  | [] => false
  | _ :: s' => contains s' key
  end.

(** [for item in extracted]: the items iterated over.  [json.loads] returns
    no [POther]. *)
Definition iterate (v : pyval) : outcome (list pyval) :=
  match v with
  | PList items => Returns items
  | PDict items => Returns (map fst items)
  | PStr s => Returns (map (fun c => PStr [c]) s)
  | _ => Raises (TypeError "object is not iterable")
  end.

(** [key in item] for a [str] key. *)
Definition has_key (key : pystr) (item : pyval) : outcome bool :=
  match item with
  | PDict items => Returns (existsb (fun kv => is_str key (fst kv)) items)
  | PList items => Returns (existsb (is_str key) items)
  | PStr s => Returns (contains s key)
  | _ => Raises (TypeError "argument is not iterable")
  end.

(** [d.get(key, default)] and [d[key] = value] on the items of a [dict]. *)
Fixpoint dict_get (key : pystr) (default : pyval) (items : list (pyval * pyval)) : pyval :=
  match items with
  | [] => default
  | (k, v) :: rest => if is_str key k then v else dict_get key default rest
  end.

Fixpoint dict_set (key : pystr) (value : pyval) (items : list (pyval * pyval))
  : list (pyval * pyval) :=
  match items with
  | [] => [(PStr key, value)]
  | (k, v) :: rest =>
      if is_str key k then (k, value) :: rest else (k, v) :: dict_set key value rest
  end.

Module GHGEmissionPercentage.
Section Script.

Variable json_loads : pystr -> option pyval.

(** Lines 78-80. *)
Definition keep_item (stem : string) (item : pyval) : M unit :=
  present <- of_outcome (has_key (py "Sector") item) ;;
  if present then
    match item with
    | PDict items =>
        let name_ := dict_get (py "Document Name") (PStr (py (stem ++ ".pdf"))) items in
        append_all_data (PDict (dict_set (py "Document Name") name_ items))
    | _ => raise (AttributeError "get")
    end
  else ret tt.

Fixpoint keep_items (stem : string) (items : list pyval) : M unit :=
  match items with
  | [] => ret tt
  | item :: rest => keep_item stem item ;; keep_items stem rest
  end.

(** Lines 69-84. *)
Definition analyse (w : remote) (stem : string) (f : File) : M unit :=
  response <- generate_content w f ;;
  raw_text <- text_strip response ;;
  match re_search array_pattern raw_text with
  | Some json_block =>
      try_except
        (extracted <- match json_loads json_block with
                      | Some v => ret v
                      | None => raise JSONDecodeError
                      end ;;
         items <- of_outcome (iterate extracted) ;;
         keep_items stem items)
        (fun e => emit (EvPrintExn "JSON decode error: " e))
  | None => ret tt
  end ;;
  call (on_call w) (EvDeleteFile (name f)).

(** Lines 60-84: the body of the [try]. *)
Definition try_body (w : remote) (fuel : nat) (stem : string) : M unit :=
  f <- upload_file w stem ;;
  set_pdf_file (Some f) ;;
  while_processing w false fuel ;;
  print ("Processing: " ++ stem ++ ".pdf") ;;
  f <- the_pdf_file ;;
  if negb (state_name f =? "ACTIVE")%string then continue
  else analyse w stem f.

(** Lines 59-87: one iteration of the loop over the PDF files. *)
Definition process_pdf (w : remote) (fuel : nat) (stem : string) : M unit :=
  set_polls 0 ;;
  try_except (try_body w fuel stem)
    (fun e => emit (EvPrintExn ("Error processing " ++ stem ++ ".pdf: ") e)).

(** The pandas calls of lines 90-106, in order: the table of the rows,
    [df["Sector"].str.title()], [pd.ExcelWriter(output_excel)],
    [df.to_excel(writer, sheet_name="GHG Sector Breakdown")],
    [df.pivot_table(index="Document Name", columns="Sector",
    values="Percentage GHG", aggfunc="first").reset_index()],
    [pivot.to_excel(writer, sheet_name="Summary Table")], and the writer
    closed at the end of the [with] block. *)
Definition title_case : event := EvPandas "df[Sector].str.title()".
Definition excel_writer : event := EvPandas "pd.ExcelWriter(GHG_By_Sector_Extracted.xlsx)".
Definition breakdown_to_excel : event := EvPandas "df.to_excel(GHG Sector Breakdown)".
Definition pivot_table : event := EvPandas "df.pivot_table(Percentage GHG).reset_index()".
Definition pivot_to_excel : event := EvPandas "pivot.to_excel(Summary Table)".
Definition writer_close : event := EvPandas "writer.close()".

Definition workbook_calls (rows : list pyval) : list event :=
  [EvDataFrame (PList rows); title_case; excel_writer; breakdown_to_excel; pivot_table;
   pivot_to_excel; writer_close].

(** Lines 89-108: the rows kept go to one workbook.  Every step is a
    pandas call on the table of the rows, which may raise on the data
    alone - [.str.title()] on a column that holds no strings,
    [pivot_table] on rows without a ["Percentage GHG"] key - or on the
    disk: whether a call raises is the environment's answer.  Leaving
    the [with] block closes the writer, also when a call inside it
    raised. *)
Definition save_all (env : folder) : M unit :=
  s <- get_store ;;
  match all_data s with
  | [] => print "No GHG breakdown data extracted."
  | rows =>
      call (after_loop env) (EvDataFrame (PList rows)) ;;
      call (after_loop env) title_case ;;
      call (after_loop env) excel_writer ;;
      try_finally
        (call (after_loop env) breakdown_to_excel ;;
         call (after_loop env) pivot_table ;;
         call (after_loop env) pivot_to_excel)
        (call (after_loop env) writer_close) ;;
      print "Excel saved to: GHG_By_Sector_Extracted.xlsx"
  end.

(** Lines 8-108.  [genai.configure] and [mkdir] are not guarded here, and
    [mkdir] is reached also when the folder does not exist. *)
Definition extract_ghg_percentages (env : folder) (fuel : nat) : M unit :=
  match configure env with
  | Some e => raise e
  | None =>
      print "Gemini API configured." ;;
      if negb (is_dir env) then raise (EnvError "FileNotFoundError")
      else
        match mkdir env with
        | Some e => raise e
        | None =>
            for_each (pdf_files env)
              (fun stem => process_pdf (service env stem) fuel stem) ;;
            save_all env
        end
  end.

End Script.
End GHGEmissionPercentage.

(* ===================================================================== *)
(** ** GeminiAPIReport.getScores *)
(* ===================================================================== *)

Module GeminiAPIReport.
Section Script.

(** [json.loads] with the exception it raises, as
    [extract_json_from_response] distinguishes [JSONDecodeError]. *)
Variable json_loads : pystr -> outcome pyval.
Variable literal_eval : pystr -> option pyval.

Definition json_output_file (stem : string) : string := stem ++ "_analysis.json".
Definition output_docx (stem : string) : string := stem ++ "_analysis.docx".

(** Line 217: [response.text.strip() if response.text else ""]. *)
Definition raw_text_of (r : response) : M pystr :=
  match text r with
  | Raises e => raise e
  | Returns (Some (c :: t)) => ret (strip (c :: t))
  | Returns _ => ret []
  end.

(** Lines 230-278.  The heading is added to the Word report whatever
    the data is.  The loop over the answers adds their paragraphs and
    counts the category scores; the row it ends with, or the exception
    that ends it - an ill-shaped answer, a paragraph python-docx refuses -
    is the environment's [on_score_report], which [summary_row] spells
    out. *)
Definition report (w : remote) (stem : string) (analysis_data : pyval) : M unit :=
  call (on_call w) (EvAddHeading ("Analysis for " ++ stem ++ ".pdf")) ;;
  if is_list analysis_data then
    row <- of_outcome (on_score_report w analysis_data) ;;
    call (on_call w) (EvSaveDocx (output_docx stem) analysis_data) ;;
    print ("Word report saved: " ++ output_docx stem) ;;
    append_summary_data row
  else print "Skipping Excel summary - analysis data not a list.".

(** Lines 213-278.  An exception that leaves
    [extract_json_from_response] is raised here, before anything is
    written. *)
Definition analyse (w : remote) (stem : string) (f : File) : M unit :=
  print "Sending prompt to Gemini..." ;;
  response <- generate_content w f ;;
  raw_text <- raw_text_of response ;;
  analysis_data <- of_outcome (extract_json_from_response json_loads literal_eval raw_text) ;;
  if is_none analysis_data then
    print "JSON parsing failed. Saving raw response." ;;
    call (on_call w) (EvWriteText (json_output_file stem) raw_text) ;;
    continue
  else
    call (on_call w) (EvJsonDump (json_output_file stem) analysis_data) ;;
    print ("Structured JSON saved: " ++ json_output_file stem) ;;
    report w stem analysis_data.

(** Lines 201-278: the body of the [try]. *)
Definition try_body (w : remote) (fuel : nat) (stem : string) : M unit :=
  f <- upload_file w stem ;;
  set_pdf_file (Some f) ;;
  print ("Uploaded: " ++ stem ++ ".pdf") ;;
  while_processing w false fuel ;;
  f <- the_pdf_file ;;
  if negb (state_name f =? "ACTIVE")%string then
    print ("File not active. Skipping: " ++ stem ++ ".pdf") ;;
    call (on_call w) (EvDeleteFile (name f)) ;;
    continue
  else analyse w stem f.

(** Lines 197-289: one iteration of the loop over the PDF files. *)
Definition process_pdf (w : remote) (fuel : nat) (stem : string) : M unit :=
  print ("Processing '" ++ stem ++ ".pdf'...") ;;
  set_pdf_file None ;;
  set_polls 0 ;;
  try_finally
    (try_except (try_body w fuel stem)
       (fun e => emit (EvPrintExn "Error during analysis: " e)))
    (cleanup w (fun n => ("Deleted file from Gemini: " ++ n)%string)
       (fun n => ("Cleanup failed for " ++ n ++ ": ")%string) []).

(** Lines 291-295. *)
Definition save_summary (env : folder) : M unit :=
  s <- get_store ;;
  match summary_data s with
  | [] => ret tt
  | rows =>
      call (after_loop env) (EvDataFrame (PList rows)) ;;
      call (after_loop env) (EvToExcel "analysis_scores.xlsx" (PList rows)) ;;
      print "Excel summary saved at: analysis_scores.xlsx"
  end.

(** Lines 42-295. *)
Definition getScores (env : folder) (fuel : nat) : M unit :=
  match configure env with
  | Some e => emit (EvPrintExn "Error configuring Gemini API: " e)
  | None =>
      print "Gemini API configured." ;;
      if negb (is_dir env) then print "Error: Folder not found"
      else
        match mkdir env with
        | Some e => raise e
        | None =>
            print "Created/accessed output folder" ;;
            match pdf_files env with
            | [] => print "No PDF files found in the specified folder."
            | files =>
                for_each files (fun stem => process_pdf (service env stem) fuel stem) ;;
                save_summary env
            end
        end
  end.

End Script.
End GeminiAPIReport.

(* ===================================================================== *)
(** ** What is observed of a run *)
(* ===================================================================== *)

Definition ending {A} (m : M A) (s : store) : result A := fst (fst (m s)).
Definition trace {A} (m : M A) (s : store) : list event := snd (fst (m s)).
Definition final {A} (m : M A) (s : store) : store := snd (m s).

Definition is_delete (e : event) : bool :=
  match e with EvDeleteFile _ => true | _ => false end.
Definition is_generate (e : event) : bool :=
  match e with EvGenerateContent _ => true | _ => false end.
Definition is_get_file (e : event) : bool :=
  match e with EvGetFile _ => true | _ => false end.

(** The number of [genai.delete_file] calls, of [generate_content] calls
    and of [genai.get_file] calls among the calls made. *)
Definition deletions (t : list event) : nat := length (filter is_delete t).
Definition completions (t : list event) : nat := length (filter is_generate t).
Definition queries (t : list event) : nat := length (filter is_get_file t).

(** What the loop sees of the remote state: the file it holds when it
    starts, then the answers to its [get_file] calls. *)
Definition observed (w : remote) (s : store) (k : nat) : outcome File :=
  match k with
  | O =>
      match pdf_file s with
      | Some f => Returns f
      | None => Raises (AttributeError "state")
      end
  | S k' => on_get_file w (polls s + k')
  end.

(** The remote state is still PROCESSING (the specification's PENDING). *)
Definition pending (o : outcome File) : bool :=
  match o with
  | Returns f => (state_name f =? "PROCESSING")%string
  | Raises _ => false
  end.

Definition name_of (o : outcome File) : string :=
  match o with
  | Returns f => name f
  | Raises _ => ""
  end.

(** The line ExtractEnergyInventoryActions prints after a query. *)
Definition echo_line (echo : bool) (o : outcome File) : list event :=
  match o with
  | Returns f => if echo then [EvPrint ("Current file state: " ++ state_name f)] else []
  | Raises _ => []
  end.

(** [n] rounds of the polling loop: sleep five seconds, query the file
    last seen. *)
Definition polling_events (w : remote) (echo : bool) (s : store) (n : nat) : list event :=
  flat_map (fun k => EvSleep 5 :: EvGetFile (name_of (observed w s k))
                     :: echo_line echo (observed w s (S k)))
           (seq 0 n).

(** The same for a document from its upload on. *)
Definition uploaded (f : File) : store :=
  {| pdf_file := Some f; df := None; all_data := []; summary_data := []; polls := 0 |}.

(** A block occurs somewhere in the text. *)
Definition has_array_block (text : pystr) : Prop :=
  exists before block after,
    text = before ++ block ++ after /\ is_array_block block = true.

(** *** Environments the examples run on *)

Definition file_in (st : string) : File := {| name := "files/doc"; state_name := st |}.

(** The service answers PROCESSING twice, then [final_state]; the
    completion is [reply]; no call raises. *)
Definition service_after_two (final_state : string) (reply : pystr) : remote :=
  {| on_upload_file := Returns (file_in "PROCESSING");
     on_get_file := fun k => if (k <? 2)%nat then Returns (file_in "PROCESSING")
                             else Returns (file_in final_state);
     on_generate_content := Returns {| text := Returns (Some reply) |};
     on_score_report := fun _ => Returns (PDict []);
     on_call := fun _ => None |}.

(** The upload is refused. *)
Definition service_refusing : remote :=
  {| on_upload_file := Raises (EnvError "upload refused");
     on_get_file := fun _ => Raises (EnvError "no such file");
     on_generate_content := Raises (EnvError "no such file");
     on_score_report := fun _ => Returns (PDict []);
     on_call := fun _ => None |}.

(** The file never leaves PROCESSING. *)
Definition service_stuck : remote :=
  {| on_upload_file := Returns (file_in "PROCESSING");
     on_get_file := fun _ => Returns (file_in "PROCESSING");
     on_generate_content := Raises (EnvError "not ready");
     on_score_report := fun _ => Returns (PDict []);
     on_call := fun _ => None |}.

(** A decoder that accepts exactly the text [[{}]]. *)
Definition loads_empty_object_array (s : pystr) : option pyval :=
  if pystr_eqb s (py "[{}]") then Some (PList [PDict []]) else None.

Definition never (s : pystr) : option pyval := None.

(** [json.loads] for GeminiAPIReport, from a decoder that says which
    texts are JSON documents: [JSONDecodeError] on all others. *)
Definition or_decode_error (decoder : pystr -> option pyval) (s : pystr) : outcome pyval :=
  match decoder s with
  | Some v => Returns v
  | None => Raises JSONDecodeError
  end.

(** A JSON string literal: the text between double quotes. *)
Definition quote : pychar := 34%N.
Definition quoted (s : string) : pystr := quote :: py s ++ [quote].

(** The array of one object whose only value is the string of a closing
    brace and a closing bracket, and the value [json.loads] gives for it. *)
Definition bracket_in_string : pystr :=
  py "[{" ++ quoted "a" ++ py ": " ++ quoted "}]" ++ py "}]".

Definition bracket_in_string_value : pyval :=
  PList [PDict [(PStr (py "a"), PStr (py "}]"))]].

(** The array of one object whose only value is an array of one object. *)
Definition array_in_array : pystr :=
  py "[{" ++ quoted "a" ++ py ": [{" ++ quoted "b" ++ py ": 1}]}]".

Definition array_in_array_value : pyval :=
  PList [PDict [(PStr (py "a"), PList [PDict [(PStr (py "b"), PInt 1)]])]].

(** A decoder that is right on these two texts and on the texts the
    search cuts out of them, which are no JSON documents: it accepts the
    two texts and nothing else. *)
Definition loads_two_arrays (s : pystr) : option pyval :=
  if pystr_eqb s bracket_in_string then Some bracket_in_string_value
  else if pystr_eqb s array_in_array then Some array_in_array_value
  else None.

(** The array of one object whose only value is an array of numbers. *)
Definition numbers_in_array : pystr :=
  py "[{" ++ quoted "pages" ++ py ": [1, 2]}]".

Definition numbers_in_array_value : pyval :=
  PList [PDict [(PStr (py "pages"), PList [PInt 1; PInt 2])]].

Definition loads_numbers_in_array (s : pystr) : option pyval :=
  if pystr_eqb s numbers_in_array then Some numbers_in_array_value else None.



(** Two PDF files; the upload of the first is refused. *)
Definition two_files : folder :=
  {| configure := None; is_dir := true; mkdir := None;
     pdf_files := ["a"; "b"];
     service := fun stem => if (stem =? "a")%string then service_refusing
                            else service_after_two "ACTIVE" (py "[{}]");
     after_loop := fun _ => None |}.

(** *** Notions the statements use *)

(** Only blanks. *)
Definition blanks (ws : pystr) : Prop := forallb isspace ws = true.

(** A continuation of the matcher that fails on the empty text and on a
    text that starts with a blank. *)
Definition needs_nonblank (k : pystr -> option nat) : Prop :=
  k [] = None /\ forall c u, isspace c = true -> k (c :: u) = None.

(** The empty text, or a text that starts with a non-blank. *)
Definition nonblank_start (u : pystr) : Prop :=
  u = [] \/ exists c t, u = c :: t /\ isspace c = false.

(** The end of the array pattern, [}\s*]], and the texts that start with
    a match of it, [n] characters long. *)
Definition close_pattern : regex := [One (Lit rbrace); Star Space; One (Lit rbracket)].

Definition closing (v : pystr) (n : nat) : Prop :=
  exists ws rest, v = rbrace :: ws ++ rbracket :: rest /\ blanks ws /\ n = length ws + 2.

(** The text of an array block, and the texts that start with one of [n]
    characters. *)
Definition block_text (ws1 body ws2 : pystr) : pystr :=
  lbracket :: ws1 ++ lbrace :: body ++ rbrace :: ws2 ++ [rbracket].

Definition block_prefix (t : pystr) (n : nat) : Prop :=
  exists ws1 body ws2 rest,
    t = lbracket :: ws1 ++ lbrace :: body ++ rbrace :: ws2 ++ rbracket :: rest /\
    blanks ws1 /\ blanks ws2 /\ n = length ws1 + length body + length ws2 + 4.

(** The store after a [get_file] call answered with [f], and after one
    that raised. *)
Definition polled (s : store) (f : File) : store :=
  {| pdf_file := Some f; df := df s; all_data := all_data s;
     summary_data := summary_data s; polls := S (polls s) |}.

Definition asked (s : store) : store :=
  {| pdf_file := pdf_file s; df := df s; all_data := all_data s;
     summary_data := summary_data s; polls := S (polls s) |}.

(** How the loop ends on the first observation that is not PROCESSING. *)
Definition loop_ending (o : outcome File) : result unit :=
  match o with
  | Returns _ => Normal tt
  | Raises e => Abrupt (Raise e)
  end.

(** The store of an iteration once the upload returned [f]. *)
Definition holding (s : store) (f : File) : store :=
  {| pdf_file := Some f; df := df s; all_data := all_data s;
     summary_data := summary_data s; polls := 0 |}.

(** An ending that is normal or an exception. *)
Definition returns_or_raises {A} (r : result A) : Prop :=
  match r with
  | Normal _ | Abrupt (Raise _) => True
  | Abrupt _ => False
  end.

(** An ending that is no exception. *)
Definition no_exception {A} (r : result A) : Prop :=
  match r with
  | Abrupt (Raise _) => False
  | _ => True
  end.

(** One row with a sector and no percentage, and a decoder that is
    right on its text. *)
Definition sector_row_text : pystr :=
  py "[{" ++ quoted "Sector" ++ py ": " ++ quoted "waste" ++ py "}]".

Definition loads_sector_row (s : pystr) : option pyval :=
  if pystr_eqb s sector_row_text
  then Some (PList [PDict [(PStr (py "Sector"), PStr (py "waste"))]])
  else None.

(** One PDF file whose answer is that row; the service and the disk
    refuse nothing, and [pivot_table] raises [KeyError] on the table,
    which has no ["Percentage GHG"] column. *)
Definition folder_without_percentage : folder :=
  {| configure := None; is_dir := true; mkdir := None;
     pdf_files := ["a"];
     service := fun _ => service_after_two "ACTIVE" sector_row_text;
     after_loop := fun e => match e with
                            | EvPandas "df.pivot_table(Percentage GHG).reset_index()" =>
                                Some (KeyError "Percentage GHG")
                            | _ => None
                            end |}.

(** One PDF file in a folder where the output folder cannot be created. *)
Definition unwritable_folder : folder :=
  {| configure := None; is_dir := true; mkdir := Some (EnvError "PermissionError");
     pdf_files := ["a"]; service := fun _ => service_refusing;
     after_loop := fun _ => None |}.

(* ===================================================================== *)
(** ** GeminiAPIReport.getScores: the category scores *)
(* ===================================================================== *)

(** Lines 234-276: the scores of the four categories, the paragraphs
    added to the Word document for each answer, and the summary row made
    of the scores.  The row, or the exception that ends the loop over the
    answers, is what [on_score_report] stands for in
    [GeminiAPIReport.report]. *)

(** An [int], or a [bool] where Python takes it as one. *)
Definition as_int (v : pyval) : option Z :=
  match v with
  | PInt z => Some z
  | PBool b => Some (Z.b2z b)
  | _ => None
  end.

(** [repr] of a [bytes] literal. *)
Definition is_bytes_repr (repr : pystr) : bool :=
  startswith repr (py "b'") || startswith repr [98%N; 34%N].

(** Lines 260-267: the paragraphs of one answer, each the text of a
    label and a field of the answer, and a rule of forty hyphens. *)
Definition answer_paragraphs (item : pyval) : list event :=
  match item with
  | PDict fields =>
      [EvAddParagraph "Question ID: "
         (Some (dict_get (py "question_id") (PStr (py "N/A")) fields));
       EvAddParagraph "Question: "
         (Some (dict_get (py "question_text") (PStr (py "N/A")) fields));
       EvAddParagraph "Relevant Snippet: "
         (Some (dict_get (py "relevant_snippet") (PStr (py "N/A")) fields));
       EvAddParagraph "Page Number: "
         (Some (dict_get (py "page_no") (PStr (py "N/A")) fields));
       EvAddParagraph "Answer: "
         (Some (dict_get (py "answer") (PStr (py "N/A")) fields));
       EvAddParagraph "Justification: "
         (Some (dict_get (py "justification") (PStr []) fields));
       EvAddParagraph "Score: "
         (Some (dict_get (py "score") (PInt 0) fields));
       EvAddParagraph "----------------------------------------" None]
  | _ => []
  end.

Section Scoring.

(** Python's [+] on two numbers one of which is a [float] or a [complex],
    arithmetic the model leaves to the environment; it raises on what is
    no number. *)
Variable number_add : pyval -> pyval -> outcome pyval.

(** Whether python-docx raises on a call: [doc.add_paragraph(text)]
    raises [ValueError] on a text that XML cannot hold. *)
Variable raises : event -> option exn.

(** The exception of the first of a list of calls that raises. *)
Fixpoint first_refusal (calls : list event) : option exn :=
  match calls with
  | [] => None
  | c :: rest =>
      match raises c with
      | Some e => Some e
      | None => first_refusal rest
      end
  end.

(** [total += score] and [total + score], for [total] a number. *)
Definition add_score (total score : pyval) : outcome pyval :=
  match score with
  | PNone | PStr _ | PList _ | PDict _ =>
      Raises (TypeError "unsupported operand type(s) for +")
  | _ =>
      match as_int total, as_int score with
      | Some a, Some b => Returns (PInt (a + b))
      | _, _ => number_add total score
      end
  end.

(** Lines 234-239. *)
Definition initial_scores : list (pyval * pyval) :=
  [(PStr (py "Emissions Inventory"), PInt 0);
   (PStr (py "Strategy Identification"), PInt 0);
   (PStr (py "Action Prioritization & Detailing"), PInt 0);
   (PStr (py "Monitoring, Evaluation & Reporting (MER)"), PInt 0)].

(** Lines 251-258: the category a question id counts for. *)
Definition category_of (qid : pystr) : option pystr :=
  if startswith qid (py "1.") then Some (py "Emissions Inventory")
  else if startswith qid (py "2.") then Some (py "Strategy Identification")
  else if startswith qid (py "3.") then Some (py "Action Prioritization & Detailing")
  else if startswith qid (py "4.") then Some (py "Monitoring, Evaluation & Reporting (MER)")
  else None.

(** Lines 243-258 for one answer: [item.get] needs a [dict],
    [qid.startswith] a [str]. *)
Definition count_answer (category_scores : list (pyval * pyval)) (item : pyval)
  : outcome (list (pyval * pyval)) :=
  match item with
  | PDict fields =>
      let qid := dict_get (py "question_id") (PStr (py "N/A")) fields in
      let score := dict_get (py "score") (PInt 0) fields in
      match qid with
      | PStr q =>
          match category_of q with
          | Some category =>
              match add_score (dict_get category PNone category_scores) score with
              | Returns v => Returns (dict_set category v category_scores)
              | Raises e => Raises e
              end
          | None => Returns category_scores
          end
      | POther repr =>
          if is_bytes_repr repr
          then Raises (TypeError "startswith first arg must be bytes")
          else Raises (AttributeError "startswith")
      | _ => Raises (AttributeError "startswith")
      end
  | _ => Raises (AttributeError "get")
  end.

(** Lines 243-267 for one answer: the score is counted, then the
    paragraphs are added; the first call that raises ends the loop. *)
Definition score_item (category_scores : list (pyval * pyval)) (item : pyval)
  : outcome (list (pyval * pyval)) :=
  match count_answer category_scores item with
  | Returns scores =>
      match first_refusal (answer_paragraphs item) with
      | Some e => Raises e
      | None => Returns scores
      end
  | Raises e => Raises e
  end.

(** Line 242: the loop over the answers. *)
Fixpoint score_items (category_scores : list (pyval * pyval)) (items : list pyval)
  : outcome (list (pyval * pyval)) :=
  match items with
  | [] => Returns category_scores
  | item :: rest =>
      match score_item category_scores item with
      | Returns scores => score_items scores rest
      | Raises e => Raises e
      end
  end.

(** [sum(values)]: the values added to 0 from left to right. *)
Fixpoint py_sum (start : pyval) (values : list pyval) : outcome pyval :=
  match values with
  | [] => Returns start
  | v :: rest =>
      match add_score start v with
      | Returns s => py_sum s rest
      | Raises e => Raises e
      end
  end.

(** Lines 241-276: the loop over the answers, and the row
    [{"City": pdf_path.stem, **category_scores,
    "Total Score": sum(category_scores.values())}]. *)
Definition summary_row (stem : string) (analysis_data : list pyval) : outcome pyval :=
  match score_items initial_scores analysis_data with
  | Returns category_scores =>
      match py_sum (PInt 0) (map snd category_scores) with
      | Returns total =>
          Returns (PDict ((PStr (py "City"), PStr (py stem)) :: category_scores
                          ++ [(PStr (py "Total Score"), total)]))
      | Raises e => Raises e
      end
  | Raises e => Raises e
  end.

End Scoring.

(** What an answer adds to the category of the ids that start with
    [prefix]. *)
Definition scored (prefix : pystr) (item : pyval) : Z :=
  match item with
  | PDict fields =>
      match dict_get (py "question_id") (PStr (py "N/A")) fields,
            as_int (dict_get (py "score") (PInt 0) fields) with
      | PStr q, Some z => if startswith q prefix then z else 0%Z
      | _, _ => 0%Z
      end
  | _ => 0%Z
  end.

Definition category_total (prefix : pystr) (items : list pyval) : Z :=
  fold_right Z.add 0%Z (map (scored prefix) items).

(** An answer that is an object whose question id, when it has one, is a
    string and whose score, when it has one, is an integer or a boolean. *)
Definition well_shaped (item : pyval) : bool :=
  match item with
  | PDict fields =>
      match dict_get (py "question_id") (PStr (py "N/A")) fields,
            as_int (dict_get (py "score") (PInt 0) fields) with
      | PStr _, Some _ => true
      | _, _ => false
      end
  | _ => false
  end.

(** Python-docx accepts the paragraphs of every answer of a list. *)
Definition accepted (raises : event -> option exn) (items : list pyval) : Prop :=
  Forall (fun item => first_refusal raises (answer_paragraphs item) = None) items.

(** The four scores as the loop holds them. *)
Definition scores_of (a b c d : Z) : list (pyval * pyval) :=
  [(PStr (py "Emissions Inventory"), PInt a);
   (PStr (py "Strategy Identification"), PInt b);
   (PStr (py "Action Prioritization & Detailing"), PInt c);
   (PStr (py "Monitoring, Evaluation & Reporting (MER)"), PInt d)].

(** A score that no number can be added to. *)
Definition no_number (score : pyval) : bool :=
  match score with
  | PNone | PStr _ | PList _ | PDict _ => true
  | _ => false
  end.

(** A question id given as a number. *)
Definition is_number (qid : pyval) : bool :=
  match qid with
  | PInt _ | PFloat _ => true
  | _ => false
  end.

(** Answers for the examples: two counted, one whose id starts with [10.]
    and one that is empty. *)
Definition answer_of (qid : string) (score : Z) : pyval :=
  PDict [(PStr (py "question_id"), PStr (py qid)); (PStr (py "score"), PInt score)].

Definition four_answers : list pyval :=
  [answer_of "1.1" 1; answer_of "2.3" 1; answer_of "10.1" 5; PDict []].

(** No float among the scores: [number_add] is never asked. *)
Definition no_float (a b : pyval) : outcome pyval := Raises (TypeError "float").

(** Python-docx that refuses a paragraph made of a string with a
    character below U+0020 other than a tab, a line feed or a carriage
    return. *)
Definition refusing_control_fields (e : event) : option exn :=
  match e with
  | EvAddParagraph _ (Some (PStr text)) =>
      if existsb is_control text
      then Some (ValueError "All strings must be XML compatible")
      else None
  | _ => None
  end.

(** An answer whose justification holds the control character U+0001. *)
Definition answer_with_control : pyval :=
  PDict [(PStr (py "question_id"), PStr (py "1.2")); (PStr (py "score"), PInt 1);
         (PStr (py "justification"), PStr (py "see" ++ [1%N] ++ py "p. 4"))].

(* ===================================================================== *)
(** ** GeminiAPIPromptValidation.save_text_as_excel: the two tables *)
(* ===================================================================== *)

Definition tab : pychar := 9%N.
Definition bar : pychar := 124%N.

(** The line boundaries of [str.splitlines]: LF, VT, FF, CR, FS, GS, RS,
    NEL, LS and PS; CR LF counts as one. *)
Definition is_linebreak (c : pychar) : bool :=
  (((10 <=? c) && (c <=? 13)) || ((28 <=? c) && (c <=? 30)) ||
   (c =? 133) || (c =? 8232) || (c =? 8233))%N.

Definition push_char (c : pychar) (lines : list pystr) : list pystr :=
  match lines with
  | l :: ls => (c :: l) :: ls
  | [] => [[c]]
  end.

(** [s.splitlines()]. *)
Fixpoint splitlines (s : pystr) : list pystr :=
  match s with
  | [] => []
  | c :: s' =>
      if (c =? 13)%N then
        match s' with
        | d :: s'' => if (d =? 10)%N then [] :: splitlines s'' else [] :: splitlines s'
        | [] => [[]]
        end
      else if is_linebreak c then [] :: splitlines s'
      else push_char c (splitlines s')
  end.

(** Lines 224-225 and 229-230: [row = line.replace("|", "\t").split("\t")]
    and [row = [cell.strip() for cell in row if cell.strip()]]. *)
Definition cells (line : pystr) : list pystr :=
  filter (fun cell => match cell with [] => false | _ => true end)
         (map strip (split_on tab (map (fun c => if (c =? bar)%N then tab else c) line))).

Inductive table : Type := Coverage | Validation.

(** The locals of the loop. *)
Record tables : Type := {
  coverage_matrix : list (list pystr);
  validation_table : list (list pystr);
  current_table : option table
}.

(** Lines 210-232: one line of the text. *)
Definition parse_line (st : tables) (raw_line : pystr) : tables :=
  let line := strip raw_line in
  match line with
  | [] => st
  | _ =>
      if contains line (py "Output Format 1:") ||
         contains line (py "C40 Key Parameter Coverage Matrix")
      then {| coverage_matrix := coverage_matrix st;
              validation_table := validation_table st;
              current_table := Some Coverage |}
      else if contains line (py "Output Format 2:") ||
              contains line (py "Enhanced Validation Table")
      then {| coverage_matrix := coverage_matrix st;
              validation_table := validation_table st;
              current_table := Some Validation |}
      else if contains line [tab] || contains line [bar] then
        match current_table st, cells line with
        | Some Coverage, c :: row =>
            {| coverage_matrix := coverage_matrix st ++ [c :: row];
               validation_table := validation_table st;
               current_table := current_table st |}
        | Some Validation, c :: row =>
            {| coverage_matrix := coverage_matrix st;
               validation_table := validation_table st ++ [c :: row];
               current_table := current_table st |}
        | _, _ => st
        end
      else st
  end.

Definition no_coverage : list pystr :=
  [py "No data available"; py "N/A"; py "N/A"; py "N/A"; py "No data parsed from analysis"].

Definition no_validation : list pystr :=
  [py "No data available"; py "N/A"; py "N/A"; py "No data parsed from analysis"].

(** Lines 235-247: the tables as they are given to [pd.DataFrame], the
    first row for the columns. *)
Definition with_defaults (header no_data : list pystr) (rows : list (list pystr))
  : list (list pystr) :=
  let rows := match rows with [] => [header; no_data] | _ => rows end in
  match rows with
  | [only] => [only; no_data]
  | _ => rows
  end.

(** Lines 201-247: the coverage matrix and the validation table. *)
Definition parse_tables (text : pystr) : list (list pystr) * list (list pystr) :=
  let st := fold_left parse_line (splitlines text)
              {| coverage_matrix := []; validation_table := []; current_table := None |} in
  (with_defaults
     [py "Key Parameter"; py "Covered by Question(s)?"; py "Question ID(s)"; py "Gap?";
      py "Comments"]
     no_coverage (coverage_matrix st),
   with_defaults
     [py "Question ID"; py "Aligned with C40?"; py "Key Parameters Missing"; py "Comments"]
     no_validation (validation_table st)).

(** A cell that is not empty and has no blank at either end. *)
Definition clean_cell (cell : pystr) : Prop := cell <> [] /\ strip cell = cell.

(** A table of rows with at least one cell each, all of them clean. *)
Definition clean_table (rows : list (list pystr)) : Prop :=
  Forall (fun row => row <> [] /\ Forall clean_cell row) rows.

(** None of the four titles that switch the table stands in the line. *)
Definition no_title (raw_line : pystr) : bool :=
  let line := strip raw_line in
  negb (contains line (py "Output Format 1:") ||
        contains line (py "C40 Key Parameter Coverage Matrix") ||
        contains line (py "Output Format 2:") ||
        contains line (py "Enhanced Validation Table")).

(** GeminiAPIPromptValidation.save_text_as_docx, lines 180-198: the
    heading, the paragraphs of the lines of [text.splitlines()], which
    report_check.save_summaries_to_docx adds with the same loop (lines
    186-200), and [doc.save(output_path)]. *)
Definition save_text_as_docx (raises : event -> option exn) (text : pystr)
    (output_path : string) : M unit :=
  build_document raises "C40 Climate Action Plan Analysis" (splitlines text) ;;
  call raises (EvSaveDocx output_path (PStr text)).

(* ===================================================================== *)
(** ** consistency_check.clean_extracted_text *)
(* ===================================================================== *)

(** [re.sub(class+, replacement, s)] for a class of characters and a
    replacement of one character: every maximal run of the class becomes
    the replacement.  [inside] tells that the run was already replaced. *)
Fixpoint sub_runs (in_class : pychar -> bool) (replacement : pychar) (inside : bool)
    (s : pystr) : pystr :=
  match s with
  | [] => []
  | c :: s' =>
      if in_class c then
        if inside then sub_runs in_class replacement true s'
        else replacement :: sub_runs in_class replacement true s'
      else c :: sub_runs in_class replacement false s'
  end.

Definition is_space_or_tab (c : pychar) : bool := ((c =? 32) || (c =? 9))%N.
Definition is_newline (c : pychar) : bool := (c =? 10)%N.

(** The text starts with a run of spaces, maybe empty, and a newline. *)
Fixpoint spaces_then_newline (s : pystr) : bool :=
  match s with
  | [] => false
  | c :: s' => if (c =? 32)%N then spaces_then_newline s' else (c =? 10)%N
  end.

(** [re.sub(r" +\n", "\n", s)]: a space goes when only spaces stand
    between it and the next newline. *)
Fixpoint sub_spaces_before_newline (s : pystr) : pystr :=
  match s with
  | [] => []
  | c :: s' =>
      if (c =? 32)%N && spaces_then_newline s' then sub_spaces_before_newline s'
      else c :: sub_spaces_before_newline s'
  end.

(** Lines 222-227: [re.sub(r"[ \t]+", " ", text)], then
    [re.sub(r"\n{2,}", "\n", text)], which leaves a single newline as it
    is, then [re.sub(r" +\n", "\n", text)],
    [text.encode("ascii", "ignore").decode()] and [text.strip()]. *)
Definition clean_extracted_text (text : pystr) : pystr :=
  let text := sub_runs is_space_or_tab 32%N false text in
  let text := sub_runs is_newline 10%N false text in
  let text := sub_spaces_before_newline text in
  let text := filter (fun c => (c <? 128)%N) text in
  strip text.

(* ===================================================================== *)
(** ** Further notions on the calls of a run *)
(* ===================================================================== *)

(** Every completion among the calls is requested on a file the service
    reported ACTIVE. *)
Definition completes_only_active (t : list event) : Prop :=
  forall f, In (EvGenerateContent f) t -> state_name f = "ACTIVE".

(** At most one completion, and that one on an ACTIVE file. *)
Definition at_most_one_on_active (t : list event) : Prop :=
  completes_only_active t /\ completions t <= 1.

Definition is_upload (e : event) : bool :=
  match e with EvUploadFile _ => true | _ => false end.

(** The [genai.upload_file] calls among the calls made, in order. *)
Definition uploads (t : list event) : list event := filter is_upload t.

(** *** Further environments the examples run on *)

(** The locals of the loop once an earlier document got as far as
    [pd.DataFrame]. *)
Definition table_bound : store :=
  {| pdf_file := None; df := Some (PList [PDict []]); all_data := [];
     summary_data := []; polls := 0 |}.

(** The file is ACTIVE at once and the completion request raises. *)
Definition service_failing_completion : remote :=
  {| on_upload_file := Returns (file_in "ACTIVE");
     on_get_file := fun _ => Returns (file_in "ACTIVE");
     on_generate_content := Raises (EnvError "quota exceeded");
     on_score_report := fun _ => Returns (PDict []);
     on_call := fun _ => None |}.

(** The disk accepts everything but the write of a workbook. *)
Definition service_without_excel : remote :=
  {| on_upload_file := Returns (file_in "ACTIVE");
     on_get_file := fun _ => Returns (file_in "ACTIVE");
     on_generate_content := Returns {| text := Returns (Some (py "[{}]")) |};
     on_score_report := fun _ => Returns (PDict []);
     on_call := fun e => match e with
                         | EvToExcel _ _ => Some (EnvError "PermissionError")
                         | _ => None
                         end |}.

(** The file is ACTIVE at once, the answer is one line with the control
    character U+0001, and python-docx refuses the run that holds it. *)
Definition service_with_control : remote :=
  {| on_upload_file := Returns (file_in "ACTIVE");
     on_get_file := fun _ => Returns (file_in "ACTIVE");
     on_generate_content := Returns {| text := Returns (Some (py "a" ++ [1%N] ++ py "b")) |};
     on_score_report := fun _ => Returns (PDict []);
     on_call := refusing_controls |}.

(** The file is ACTIVE at once and the response carries no text. *)
Definition service_without_text : remote :=
  {| on_upload_file := Returns (file_in "ACTIVE");
     on_get_file := fun _ => Returns (file_in "ACTIVE");
     on_generate_content := Returns {| text := Returns None |};
     on_score_report := fun _ => Returns (PDict []);
     on_call := fun _ => None |}.

(* ===================================================================== *)
(** * Properties *)
(* ===================================================================== *)

(* ===================================================================== *)
(** ** Blanks and stripping *)
(* ===================================================================== *)

(** ** Blanks and stripping *)
Lemma lstrip_blanks (ws rest : pystr) :
  blanks ws -> lstrip (ws ++ rest) = lstrip rest.
Proof.
  unfold blanks. induction ws as [|c ws IH]; simpl; intros H; [reflexivity|].
  apply andb_prop in H. destruct H as [Hc Hws]. rewrite Hc. auto.
Qed.

Lemma lstrip_nonblank (c : pychar) (rest : pystr) :
  isspace c = false -> lstrip (c :: rest) = c :: rest.
Proof. intros H. simpl. now rewrite H. Qed.

Lemma lstrip_split (s : pystr) :
  exists ws, s = ws ++ lstrip s /\ blanks ws.
Proof.
  induction s as [|c s IH].
  - exists []. split; reflexivity.
  - simpl. destruct (isspace c) eqn:E.
    + destruct IH as (ws & H1 & H2). exists (c :: ws). split.
      * simpl. now rewrite <- H1.
      * unfold blanks in *. simpl. now rewrite E.
    + exists []. split; reflexivity.
Qed.

Lemma lstrip_head (s : pystr) (c : pychar) (rest : pystr) :
  lstrip s = c :: rest -> isspace c = false.
Proof.
  induction s as [|d s IH]; simpl; [discriminate|].
  destruct (isspace d) eqn:E; [exact IH|].
  intros H. injection H as <- _. exact E.
Qed.

Lemma lstrip_idem (s : pystr) : lstrip (lstrip s) = lstrip s.
Proof.
  destruct (lstrip s) as [|c rest] eqn:E; [reflexivity|].
  apply lstrip_nonblank. eapply lstrip_head; eauto.
Qed.

Lemma blanks_app (a b : pystr) : blanks a -> blanks b -> blanks (a ++ b).
Proof. unfold blanks. intros. rewrite forallb_app. now rewrite H, H0. Qed.

Lemma blanks_rev (a : pystr) : blanks a -> blanks (rev a).
Proof.
  unfold blanks. rewrite !forallb_forall. intros H x Hx. apply H. now apply in_rev.
Qed.

Lemma rstrip_split (s : pystr) :
  exists ws, s = rstrip s ++ ws /\ blanks ws.
Proof.
  unfold rstrip. destruct (lstrip_split (rev s)) as (ws & H1 & H2).
  exists (rev ws). split; [|now apply blanks_rev].
  rewrite <- rev_app_distr, <- H1. now rewrite rev_involutive.
Qed.

(** Stripping removes a blank prefix and a blank suffix, nothing else. *)
Lemma strip_split (s : pystr) :
  exists lead trail, s = lead ++ strip s ++ trail /\ blanks lead /\ blanks trail.
Proof.
  unfold strip. destruct (lstrip_split s) as (lead & H1 & H2).
  destruct (rstrip_split (lstrip s)) as (trail & H3 & H4).
  exists lead, trail. repeat split; auto. now rewrite <- H3.
Qed.

Lemma rstrip_last (s : pystr) (c : pychar) :
  isspace c = false -> rstrip (s ++ [c]) = s ++ [c].
Proof.
  intros H. unfold rstrip. rewrite rev_app_distr. simpl. rewrite H.
  simpl. now rewrite rev_involutive.
Qed.

(** A text that starts and ends with a non-blank is its own strip. *)
Lemma strip_fixed (c d : pychar) (mid : pystr) :
  isspace c = false -> isspace d = false ->
  strip (c :: mid ++ [d]) = c :: mid ++ [d].
Proof.
  intros Hc Hd. unfold strip. rewrite lstrip_nonblank by assumption.
  change (c :: mid ++ [d]) with ((c :: mid) ++ [d]). now apply rstrip_last.
Qed.

Lemma rstrip_nil_or_last (s : pystr) :
  rstrip s = [] \/ exists mid d, rstrip s = mid ++ [d] /\ isspace d = false.
Proof.
  unfold rstrip. destruct (lstrip (rev s)) as [|d r] eqn:E; [now left|right].
  exists (rev r), d. split; [reflexivity|]. eapply lstrip_head; eauto.
Qed.

Lemma rstrip_idem (s : pystr) : rstrip (rstrip s) = rstrip s.
Proof. unfold rstrip. rewrite rev_involutive, lstrip_idem. reflexivity. Qed.

Lemma strip_last (s : pystr) :
  strip s = [] \/ exists mid d, strip s = mid ++ [d] /\ isspace d = false.
Proof. unfold strip. apply rstrip_nil_or_last. Qed.

Lemma strip_first (s : pystr) :
  strip s = [] \/ exists c rest, strip s = c :: rest /\ isspace c = false.
Proof.
  unfold strip. destruct (rstrip_split (lstrip s)) as (ws & H1 & _).
  destruct (rstrip (lstrip s)) as [|c rest]; [now left|right].
  exists c, rest. split; [reflexivity|].
  simpl in H1. eapply lstrip_head; eauto.
Qed.

(** [strip] is idempotent. *)
Lemma strip_idem (s : pystr) : strip (strip s) = strip s.
Proof.
  destruct (strip_first s) as [E | (c & rest & E & Hc)].
  - rewrite E. reflexivity.
  - destruct (strip_last s) as [E' | (mid & d & E' & Hd)]; [congruence|].
    unfold strip at 1. rewrite E. rewrite lstrip_nonblank by assumption.
    rewrite <- E, E'. now apply rstrip_last.
Qed.

Lemma lstrip_nonblank_start (s : pystr) : nonblank_start (lstrip s).
Proof.
  destruct (lstrip s) as [|c t] eqn:E; [now left|right].
  exists c, t. split; [reflexivity|]. eapply lstrip_head; eauto.
Qed.

Lemma block_text_app (ws1 body ws2 rest : pystr) :
  block_text ws1 body ws2 ++ rest =
  lbracket :: ws1 ++ lbrace :: body ++ rbrace :: ws2 ++ rbracket :: rest.
Proof.
  unfold block_text. simpl. f_equal. rewrite <- app_assoc. simpl. do 2 f_equal.
  rewrite <- app_assoc. simpl. do 2 f_equal. rewrite <- app_assoc. reflexivity.
Qed.

Lemma block_text_length (ws1 body ws2 : pystr) :
  length (block_text ws1 body ws2) = length ws1 + length body + length ws2 + 4.
Proof.
  unfold block_text. simpl. rewrite length_app. simpl. rewrite length_app. simpl.
  rewrite length_app. simpl. lia.
Qed.

Lemma block_text_strip (ws1 body ws2 : pystr) :
  strip (block_text ws1 body ws2) = block_text ws1 body ws2.
Proof.
  unfold block_text.
  replace (lbracket :: ws1 ++ lbrace :: body ++ rbrace :: ws2 ++ [rbracket])
    with (lbracket :: (ws1 ++ lbrace :: body ++ rbrace :: ws2) ++ [rbracket]).
  - now apply strip_fixed.
  - f_equal. rewrite <- app_assoc. simpl. do 2 f_equal.
    rewrite <- app_assoc. reflexivity.
Qed.

(* ===================================================================== *)
(** ** The backtracking matcher on the array pattern *)
(* ===================================================================== *)

Lemma mh_lit_nil (d : pychar) (r : regex) : match_here (One (Lit d) :: r) [] = None.
Proof. reflexivity. Qed.

Lemma mh_lit (d : pychar) (r : regex) (c : pychar) (s : pystr) :
  match_here (One (Lit d) :: r) (c :: s) =
  if (d =? c)%N then option_map S (match_here r s) else None.
Proof. reflexivity. Qed.

Lemma mh_star (a : atom) (r : regex) (s : pystr) :
  match_here (Star a :: r) s = star_greedy a (match_here r) s.
Proof. reflexivity. Qed.

Lemma mh_lazy (a : atom) (r : regex) (s : pystr) :
  match_here (LazyStar a :: r) s = star_lazy a (match_here r) s.
Proof. reflexivity. Qed.

Lemma mh_end (s : pystr) : match_here [] s = Some 0.
Proof. reflexivity. Qed.

Lemma option_map_add0 (x : option nat) : option_map (Nat.add 0) x = x.
Proof. now destruct x. Qed.

Lemma greedy_blanks (k : pystr -> option nat) (ws u : pystr) :
  needs_nonblank k -> blanks ws -> nonblank_start u ->
  star_greedy Space k (ws ++ u) = option_map (Nat.add (length ws)) (k u).
Proof.
  intros [K0 K1] Hws Hu. induction ws as [|w ws IH].
  - simpl. rewrite option_map_add0.
    destruct Hu as [-> | (c & t & -> & Hc)]; simpl; [reflexivity|].
    now rewrite Hc.
  - unfold blanks in Hws. simpl in Hws. apply andb_prop in Hws.
    destruct Hws as [Hw Hws]. simpl. rewrite Hw, (IH Hws).
    destruct (k u); simpl; [reflexivity|]. now apply K1.
Qed.

Lemma lit_needs_nonblank (c : pychar) (r : regex) :
  isspace c = false -> needs_nonblank (match_here (One (Lit c) :: r)).
Proof.
  intros Hc. split; [reflexivity|]. intros d u Hd. rewrite mh_lit.
  destruct (N.eqb_spec c d); [congruence|reflexivity].
Qed.

Lemma close_pattern_sound (v : pystr) (n : nat) :
  match_here close_pattern v = Some n -> closing v n.
Proof.
  unfold close_pattern. destruct v as [|c v1]; [intros H; discriminate H|].
  rewrite mh_lit, mh_star.
  destruct (N.eqb_spec rbrace c) as [<-|]; [|intros H; discriminate H].
  destruct (lstrip_split v1) as (ws & Hv & Hws).
  rewrite Hv at 1.
  rewrite (greedy_blanks _ ws (lstrip v1) (lit_needs_nonblank rbracket [] eq_refl) Hws
             (lstrip_nonblank_start v1)).
  destruct (lstrip v1) as [|d rest] eqn:L; [intros H; discriminate H|].
  rewrite mh_lit, mh_end.
  destruct (N.eqb_spec rbracket d) as [<-|]; [|intros H; discriminate H].
  simpl. intros H. injection H as <-.
  exists ws, rest. repeat split; [congruence|assumption|lia].
Qed.

Lemma close_pattern_complete (ws rest : pystr) :
  blanks ws ->
  match_here close_pattern (rbrace :: ws ++ rbracket :: rest) = Some (length ws + 2).
Proof.
  intros Hws. unfold close_pattern. rewrite mh_lit, N.eqb_refl, mh_star.
  rewrite (greedy_blanks _ ws (rbracket :: rest) (lit_needs_nonblank rbracket [] eq_refl) Hws).
  - rewrite mh_lit, N.eqb_refl, mh_end. simpl. f_equal. lia.
  - right. now exists rbracket, rest.
Qed.

Lemma star_lazy_unfold (a : atom) (k : pystr -> option nat) (s : pystr) :
  star_lazy a k s =
  match k s with
  | Some n => Some n
  | None =>
      match s with
      | c :: s' => if atom_matches a c then option_map S (star_lazy a k s') else None
      | [] => None
      end
  end.
Proof. destruct s; reflexivity. Qed.

Lemma lazy_dot_sound (k : pystr -> option nat) (s : pystr) (n : nat) :
  star_lazy Dot k s = Some n ->
  exists pre u n',
    s = pre ++ u /\ k u = Some n' /\ n = length pre + n' /\
    forall p q, s = p ++ q -> length p < length pre -> k q = None.
Proof.
  revert n. induction s as [|c s IH]; intros n; rewrite star_lazy_unfold.
  - destruct (k []) eqn:E; [|intros H; discriminate H].
    intros H. injection H as <-. exists [], [], n0. repeat split; auto.
    simpl. intros; lia.
  - destruct (k (c :: s)) eqn:E.
    + intros H. injection H as <-. exists [], (c :: s), n0. repeat split; auto.
      simpl. intros; lia.
    + simpl. destruct (star_lazy Dot k s) eqn:L; [|intros H; discriminate H].
      simpl. intros H. injection H as <-.
      destruct (IH n0 eq_refl) as (pre & u & n' & -> & Hk & -> & Hmin).
      exists (c :: pre), u, n'. repeat split; auto.
      intros p q Hpq Hlen. destruct p as [|c' p].
      * simpl in Hpq. now subst q.
      * simpl in Hpq, Hlen. injection Hpq as _ Hpq. apply (Hmin p q Hpq). lia.
Qed.

Lemma lazy_dot_complete (k : pystr -> option nat) (pre u : pystr) :
  k u <> None -> star_lazy Dot k (pre ++ u) <> None.
Proof.
  intros Hk. induction pre as [|c pre IH]; rewrite star_lazy_unfold; simpl.
  - destruct (k u); congruence.
  - destruct (k (c :: pre ++ u)); [discriminate|].
    destruct (star_lazy Dot k (pre ++ u)); [discriminate|contradiction].
Qed.

Lemma blanks_prefix_unique (a b : pystr) (c d : pychar) (x y : pystr) :
  blanks a -> blanks b -> isspace c = false -> isspace d = false ->
  a ++ c :: x = b ++ d :: y -> a = b /\ c = d /\ x = y.
Proof.
  unfold blanks. revert b. induction a as [|a0 a IH]; intros [|b0 b] Ha Hb Hc Hd E;
    simpl in *.
  - injection E as -> ->. auto.
  - injection E as -> _. apply andb_prop in Hb. destruct Hb. congruence.
  - injection E as -> _. apply andb_prop in Ha. destruct Ha. congruence.
  - injection E as -> E. apply andb_prop in Ha. apply andb_prop in Hb.
    destruct Ha, Hb. destruct (IH b) as (-> & -> & ->); auto.
Qed.

Lemma brace_after_blanks (ws rest y z : pystr) :
  blanks ws -> ws ++ rbracket :: rest = y ++ rbrace :: z -> length ws + 1 <= length y.
Proof.
  unfold blanks. revert y. induction ws as [|w ws IH]; intros [|y0 y] Hws E; simpl in *.
  - discriminate E.
  - lia.
  - injection E as -> _. discriminate Hws.
  - injection E as _ E. apply andb_prop in Hws. destruct Hws as [_ Hws].
    specialize (IH y Hws E). lia.
Qed.

Lemma app_split_lt {A} (a b c d : list A) :
  a ++ b = c ++ d -> length a < length c -> exists e, c = a ++ e /\ b = e ++ d /\ e <> [].
Proof.
  revert c. induction a as [|x a IH]; intros [|y c] E L; simpl in *; try lia.
  - exists (y :: c). repeat split; auto. discriminate.
  - injection E as -> E. destruct (IH c E) as (e & -> & -> & Hne); [lia|].
    exists e. auto.
Qed.

Lemma match_block_sound (t : pystr) (n : nat) :
  match_here array_pattern t = Some n ->
  block_prefix t n /\ forall m, block_prefix t m -> n <= m.
Proof.
  unfold array_pattern. destruct t as [|c t1]; [intros H; discriminate H|].
  rewrite mh_lit, mh_star.
  destruct (N.eqb_spec lbracket c) as [<-|]; [|intros H; discriminate H].
  destruct (lstrip_split t1) as (ws1 & Ht1 & Hws1).
  rewrite Ht1 at 1.
  rewrite (greedy_blanks _ ws1 (lstrip t1) (lit_needs_nonblank lbrace _ eq_refl) Hws1
             (lstrip_nonblank_start t1)).
  destruct (lstrip t1) as [|d u1] eqn:L; [simpl; intros H; discriminate H|].
  rewrite mh_lit, mh_lazy.
  destruct (N.eqb_spec lbrace d) as [<-|]; [|intros H; discriminate H].
  fold close_pattern.
  destruct (star_lazy Dot (match_here close_pattern) u1) as [m2|] eqn:Z;
    [|intros H; discriminate H].
  simpl. intros H. injection H as <-.
  destruct (lazy_dot_sound _ _ _ Z) as (body & v & n' & Hu1 & Hk & -> & Hmin).
  destruct (close_pattern_sound _ _ Hk) as (ws2 & rest & -> & Hws2 & ->).
  split.
  - exists ws1, body, ws2, rest. repeat split; auto; [|lia].
    rewrite Ht1, Hu1. reflexivity.
  - intros m (ws1' & body' & ws2' & rest' & E & Hws1' & Hws2' & ->).
    injection E as E. rewrite Ht1 in E.
    destruct (blanks_prefix_unique ws1 ws1' lbrace lbrace _ _ Hws1 Hws1' eq_refl eq_refl E)
      as (<- & _ & E1).
    rewrite Hu1 in E1.
    destruct (Nat.lt_trichotomy (length body') (length body)) as [Lt | [Eq | Gt]].
    + (* a block there would have been found first *)
      assert (Hnone := Hmin body' _ (eq_trans Hu1 E1) Lt).
      rewrite (close_pattern_complete ws2' rest' Hws2') in Hnone. discriminate Hnone.
    + assert (body = body' /\ rbrace :: ws2 ++ rbracket :: rest
                              = rbrace :: ws2' ++ rbracket :: rest') as [_ E2].
      { clear -E1 Eq. revert body' E1 Eq.
        induction body as [|b body IH]; intros [|b' body'] E1 Eq; simpl in *;
          try discriminate; auto.
        injection E1 as -> E1. injection Eq as Eq.
        destruct (IH body' E1 Eq) as [-> ?]. auto. }
      injection E2 as E2.
      destruct (blanks_prefix_unique ws2 ws2' rbracket rbracket _ _ Hws2 Hws2' eq_refl eq_refl E2)
        as (<- & _ & _).
      lia.
    + destruct (app_split_lt _ _ _ _ E1 Gt) as (e & -> & E2 & Hne).
      destruct e as [|e0 e]; [contradiction|]. simpl in E2. injection E2 as <- E2.
      assert (Hy := brace_after_blanks ws2 rest e _ Hws2 E2).
      rewrite length_app. simpl. lia.
Qed.

Lemma match_block_complete (t : pystr) (m : nat) :
  block_prefix t m -> match_here array_pattern t <> None.
Proof.
  intros (ws1 & body & ws2 & rest & -> & Hws1 & Hws2 & ->).
  unfold array_pattern. rewrite mh_lit, N.eqb_refl, mh_star.
  rewrite (greedy_blanks _ ws1 (lbrace :: body ++ rbrace :: ws2 ++ rbracket :: rest)
             (lit_needs_nonblank lbrace _ eq_refl) Hws1).
  - rewrite mh_lit, N.eqb_refl, mh_lazy. fold close_pattern.
    assert (H := lazy_dot_complete (match_here close_pattern) body
                   (rbrace :: ws2 ++ rbracket :: rest)).
    rewrite (close_pattern_complete ws2 rest Hws2) in H.
    destruct (star_lazy Dot (match_here close_pattern) _); [discriminate|].
    exfalso. apply H; [discriminate|reflexivity].
  - right. now exists lbrace, (body ++ rbrace :: ws2 ++ rbracket :: rest).
Qed.

(* ===================================================================== *)
(** ** The search finds the first, shortest array block *)
(* ===================================================================== *)

Lemma is_array_block_iff (s : pystr) :
  is_array_block s = true <->
  exists ws1 body ws2, s = block_text ws1 body ws2 /\ blanks ws1 /\ blanks ws2.
Proof.
  split.
  - unfold is_array_block. destruct s as [|c1 s1]; [discriminate|].
    destruct (N.eqb_spec c1 lbracket) as [->|]; [|discriminate]. cbn [andb].
    destruct (lstrip s1) as [|c2 s2] eqn:L1; [discriminate|].
    destruct (N.eqb_spec c2 lbrace) as [->|]; [|discriminate]. cbn [andb].
    destruct (rev s2) as [|c3 r3] eqn:R; [discriminate|].
    destruct (N.eqb_spec c3 rbracket) as [->|]; [|discriminate]. cbn [andb].
    destruct (lstrip r3) as [|c4 r4] eqn:L2; [discriminate|].
    intros H. apply N.eqb_eq in H. subst c4.
    destruct (lstrip_split s1) as (ws1 & H1 & Hws1). rewrite L1 in H1.
    destruct (lstrip_split r3) as (wsr & H3 & Hwsr). rewrite L2 in H3.
    exists ws1, (rev r4), (rev wsr). repeat split; auto using blanks_rev.
    unfold block_text. rewrite H1. do 2 f_equal.
    rewrite <- (rev_involutive s2), R. simpl. rewrite H3.
    rewrite rev_app_distr. simpl. rewrite <- !app_assoc. reflexivity.
  - intros (ws1 & body & ws2 & -> & Hws1 & Hws2).
    cbv beta iota delta [is_array_block block_text].
    rewrite (N.eqb_refl lbracket). cbn [andb].
    rewrite lstrip_blanks by assumption.
    rewrite lstrip_nonblank by reflexivity. rewrite (N.eqb_refl lbrace). cbn [andb].
    rewrite rev_app_distr. cbn [rev]. rewrite rev_app_distr. cbn [rev app].
    rewrite (N.eqb_refl rbracket). cbn [andb].
    rewrite <- app_assoc. rewrite lstrip_blanks by now apply blanks_rev.
    cbn [app]. rewrite lstrip_nonblank by reflexivity. apply N.eqb_refl.
Qed.

Lemma block_prefix_iff (t : pystr) (n : nat) :
  block_prefix t n <-> n <= length t /\ is_array_block (firstn n t) = true.
Proof.
  split.
  - intros (ws1 & body & ws2 & rest & -> & Hws1 & Hws2 & ->).
    rewrite <- block_text_app, <- (block_text_length ws1 body ws2).
    split.
    + rewrite length_app. lia.
    + rewrite firstn_app, Nat.sub_diag, firstn_all, firstn_O, app_nil_r.
      apply is_array_block_iff. exists ws1, body, ws2. auto.
  - intros [Hn H]. apply is_array_block_iff in H.
    destruct H as (ws1 & body & ws2 & H & Hws1 & Hws2).
    exists ws1, body, ws2, (skipn n t). repeat split; auto.
    + rewrite <- block_text_app, <- H. symmetry. apply firstn_skipn.
    + rewrite <- block_text_length, <- H. rewrite length_firstn. lia.
Qed.

Lemma find_seq_first (P : nat -> bool) (a len n : nat) :
  a <= n < a + len -> P n = true -> (forall m, a <= m < n -> P m = false) ->
  find P (seq a len) = Some n.
Proof.
  revert a. induction len as [|len IH]; intros a Hn Pn Hmin; [lia|].
  simpl. destruct (Nat.eq_dec a n) as [->|Hne].
  - now rewrite Pn.
  - rewrite (Hmin a) by lia. apply IH; auto; [lia|]. intros m Hm. apply Hmin. lia.
Qed.

Lemma find_seq_none (P : nat -> bool) (a len : nat) :
  (forall m, a <= m < a + len -> P m = false) -> find P (seq a len) = None.
Proof.
  revert a. induction len as [|len IH]; intros a H; [reflexivity|].
  simpl. rewrite (H a) by lia. apply IH. intros m Hm. apply H. lia.
Qed.

(** On every text the backtracking matcher finds the shortest block at
    the start, or none when there is none. *)
Lemma shortest_block_is_match (t : pystr) :
  shortest_block t = match_here array_pattern t.
Proof.
  unfold shortest_block.
  destruct (match_here array_pattern t) as [n|] eqn:E.
  - destruct (match_block_sound t n E) as [Hb Hmin].
    destruct (proj1 (block_prefix_iff t n) Hb) as [Hn Hblock].
    apply find_seq_first; auto; [lia|].
    intros m Hm. destruct (is_array_block (firstn m t)) eqn:B; [|reflexivity].
    assert (block_prefix t m) by (apply block_prefix_iff; split; [lia|assumption]).
    specialize (Hmin m H). lia.
  - apply find_seq_none. intros m Hm.
    destruct (is_array_block (firstn m t)) eqn:B; [|reflexivity].
    exfalso. apply (match_block_complete t m); [|assumption].
    apply block_prefix_iff. split; [lia|assumption].
Qed.

Lemma search_is_first_block (t : pystr) (i : nat) :
  search_from array_pattern i t = first_block_from i t.
Proof.
  revert i. induction t as [|c t IH]; intros i.
  - unfold search_from, first_block_from. now rewrite shortest_block_is_match.
  - change (search_from array_pattern i (c :: t)) with
      (match match_here array_pattern (c :: t) with
       | Some n => Some (i, n)
       | None => search_from array_pattern (S i) t
       end).
    change (first_block_from i (c :: t)) with
      (match shortest_block (c :: t) with
       | Some n => Some (i, n)
       | None => first_block_from (S i) t
       end).
    rewrite shortest_block_is_match, IH. reflexivity.
Qed.

(** [re.search] with the array pattern returns the first array block of
    the text, the shortest one at its position. *)
Lemma re_search_is_first_block (text : pystr) :
  re_search array_pattern text = first_array_block text.
Proof.
  unfold re_search, first_array_block. now rewrite search_is_first_block.
Qed.

(** A match of the search is a block of the text. *)
Lemma search_from_sound (t : pystr) :
  forall i0 i n,
    search_from array_pattern i0 t = Some (i, n) ->
    i0 <= i /\ has_array_block t /\
    is_array_block (substr (i - i0) n t) = true.
Proof.
  induction t as [|c t IH]; intros i0 i n.
  - change (search_from array_pattern i0 []) with
      (match match_here array_pattern [] with
       | Some n => Some (i0, n)
       | None => None
       end).
    destruct (match_here array_pattern []) eqn:M; [|discriminate].
    destruct (match_block_sound _ _ M) as [(ws1 & body & ws2 & rest & E & _) _].
    discriminate E.
  - change (search_from array_pattern i0 (c :: t)) with
      (match match_here array_pattern (c :: t) with
       | Some n => Some (i0, n)
       | None => search_from array_pattern (S i0) t
       end).
    destruct (match_here array_pattern (c :: t)) as [m|] eqn:M.
    + intros H. injection H as <- <-.
      destruct (match_block_sound _ _ M) as [Hb _].
      apply block_prefix_iff in Hb. destruct Hb as [Hm Hblock].
      split; [lia|]. rewrite Nat.sub_diag. unfold substr. simpl skipn.
      split; [|exact Hblock].
      exists [], (firstn m (c :: t)), (skipn m (c :: t)). split; [|exact Hblock].
      simpl app. symmetry. apply firstn_skipn.
    + intros H. destruct (IH _ _ _ H) as (Hi & (before & block & after & E & B) & Hs).
      split; [lia|]. split.
      * exists (c :: before), block, after. split; [|exact B]. simpl. now rewrite E.
      * replace (i - i0) with (S (i - S i0)) by lia. exact Hs.
Qed.

Lemma has_block_strip (text : pystr) :
  has_array_block (strip text) -> has_array_block text.
Proof.
  intros (before & block & after & E & B).
  destruct (strip_split text) as (lead & trail & H & _).
  exists (lead ++ before), block, (after ++ trail). split; [|exact B].
  rewrite H, E. now rewrite <- !app_assoc.
Qed.

(** A text without array block gives the search nothing to match, also
    after stripping. *)
Lemma no_block_no_match (text : pystr) :
  ~ has_array_block text -> re_search array_pattern (strip text) = None.
Proof.
  intros H. unfold re_search.
  destruct (search_from array_pattern 0 (strip text)) as [[i n]|] eqn:S; [|reflexivity].
  exfalso. apply H, has_block_strip. now destruct (search_from_sound _ _ _ _ S) as (_ & Hb & _).
Qed.

Lemma block_has_bracket (text : pystr) : has_array_block text -> In lbracket text.
Proof.
  intros (before & block & after & -> & B). apply is_array_block_iff in B.
  destruct B as (ws1 & body & ws2 & -> & _). apply in_or_app. right. now left.
Qed.

Lemma last_bracket_unique (x y rest : pystr) :
  ~ In rbracket x -> x ++ [rbracket] = y ++ rbracket :: rest -> rest = [].
Proof.
  revert y. induction x as [|a x IH]; intros [|y0 y] Hx E; simpl in *.
  - now injection E.
  - injection E as _ E. destruct y; discriminate E.
  - injection E as -> _. exfalso. apply Hx. now left.
  - injection E as _ E. apply (IH y); auto.
Qed.

Lemma blanks_no_bracket (ws : pystr) : blanks ws -> ~ In rbracket ws.
Proof.
  unfold blanks. rewrite forallb_forall. intros H Hin. specialize (H _ Hin).
  discriminate H.
Qed.

(** A text that is one array block, with no closing bracket inside its
    braces, is what the search returns. *)
Lemma search_single_block (ws1 body ws2 : pystr) :
  blanks ws1 -> blanks ws2 -> ~ In rbracket body ->
  re_search array_pattern (block_text ws1 body ws2) = Some (block_text ws1 body ws2).
Proof.
  intros Hws1 Hws2 Hbody. set (t := block_text ws1 body ws2).
  assert (Hb : block_prefix t (length t)).
  { apply block_prefix_iff. split; [lia|]. rewrite firstn_all.
    apply is_array_block_iff. exists ws1, body, ws2. auto. }
  unfold re_search.
  assert (E : search_from array_pattern 0 t = Some (0, length t)).
  { destruct t as [|c t'] eqn:Et; [discriminate Et|].
    change (search_from array_pattern 0 (c :: t')) with
      (match match_here array_pattern (c :: t') with
       | Some n => Some (0, n)
       | None => search_from array_pattern 1 t'
       end).
    destruct (match_here array_pattern (c :: t')) as [n|] eqn:M.
    - destruct (match_block_sound _ _ M) as [Hn _].
      destruct Hn as (ws1' & body' & ws2' & rest' & E & Hws1' & Hws2' & ->).
      rewrite <- Et in *. unfold t, block_text in E. injection E as E.
      destruct (blanks_prefix_unique ws1 ws1' lbrace lbrace _ _ Hws1 Hws1' eq_refl eq_refl E)
        as (<- & _ & E1).
      assert (R : rest' = []).
      { apply (last_bracket_unique (body ++ rbrace :: ws2) (body' ++ rbrace :: ws2')).
        - intros Hin. apply in_app_or in Hin. destruct Hin as [Hin|[Hin|Hin]].
          + contradiction.
          + discriminate Hin.
          + now apply (blanks_no_bracket ws2).
        - rewrite <- !app_assoc. simpl. exact E1. }
      subst rest'. do 2 f_equal. unfold t. rewrite block_text_length.
      assert (L := f_equal (@length _) E1). rewrite !length_app in L. simpl in L.
      rewrite !length_app in L. simpl in L. lia.
    - exfalso. eapply match_block_complete; eauto. }
  rewrite E. unfold substr. simpl. now rewrite firstn_all.
Qed.

Lemma search_from_complete (before t : pystr) (i0 : nat) :
  match_here array_pattern t <> None ->
  search_from array_pattern i0 (before ++ t) <> None.
Proof.
  intros H. revert i0. induction before as [|c before IH]; intros i0.
  - destruct t as [|c t].
    + change (search_from array_pattern i0 ([] ++ [])) with
        (match match_here array_pattern [] with
         | Some n => Some (i0, n)
         | None => None
         end).
      destruct (match_here array_pattern []); [discriminate|contradiction].
    + change (search_from array_pattern i0 ([] ++ c :: t)) with
        (match match_here array_pattern (c :: t) with
         | Some n => Some (i0, n)
         | None => search_from array_pattern (S i0) t
         end).
      destruct (match_here array_pattern (c :: t)); [discriminate|contradiction].
  - change (search_from array_pattern i0 ((c :: before) ++ t)) with
      (match match_here array_pattern (c :: before ++ t) with
       | Some n => Some (i0, n)
       | None => search_from array_pattern (S i0) (before ++ t)
       end).
    destruct (match_here array_pattern (c :: before ++ t)); [discriminate|apply IH].
Qed.

(** X2.  On every text, [re.search] with the array pattern returns the
    first array block of the text, the shortest one at its position (the
    backtracking matcher and the exhaustive search over positions and
    lengths agree), and it finds nothing exactly when no array block
    occurs in the text. *)
Theorem search_returns_first_block (text : pystr) :
  re_search array_pattern text = first_array_block text /\
  (re_search array_pattern text = None <-> ~ has_array_block text).
Proof.
  split; [apply re_search_is_first_block|]. split.
  - intros N (before & block & after & E & B). unfold re_search in N.
    assert (M : match_here array_pattern (block ++ after) <> None).
    { apply (match_block_complete _ (length block)), block_prefix_iff. split.
      - rewrite length_app. lia.
      - now rewrite firstn_app, Nat.sub_diag, firstn_all, firstn_O, app_nil_r. }
    apply (search_from_complete before _ 0) in M. rewrite <- E in M.
    destruct (search_from array_pattern 0 text) as [[i n]|]; [discriminate N|].
    now apply M.
  - intros H. unfold re_search.
    destruct (search_from array_pattern 0 text) as [[i n]|] eqn:S; [|reflexivity].
    exfalso. apply H. now destruct (search_from_sound _ _ _ _ S) as (_ & Hb & _).
Qed.

(** The search on three texts: the first of two blocks is taken; a
    nested array ends the match at its own closing bracket; a text
    without opening bracket has no match. *)
Example search_takes_first_block :
  re_search array_pattern (py "x [ {'a': 1} ] y [{}]") = Some (py "[ {'a': 1} ]").
Proof. vm_compute. reflexivity. Qed.

Example search_stops_at_nested_array :
  re_search array_pattern (py "[{'a': [{'b': 1}], 'c': 2}]") = Some (py "[{'a': [{'b': 1}]").
Proof. vm_compute. reflexivity. Qed.

Example search_finds_nothing_in_prose :
  re_search array_pattern (py "No stationary energy actions identified.") = None.
Proof. vm_compute. reflexivity. Qed.


(* ===================================================================== *)
(** ** The extraction routine and its policy *)
(* ===================================================================== *)





(* ===================================================================== *)
(** ** The polling loop *)
(* ===================================================================== *)

Lemma bind_normal {A B} (m : M A) (k : A -> M B) (s s1 : store) (a : A) (t : list event) :
  m s = (Normal a, t, s1) ->
  bind m k s = match k a s1 with (r, t2, s2) => (r, t ++ t2, s2) end.
Proof. intros H. unfold bind. now rewrite H. Qed.

Lemma bind_abrupt {A B} (m : M A) (k : A -> M B) (s s1 : store) (sg : signal)
    (t : list event) :
  m s = (Abrupt sg, t, s1) -> bind m k s = (Abrupt sg, t, s1).
Proof. intros H. unfold bind. now rewrite H. Qed.

Lemma the_pdf_file_some (s : store) (f : File) :
  pdf_file s = Some f -> the_pdf_file s = (Normal f, [], s).
Proof. intros H. unfold the_pdf_file, get_store, bind. now rewrite H. Qed.

Lemma the_pdf_file_none (s : store) :
  pdf_file s = None -> the_pdf_file s = (Abrupt (Raise (AttributeError "state")), [], s).
Proof. intros H. unfold the_pdf_file, get_store, bind. now rewrite H. Qed.

Lemma while_unfold (w : remote) (echo : bool) (fuel : nat) :
  while_processing w echo fuel =
  (f <- the_pdf_file ;;
   if (state_name f =? "PROCESSING")%string then
     match fuel with
     | O => out_of_fuel
     | S fuel' =>
         emit (EvSleep 5) ;;
         f' <- get_file w (name f) ;;
         set_pdf_file (Some f') ;;
         (if echo then print ("Current file state: " ++ state_name f') else ret tt) ;;
         while_processing w echo fuel'
     end
   else ret tt).
Proof. destruct fuel; reflexivity. Qed.

Lemma while_no_file (w : remote) (echo : bool) (fuel : nat) (s : store) :
  pdf_file s = None ->
  while_processing w echo fuel s = (Abrupt (Raise (AttributeError "state")), [], s).
Proof.
  intros H. rewrite while_unfold.
  now rewrite (bind_abrupt _ _ _ _ _ _ (the_pdf_file_none s H)).
Qed.

Lemma while_done (w : remote) (echo : bool) (fuel : nat) (s : store) (f : File) :
  pdf_file s = Some f -> (state_name f =? "PROCESSING")%string = false ->
  while_processing w echo fuel s = (Normal tt, [], s).
Proof.
  intros H E. rewrite while_unfold.
  rewrite (bind_normal _ _ _ _ _ _ (the_pdf_file_some s f H)), E. reflexivity.
Qed.

Lemma while_out_of_fuel (w : remote) (echo : bool) (s : store) (f : File) :
  pdf_file s = Some f -> (state_name f =? "PROCESSING")%string = true ->
  while_processing w echo 0 s = (Abrupt OutOfFuel, [], s).
Proof.
  intros H E. rewrite while_unfold.
  rewrite (bind_normal _ _ _ _ _ _ (the_pdf_file_some s f H)), E. reflexivity.
Qed.

Lemma while_round (w : remote) (echo : bool) (fuel : nat) (s : store) (f : File) :
  pdf_file s = Some f -> (state_name f =? "PROCESSING")%string = true ->
  while_processing w echo (S fuel) s =
  match on_get_file w (polls s) with
  | Returns f' =>
      match while_processing w echo fuel (polled s f') with
      | (r, t, s') =>
          (r, EvSleep 5 :: EvGetFile (name f) :: echo_line echo (Returns f') ++ t, s')
      end
  | Raises e => (Abrupt (Raise e), [EvSleep 5; EvGetFile (name f)], asked s)
  end.
Proof.
  intros H E. rewrite while_unfold.
  rewrite (bind_normal _ _ _ _ _ _ (the_pdf_file_some s f H)), E.
  unfold bind, get_file, get_store, set_polls, answer, set_pdf_file, emit.
  cbn -[while_processing].
  destruct (on_get_file w (polls s)) as [f'|e]; cbn -[while_processing]; [|reflexivity].
  change {| pdf_file := Some f'; df := df s; all_data := all_data s;
            summary_data := summary_data s; polls := S (polls s) |} with (polled s f').
  destruct echo; cbn -[while_processing];
    destruct (while_processing _ _ fuel (polled s f')) as [[r t] s']; reflexivity.
Qed.

Lemma observed_polled (w : remote) (s : store) (f' : File) (k : nat) :
  on_get_file w (polls s) = Returns f' ->
  observed w (polled s f') k = observed w s (S k).
Proof.
  intros H. destruct k as [|k]; simpl.
  - now rewrite Nat.add_0_r, H.
  - now rewrite Nat.add_succ_r.
Qed.

Lemma observed_ext (w : remote) (s s' : store) (k : nat) :
  pdf_file s = pdf_file s' -> polls s = polls s' -> observed w s k = observed w s' k.
Proof. intros H1 H2. destruct k; simpl; now rewrite ?H1, ?H2. Qed.

Lemma flat_map_shift {A} (F : nat -> list A) (a n : nat) :
  flat_map F (seq (S a) n) = flat_map (fun k => F (S k)) (seq a n).
Proof.
  revert a. induction n as [|n IH]; intros a; [reflexivity|].
  simpl. now rewrite IH.
Qed.

Lemma polling_events_round (w : remote) (echo : bool) (s : store) (f f' : File) (n : nat) :
  pdf_file s = Some f -> on_get_file w (polls s) = Returns f' ->
  polling_events w echo s (S n) =
  EvSleep 5 :: EvGetFile (name f)
  :: echo_line echo (Returns f') ++ polling_events w echo (polled s f') n.
Proof.
  intros H G. unfold polling_events. cbn [seq flat_map].
  change (observed w s 0) with
    (match pdf_file s with
     | Some f => Returns f
     | None => Raises (AttributeError "state")
     end).
  change (observed w s 1) with (on_get_file w (polls s + 0)).
  rewrite H, Nat.add_0_r, G. cbn [name_of app]. do 2 f_equal.
  rewrite flat_map_shift. f_equal. apply flat_map_ext. intros k.
  now rewrite !(observed_polled w s f' _ G).
Qed.

Lemma polling_events_ext (w : remote) (echo : bool) (s s' : store) (n : nat) :
  pdf_file s = pdf_file s' -> polls s = polls s' ->
  polling_events w echo s n = polling_events w echo s' n.
Proof.
  intros H1 H2. unfold polling_events. apply flat_map_ext. intros k.
  now rewrite (observed_ext w s s' k H1 H2), (observed_ext w s s' (S k) H1 H2).
Qed.

Lemma pending_returns (o : outcome File) :
  pending o = true -> exists f, o = Returns f /\ (state_name f =? "PROCESSING")%string = true.
Proof. destruct o as [f|e]; simpl; [eauto|discriminate]. Qed.

Lemma while_leaves (w : remote) (echo : bool) (n : nat) :
  forall fuel s,
    (forall k, k < n -> pending (observed w s k) = true) ->
    pending (observed w s n) = false -> n <= fuel ->
    exists s',
      while_processing w echo fuel s = (loop_ending (observed w s n), polling_events w echo s n, s') /\
      df s' = df s /\ all_data s' = all_data s /\ summary_data s' = summary_data s /\
      match observed w s n with
      | Returns f => pdf_file s' = Some f
      | Raises _ => pdf_file s' = match n with
                                  | O => None
                                  | S k => match observed w s k with
                                           | Returns f => Some f
                                           | Raises _ => None
                                           end
                                  end
      end.
Proof.
  induction n as [|n IH]; intros fuel s Hpend Hn Hfuel.
  - exists s. unfold observed in *. destruct (pdf_file s) as [f|] eqn:F.
    + simpl in Hn. split; [now apply (while_done w echo fuel s f)|auto].
    + split; [now apply while_no_file|auto].
  - destruct fuel as [|fuel]; [lia|].
    destruct (pending_returns _ (Hpend 0 (Nat.lt_0_succ n))) as (f & O0 & E0).
    unfold observed in O0. destruct (pdf_file s) as [f0|] eqn:F; [|discriminate O0].
    injection O0 as ->.
    rewrite (while_round w echo fuel s f F E0).
    destruct (on_get_file w (polls s)) as [f'|e] eqn:G.
    + destruct (IH fuel (polled s f')) as (s' & W & D1 & D2 & D3 & D4).
      * intros k Hk. rewrite (observed_polled w s f' k G). apply Hpend. lia.
      * now rewrite (observed_polled w s f' n G).
      * lia.
      * exists s'. rewrite W. rewrite !(observed_polled w s f' _ G) in *.
        rewrite (polling_events_round w echo s f f' n F G).
        repeat split; auto.
        destruct (observed w s (S n)) as [fn|en] eqn:On; [exact D4|].
        rewrite D4. destruct n as [|n]; [|now rewrite (observed_polled w s f' n G)].
        simpl in On. rewrite Nat.add_0_r, G in On. discriminate On.
    + (* the first query raises: this is observation 1 *)
      destruct n as [|n].
      * exists (asked s). unfold polling_events. simpl.
        rewrite Nat.add_0_r, G, F. simpl. repeat split; auto.
      * specialize (Hpend 1 ltac:(lia)). simpl in Hpend.
        rewrite Nat.add_0_r, G in Hpend. discriminate Hpend.
Qed.

Lemma while_forever (w : remote) (echo : bool) (fuel : nat) :
  forall s,
    (forall k, pending (observed w s k) = true) ->
    exists s',
      while_processing w echo fuel s = (Abrupt OutOfFuel, polling_events w echo s fuel, s').
Proof.
  induction fuel as [|fuel IH]; intros s Hpend.
  - destruct (pending_returns _ (Hpend 0)) as (f & O0 & E0).
    unfold observed in O0. destruct (pdf_file s) as [f0|] eqn:F; [|discriminate O0].
    injection O0 as ->. exists s. now apply (while_out_of_fuel w echo s f).
  - destruct (pending_returns _ (Hpend 0)) as (f & O0 & E0).
    unfold observed in O0. destruct (pdf_file s) as [f0|] eqn:F; [|discriminate O0].
    injection O0 as ->.
    destruct (pending_returns _ (Hpend 1)) as (f' & O1 & E1).
    simpl in O1. rewrite Nat.add_0_r in O1.
    rewrite (while_round w echo fuel s f F E0), O1.
    destruct (IH (polled s f')) as (s' & W).
    + intros k. rewrite (observed_polled w s f' k O1). apply Hpend.
    + exists s'. rewrite W. now rewrite (polling_events_round w echo s f f' fuel F O1).
Qed.

(** A sequence of observations that leaves PROCESSING has a first
    observation that is not PROCESSING. *)
Lemma first_not_pending (obs : nat -> outcome File) (m : nat) :
  pending (obs m) = false ->
  exists n, n <= m /\ pending (obs n) = false /\
            forall k, k < n -> pending (obs k) = true.
Proof.
  induction m as [m IH] using lt_wf_ind. intros Hm.
  destruct (forallb (fun k => pending (obs k)) (seq 0 m)) eqn:A.
  - exists m. repeat split; auto. intros k Hk.
    rewrite forallb_forall in A. apply A, in_seq. lia.
  - assert (E : exists k, k < m /\ pending (obs k) = false).
    { clear -A. induction m as [|m IHm]; [discriminate A|].
      rewrite seq_S, forallb_app in A. simpl in A.
      destruct (forallb (fun k => pending (obs k)) (seq 0 m)) eqn:B.
      - exists m. split; [lia|]. simpl in A. now destruct (pending (obs m)).
      - destruct (IHm eq_refl) as (k & Hk & Pk). exists k. split; [lia|exact Pk]. }
    destruct E as (k & Hk & Pk).
    destruct (IH k Hk Pk) as (n & Hn & Pn & Hmin).
    exists n. repeat split; auto. lia.
Qed.

(** C8.  The polling loop sleeps five seconds before each query and ends
    exactly when the observed state leaves PROCESSING (the specification's
    PENDING): when the [n]-th observation is the first that is not
    PROCESSING, the loop ends after exactly [n] rounds of sleep-and-query,
    given fuel for them; so it ends for every sequence of observations
    that leaves PROCESSING at some point; and when every observation is
    PROCESSING, no amount of fuel lets it end: with fuel for [fuel] rounds
    it has slept and queried [fuel] times. *)
Theorem polling_ends_when_state_leaves (w : remote) (echo : bool) (s : store) :
  (forall n fuel,
      (forall k, k < n -> pending (observed w s k) = true) ->
      pending (observed w s n) = false -> n <= fuel ->
      ending (while_processing w echo fuel) s = loop_ending (observed w s n) /\
      trace (while_processing w echo fuel) s = polling_events w echo s n) /\
  (forall m,
      pending (observed w s m) = false ->
      exists n, n <= m /\
        forall fuel, n <= fuel ->
          ending (while_processing w echo fuel) s <> Abrupt OutOfFuel /\
          trace (while_processing w echo fuel) s = polling_events w echo s n) /\
  ((forall k, pending (observed w s k) = true) ->
   forall fuel,
     ending (while_processing w echo fuel) s = Abrupt OutOfFuel /\
     trace (while_processing w echo fuel) s = polling_events w echo s fuel).
Proof.
  assert (Leaves : forall n fuel,
      (forall k, k < n -> pending (observed w s k) = true) ->
      pending (observed w s n) = false -> n <= fuel ->
      ending (while_processing w echo fuel) s = loop_ending (observed w s n) /\
      trace (while_processing w echo fuel) s = polling_events w echo s n).
  { intros n fuel Hpend Hn Hfuel.
    destruct (while_leaves w echo n fuel s Hpend Hn Hfuel) as (s' & W & _).
    unfold ending, trace. rewrite W. auto. }
  split; [exact Leaves|split].
  - intros m Hm.
    destruct (first_not_pending (observed w s) m Hm) as (n & Hn & Pn & Hmin).
    exists n. split; [exact Hn|]. intros fuel Hfuel.
    destruct (Leaves n fuel Hmin Pn Hfuel) as [E T]. split; [|exact T].
    rewrite E. destruct (observed w s n); discriminate.
  - intros Hpend fuel.
    destruct (while_forever w echo fuel s Hpend) as (s' & W).
    unfold ending, trace. rewrite W. auto.
Qed.

(** The observations of [service_after_two]: PROCESSING at the upload and
    at the first two queries, then the final state. *)
Lemma after_two_pending (final_state : string) (reply : pystr) (k : nat) :
  k < 3 ->
  pending (observed (service_after_two final_state reply)
             (uploaded (file_in "PROCESSING")) k) = true.
Proof.
  intros H. destruct k as [|[|[|k]]]; try reflexivity. lia.
Defined.

(** C8 on two instances: a file that is ACTIVE at the third query, and a
    file that stays PROCESSING. *)
Lemma polling_ends_when_state_leaves_witness :
  (ending (while_processing (service_after_two "ACTIVE" []) false 3)
     (uploaded (file_in "PROCESSING")) = Normal tt /\
   trace (while_processing (service_after_two "ACTIVE" []) false 3)
     (uploaded (file_in "PROCESSING")) =
     [EvSleep 5; EvGetFile "files/doc"; EvSleep 5; EvGetFile "files/doc";
      EvSleep 5; EvGetFile "files/doc"]) /\
  (forall fuel,
      ending (while_processing service_stuck false fuel) (uploaded (file_in "PROCESSING")) =
        Abrupt OutOfFuel /\
      trace (while_processing service_stuck false fuel) (uploaded (file_in "PROCESSING")) =
        polling_events service_stuck false (uploaded (file_in "PROCESSING")) fuel).
Proof.
  split.
  - exact (proj1 (polling_ends_when_state_leaves (service_after_two "ACTIVE" []) false
                    (uploaded (file_in "PROCESSING")))
             3 3 (after_two_pending "ACTIVE" []) eq_refl (Nat.le_refl 3)).
  - apply (proj2 (proj2 (polling_ends_when_state_leaves service_stuck false
                           (uploaded (file_in "PROCESSING"))))).
    intros k. destruct k; reflexivity.
Defined.

(* ===================================================================== *)
(** ** Calls to python-docx *)
(* ===================================================================== *)

(** *** Calls made one after the other *)

Lemma make_calls_app (raises : event -> option exn) (a b : list event) (s : store) :
  make_calls raises (a ++ b) s =
  bind (make_calls raises a) (fun _ => make_calls raises b) s.
Proof.
  induction a as [|c a IH]; cbn [app make_calls].
  - unfold bind, ret. now destruct (make_calls raises b s) as [[r t] s'].
  - unfold bind at 1 3. unfold call. destruct (raises c) as [e|]; [reflexivity|].
    rewrite IH. unfold bind.
    destruct (make_calls raises a s) as [[[u|sg] t1] s1]; [|reflexivity].
    now destruct (make_calls raises b s1) as [[r t2] s2].
Qed.

(** The calls leave the locals as they are; they end normally once all
    are made, or with the exception of the last call made. *)
Lemma make_calls_spec (raises : event -> option exn) (calls : list event) (s : store) :
  final (make_calls raises calls) s = s /\
  ((ending (make_calls raises calls) s = Normal tt /\
    trace (make_calls raises calls) s = calls /\
    forall c, In c calls -> raises c = None) \/
   exists made refused rest e,
     calls = made ++ refused :: rest /\
     trace (make_calls raises calls) s = made ++ [refused] /\
     raises refused = Some e /\
     ending (make_calls raises calls) s = Abrupt (Raise e)).
Proof.
  unfold final, ending, trace.
  induction calls as [|c calls IH]; cbn [make_calls].
  - split; [reflexivity|]. left. repeat split. intros c [].
  - unfold bind, call. destruct (raises c) as [e|] eqn:R.
    + split; [reflexivity|]. right. exists [], c, calls, e. repeat split. exact R.
    + destruct (make_calls raises calls s) as [[r t] s'].
      cbn [fst snd] in *. destruct IH as [-> IH]. split; [reflexivity|].
      destruct IH as [(-> & -> & A)|(made & refused & rest & e & -> & -> & Rf & ->)].
      * left. repeat split. intros d [<-|Hd]; auto.
      * right. exists (c :: made), refused, rest, e. repeat split. exact Rf.
Qed.

Lemma add_runs_calls (raises : event -> option exn) (runs : list text_run) (s : store) :
  add_runs raises runs s = make_calls raises (map run_call runs) s.
Proof.
  induction runs as [|r runs IH]; [reflexivity|].
  cbn [add_runs make_calls map]. unfold bind, run_call at 1.
  destruct (call raises (EvAddRun (run_text r) (bold r)) s) as [[[u|sg] t] s1] eqn:C;
    [|reflexivity].
  assert (s1 = s) by (unfold call in C; destruct (raises _); now inversion C).
  subst s1. now rewrite IH.
Qed.

(** The calls do not end with [continue]. *)
Lemma make_calls_ending (raises : event -> option exn) (calls : list event) (s : store) :
  returns_or_raises (ending (make_calls raises calls) s).
Proof.
  destruct (make_calls_spec raises calls s) as
    [_ [(-> & _)|(made & refused & rest & e & _ & _ & _ & ->)]]; exact I.
Qed.

(** The loop over the lines makes the calls of the paragraphs asked
    for, until one raises. *)
Lemma add_lines_calls (raises : event -> option exn) (lines : list pystr) (s : store) :
  for_each lines (add_line raises) s =
  make_calls raises (docx_calls (requested_paragraphs lines)) s.
Proof.
  induction lines as [|line lines IH]; [reflexivity|].
  cbn [for_each requested_paragraphs flat_map]. unfold add_line at 1.
  destruct (strip line) as [|c rest].
  - cbn [app]. unfold bind, iteration, continue, signal_. rewrite IH.
    unfold requested_paragraphs.
    now destruct (make_calls raises _ s) as [[r t] s2].
  - fold (requested_paragraphs lines). cbn [app docx_calls flat_map].
    fold (docx_calls (requested_paragraphs lines)).
    unfold paragraph_calls. cbn [app make_calls].
    unfold bind, iteration, call.
    destruct (raises (EvAddParagraph "" None)) as [e|]; [reflexivity|].
    rewrite make_calls_app, add_runs_calls.
    pose proof (make_calls_ending raises (map run_call (paragraph_runs (c :: rest))) s) as E.
    pose proof (proj1 (make_calls_spec raises (map run_call (paragraph_runs (c :: rest))) s))
      as F.
    unfold ending, final in E, F. unfold bind.
    destruct (make_calls raises (map run_call (paragraph_runs (c :: rest))) s)
      as [[[u|[e| |]] t1] s1]; cbn [fst snd] in E, F; try contradiction; subst s1;
      [|reflexivity].
    rewrite IH.
    destruct (make_calls raises (docx_calls (requested_paragraphs lines)) s) as [[r t2] s2].
    now rewrite <- app_assoc.
Qed.

Lemma add_unstripped_lines_calls (raises : event -> option exn) (lines : list pystr)
    (s : store) :
  for_each lines (add_unstripped_line raises) s =
  make_calls raises (docx_calls (requested_unstripped lines)) s.
Proof.
  induction lines as [|line lines IH]; [reflexivity|].
  cbn [for_each requested_unstripped flat_map]. unfold add_unstripped_line at 1.
  destruct (strip line) as [|c rest].
  - cbn [app]. unfold bind, iteration, continue, signal_. rewrite IH.
    unfold requested_unstripped.
    now destruct (make_calls raises _ s) as [[r t] s2].
  - fold (requested_unstripped lines). cbn [app docx_calls flat_map].
    fold (docx_calls (requested_unstripped lines)).
    unfold paragraph_calls. cbn [app make_calls].
    unfold bind, iteration, call.
    destruct (raises (EvAddParagraph "" None)) as [e|]; [reflexivity|].
    rewrite make_calls_app, add_runs_calls.
    pose proof (make_calls_ending raises (map run_call (paragraph_runs line)) s) as E.
    pose proof (proj1 (make_calls_spec raises (map run_call (paragraph_runs line)) s)) as F.
    unfold ending, final in E, F. unfold bind.
    destruct (make_calls raises (map run_call (paragraph_runs line)) s)
      as [[[u|[e| |]] t1] s1]; cbn [fst snd] in E, F; try contradiction; subst s1;
      [|reflexivity].
    rewrite IH.
    destruct (make_calls raises (docx_calls (requested_unstripped lines)) s) as [[r t2] s2].
    now rewrite <- app_assoc.
Qed.

(** The document building leaves the locals as they are, makes no call
    to the service, and ends normally or with an exception. *)
Lemma docx_calls_only (paragraphs : list (list text_run)) :
  forallb is_docx_call (docx_calls paragraphs) = true.
Proof.
  induction paragraphs as [|p ps IH]; [reflexivity|].
  cbn [docx_calls flat_map]. fold (docx_calls ps). rewrite forallb_app, IH, andb_true_r.
  unfold paragraph_calls. cbn [forallb is_docx_call andb].
  induction p as [|r p IHp]; [reflexivity|exact IHp].
Qed.

Lemma build_document_spec (raises : event -> option exn) (heading : string)
    (lines : list pystr) (s : store) :
  build_document raises heading lines s =
  make_calls raises (EvAddHeading heading :: docx_calls (requested_paragraphs lines)) s.
Proof.
  unfold build_document. cbn [make_calls]. unfold bind.
  destruct (call raises (EvAddHeading heading) s) as [[[u|sg] t] s1] eqn:C; [|reflexivity].
  assert (s1 = s) by (unfold call in C; destruct (raises _); now inversion C).
  subst s1. now rewrite add_lines_calls.
Qed.

(** Calls to python-docx are no calls to the service. *)
Lemma docx_calls_are_local (t : list event) :
  forallb is_docx_call t = true ->
  completions t = 0 /\ deletions t = 0 /\ uploads t = [].
Proof.
  induction t as [|e t IH]; [now repeat split|].
  cbn [forallb]. intros H. apply andb_prop in H. destruct H as [He Ht].
  destruct (IH Ht) as (C & D & U).
  unfold completions, deletions, uploads in *.
  destruct e; try discriminate He; cbn; auto.
Qed.

Lemma make_calls_local (raises : event -> option exn) (calls : list event) (s : store) :
  forallb is_docx_call calls = true ->
  final (make_calls raises calls) s = s /\
  returns_or_raises (ending (make_calls raises calls) s) /\
  completions (trace (make_calls raises calls) s) = 0 /\
  deletions (trace (make_calls raises calls) s) = 0 /\
  uploads (trace (make_calls raises calls) s) = [].
Proof.
  intros O.
  destruct (make_calls_spec raises calls s) as
    [F [(E & T & _)|(made & refused & rest & e & C & T & _ & E)]].
  - rewrite F, E, T. split; [reflexivity|]. split; [exact I|].
    now apply docx_calls_are_local.
  - rewrite F, E, T. split; [reflexivity|]. split; [exact I|].
    apply docx_calls_are_local. rewrite C in O.
    rewrite forallb_app in O |- *. apply andb_prop in O. destruct O as [O1 O2].
    cbn [forallb] in O2 |- *. apply andb_prop in O2. destruct O2 as [O2 _].
    now rewrite O1, O2.
Qed.

(** The calls made while the document is built are calls to python-docx. *)
Lemma build_document_trace (raises : event -> option exn) (heading : string)
    (lines : list pystr) (s : store) :
  forallb is_docx_call (trace (build_document raises heading lines) s) = true.
Proof.
  unfold trace. rewrite build_document_spec.
  set (calls := EvAddHeading heading :: docx_calls (requested_paragraphs lines)).
  assert (O : forallb is_docx_call calls = true)
    by (cbn [calls forallb is_docx_call andb]; apply docx_calls_only).
  destruct (make_calls_spec raises calls s) as
    [_ [(_ & T & _)|(made & refused & rest & e & C & T & _ & _)]];
    unfold trace in T; rewrite T; [exact O|].
  rewrite C in O. rewrite forallb_app in O |- *.
  apply andb_prop in O. destruct O as [O1 O2].
  cbn [forallb] in O2 |- *. apply andb_prop in O2. destruct O2 as [O2 _].
  now rewrite O1, O2.
Qed.

(** Building the document leaves the locals as they are, makes no call
    to the service, and ends normally or with an exception. *)
Lemma build_document_silent (raises : event -> option exn) (heading : string)
    (lines : list pystr) (s : store) :
  final (build_document raises heading lines) s = s /\
  returns_or_raises (ending (build_document raises heading lines) s) /\
  completions (trace (build_document raises heading lines) s) = 0 /\
  deletions (trace (build_document raises heading lines) s) = 0 /\
  uploads (trace (build_document raises heading lines) s) = [].
Proof.
  unfold final, ending, trace. rewrite build_document_spec.
  apply make_calls_local. cbn [forallb is_docx_call andb]. apply docx_calls_only.
Qed.

Ltac silence_build :=
  match goal with
  | |- context [build_document ?r ?h ?l ?s0] =>
      let B := fresh "B" in
      let Br := fresh "Br" in
      let rb := fresh "rb" in
      pose proof (build_document_silent r h l s0) as B; unfold final, ending, trace in B;
      destruct (build_document r h l s0) as [[rb ?] ?];
      cbn [fst snd] in B; destruct B as (-> & Br & ? & ? & ?);
      destruct rb as [[]|[?| |]]; cbn [returns_or_raises] in Br; try contradiction; clear Br
  end.

(* ===================================================================== *)
(** ** The calls of one iteration *)
(* ===================================================================== *)

Ltac unfold_monad :=
  unfold upload_file, get_file, generate_content, the_pdf_file, text_strip, cleanup,
    of_outcome, try_except, try_finally, iteration,
    get_store, set_pdf_file, set_df, set_polls, append_all_data, append_summary_data,
    print, call, answer, continue, out_of_fuel, raise, signal_, emit, bind, ret in *.

Ltac split_match :=
  first
    [ silence_build
    | match goal with
      | |- context [match ?x with _ => _ end] =>
          lazymatch x with
          | context [match _ with _ => _ end] => fail
          | _ => destruct x eqn:?
          end
      end ].

Lemma completions_app (a b : list event) :
  completions (a ++ b) = completions a + completions b.
Proof. unfold completions. now rewrite filter_app, length_app. Qed.

Lemma completions_cons (e : event) (t : list event) :
  completions (e :: t) = (if is_generate e then 1 else 0) + completions t.
Proof. unfold completions. simpl. now destruct (is_generate e). Qed.

Lemma deletions_cons (e : event) (t : list event) :
  deletions (e :: t) = (if is_delete e then 1 else 0) + deletions t.
Proof. unfold deletions. simpl. now destruct (is_delete e). Qed.

Lemma deletions_app (a b : list event) :
  deletions (a ++ b) = deletions a + deletions b.
Proof. unfold deletions. now rewrite filter_app, length_app. Qed.

Ltac count_deletions Q :=
  repeat (rewrite deletions_cons || rewrite deletions_app); rewrite ?Q; reflexivity.

Lemma polling_events_quiet (w : remote) (echo : bool) (s : store) (n : nat) :
  completions (polling_events w echo s n) = 0 /\ deletions (polling_events w echo s n) = 0 /\
  queries (polling_events w echo s n) = n.
Proof.
  unfold polling_events.
  set (F := fun k => EvSleep 5 :: EvGetFile (name_of (observed w s k))
                     :: echo_line echo (observed w s (S k))).
  assert (E : forall o, filter is_generate (echo_line echo o) = [] /\
                        filter is_delete (echo_line echo o) = [] /\
                        filter is_get_file (echo_line echo o) = []).
  { intros [f|e]; destruct echo; repeat split. }
  assert (G : forall a, completions (flat_map F (seq a n)) = 0 /\
                        deletions (flat_map F (seq a n)) = 0 /\
                        queries (flat_map F (seq a n)) = n).
  { induction n as [|n IH]; intros a; [now repeat split|].
    destruct (IH (S a)) as (H1 & H2 & H3).
    destruct (E (observed w s (S a))) as (E1 & E2 & E3).
    cbn [seq flat_map]. unfold completions, deletions, queries, F in *.
    cbn [app filter is_generate is_delete is_get_file length].
    rewrite !filter_app, E1, E2, E3. cbn [app].
    rewrite H1, H2, H3. auto. }
  apply G.
Qed.

(** The polling loop of a document whose upload returned [f0], when the
    [n]-th observation is the first not PROCESSING. *)
Lemma while_after_upload (w : remote) (echo : bool) (s : store) (f0 : File) (n fuel : nat) :
  (forall k, k < n -> pending (observed w (uploaded f0) k) = true) ->
  pending (observed w (uploaded f0) n) = false -> n <= fuel ->
  exists s',
    while_processing w echo fuel (holding s f0) =
      (loop_ending (observed w (uploaded f0) n), polling_events w echo (uploaded f0) n, s') /\
    df s' = df s /\ all_data s' = all_data s /\ summary_data s' = summary_data s /\
    exists f, pdf_file s' = Some f /\
              (forall g, observed w (uploaded f0) n = Returns g -> f = g).
Proof.
  intros Hpend Hn Hfuel.
  assert (X : forall k, observed w (holding s f0) k = observed w (uploaded f0) k)
    by (intros k; now apply observed_ext).
  assert (P1 : forall k, k < n -> pending (observed w (holding s f0) k) = true)
    by (intros k Hk; rewrite X; auto).
  assert (P2 : pending (observed w (holding s f0) n) = false) by now rewrite X.
  destruct (while_leaves w echo n fuel (holding s f0) P1 P2 Hfuel)
    as (s' & W & D1 & D2 & D3 & D4).
  exists s'. rewrite X in W, D4.
  rewrite (polling_events_ext w echo (holding s f0) (uploaded f0)) in W by reflexivity.
  repeat split; auto.
  destruct (observed w (uploaded f0) n) as [g|e] eqn:On.
  - exists g. split; auto. intros g' Hg. now injection Hg.
  - destruct n as [|n]; [discriminate On|].
    rewrite X in D4. specialize (Hpend n (Nat.lt_succ_diag_r n)).
    destruct (pending_returns _ Hpend) as (fp & Op & _). rewrite Op in D4.
    exists fp. split; auto. intros g' Hg. discriminate Hg.
Qed.

(* ===================================================================== *)
(** ** GeminiAPIExtractActions: upload, completion, saving *)
(* ===================================================================== *)

Section ExtractActionsFacts.

Variable json_loads : pystr -> option pyval.
Variable suffix : string.

Ltac unfold_extract_actions :=
  unfold GeminiAPIExtractActions.process_pdf, GeminiAPIExtractActions.try_body,
    GeminiAPIExtractActions.handler, GeminiAPIExtractActions.analyse,
    GeminiAPIExtractActions.save_parsed in *.

(** C10.  When the upload call itself raises, the handle variable is still
    [None], the guard of the cleanup step fails and no delete call is
    made for the document. *)
Theorem no_delete_without_upload (w : remote) (fuel : nat) (stem : string) (s : store)
    (e : exn) :
  on_upload_file w = Raises e ->
  deletions (trace (GeminiAPIExtractActions.process_pdf json_loads suffix w fuel stem) s) = 0 /\
  pdf_file (final (GeminiAPIExtractActions.process_pdf json_loads suffix w fuel stem) s) = None.
Proof.
  intros H. unfold trace, final, GeminiAPIExtractActions.process_pdf,
    GeminiAPIExtractActions.try_body, GeminiAPIExtractActions.handler.
  unfold_monad. rewrite H. cbn. destruct (df s); cbn; split; reflexivity.
Qed.

(** C4.  For a document whose remote state is PROCESSING for [n]
    observations and ACTIVE at the next, the polling loop ends, and the
    calls of the iteration are: the upload, [n] rounds of sleep-and-query,
    one completion request on the file observed ACTIVE, and calls among
    which there is no further completion request.  The rounds of polling
    contain no completion request. *)
Theorem completion_once_after_active (w : remote) (fuel : nat) (stem : string)
    (s : store) (f0 f : File) (n : nat) :
  on_upload_file w = Returns f0 ->
  (forall k, k < n -> pending (observed w (uploaded f0) k) = true) ->
  observed w (uploaded f0) n = Returns f ->
  state_name f = "ACTIVE" ->
  n <= fuel ->
  exists after,
    trace (GeminiAPIExtractActions.process_pdf json_loads suffix w fuel stem) s =
      [EvPrint ("Processing: " ++ stem ++ ".pdf"); EvUploadFile stem;
       EvPrint ("Uploaded: " ++ name f0)]
      ++ polling_events w false (uploaded f0) n ++ EvGenerateContent f :: after /\
    completions (polling_events w false (uploaded f0) n) = 0 /\
    queries (polling_events w false (uploaded f0) n) = n /\
    completions after = 0 /\
    completions (trace (GeminiAPIExtractActions.process_pdf json_loads suffix w fuel stem) s) = 1 /\
    ending (GeminiAPIExtractActions.process_pdf json_loads suffix w fuel stem) s
      <> Abrupt OutOfFuel.
Proof.
  intros Hup Hpend Hn Hact Hfuel.
  assert (Hn' : pending (observed w (uploaded f0) n) = false)
    by (rewrite Hn; simpl; now rewrite Hact).
  destruct (while_after_upload w false s f0 n fuel Hpend Hn' Hfuel)
    as (s' & W & D1 & D2 & D3 & f' & D4 & D5).
  rewrite Hn in W. specialize (D5 f Hn). subst f'.
  destruct s' as [pf d ad sd pl]. cbn in D1, D2, D3, D4. subst pf d ad sd.
  destruct (polling_events_quiet w false (uploaded f0) n) as (Q1 & Q2 & Q3).
  assert (Main : exists after,
    GeminiAPIExtractActions.process_pdf json_loads suffix w fuel stem s =
      (ending (GeminiAPIExtractActions.process_pdf json_loads suffix w fuel stem) s,
       [EvPrint ("Processing: " ++ stem ++ ".pdf"); EvUploadFile stem;
        EvPrint ("Uploaded: " ++ name f0)]
       ++ polling_events w false (uploaded f0) n ++ EvGenerateContent f :: after,
       final (GeminiAPIExtractActions.process_pdf json_loads suffix w fuel stem) s) /\
    completions after = 0 /\
    ending (GeminiAPIExtractActions.process_pdf json_loads suffix w fuel stem) s
      <> Abrupt OutOfFuel).
  { unfold ending, final. unfold_extract_actions. unfold_monad.
    rewrite Hup. cbn -[while_processing polling_events re_search strip String.append].
    unfold holding in W. rewrite W.
    cbn -[while_processing polling_events re_search strip String.append].
    rewrite Hact.
    cbn -[while_processing polling_events re_search strip String.append].
    repeat (split_match;
            cbn -[while_processing polling_events re_search strip String.append] in * );
      try discriminate;
      rewrite <- ?app_assoc; cbn [app];
      (eexists; split; [reflexivity|split; [reflexivity|discriminate]]). }
  destruct Main as (after & E & A1 & A2).
  exists after. unfold trace. rewrite E. cbn [fst snd].
  repeat split; auto.
  repeat (rewrite completions_cons || rewrite completions_app).
  rewrite Q1, A1. reflexivity.
Qed.

End ExtractActionsFacts.

(** C10 on an instance: the upload is refused. *)
Lemma no_delete_without_upload_witness :
  on_upload_file service_refusing = Raises (EnvError "upload refused") /\
  deletions (trace (GeminiAPIExtractActions.process_pdf never "_energy_actions"
                      service_refusing 3 "doc") empty_store) = 0.
Proof.
  split; [reflexivity|].
  exact (proj1 (no_delete_without_upload never "_energy_actions" service_refusing 3 "doc"
                  empty_store (EnvError "upload refused") eq_refl)).
Defined.

(** C4 on an instance: three observations PROCESSING, then ACTIVE. *)
Lemma completion_once_after_active_witness :
  (on_upload_file (service_after_two "ACTIVE" (py "[{}]")) = Returns (file_in "PROCESSING") /\
   observed (service_after_two "ACTIVE" (py "[{}]")) (uploaded (file_in "PROCESSING")) 3 =
     Returns (file_in "ACTIVE") /\
   state_name (file_in "ACTIVE") = "ACTIVE" /\ 3 <= 3) /\
  completions
    (trace (GeminiAPIExtractActions.process_pdf loads_empty_object_array "_energy_actions"
              (service_after_two "ACTIVE" (py "[{}]")) 3 "doc") empty_store) = 1.
Proof.
  split; [repeat split; apply Nat.le_refl|].
  destruct (completion_once_after_active loads_empty_object_array "_energy_actions"
              (service_after_two "ACTIVE" (py "[{}]")) 3 "doc" empty_store
              (file_in "PROCESSING") (file_in "ACTIVE") 3
              eq_refl (after_two_pending "ACTIVE" (py "[{}]")) eq_refl eq_refl
              (Nat.le_refl 3))
    as (after & _ & _ & _ & _ & H & _).
  exact H.
Defined.

Lemma tabular_iff (data : pyval) :
  tabular data = true <-> exists items rest, data = PList (PDict items :: rest).
Proof.
  split.
  - destruct data as [| | | | |[|first rest]| |]; try discriminate.
    destruct first; try discriminate. intros _. eauto.
  - intros (items & rest & ->). reflexivity.
Qed.

Section ExtractActionsSaving.

Variable json_loads : pystr -> option pyval.
Variable suffix : string.

(** C9.  In the step that saves a parsed result, an Excel file is written
    only when the value parsed from the matched text is a non-empty list
    whose first element is a dict; for any other parsed value (an empty
    list, a value that is no list, a list whose first element is no dict),
    when the JSON file is written without error, the calls are the JSON
    dump and two console lines, the second being the notice that the
    structure is not suitable for tabular output. *)
Theorem excel_only_for_tabular (w : remote) (stem : string) (raw_text json_text : pystr)
    (s : store) :
  (forall path data,
      In (EvToExcel path data)
         (trace (GeminiAPIExtractActions.save_parsed json_loads suffix w stem raw_text json_text) s) ->
      json_loads json_text = Some data /\
      path = GeminiAPIExtractActions.excel_path suffix stem /\
      exists items rest, data = PList (PDict items :: rest)) /\
  (forall data,
      json_loads json_text = Some data ->
      tabular data = false ->
      on_call w (EvJsonDump (GeminiAPIExtractActions.json_path suffix stem) data) = None ->
      trace (GeminiAPIExtractActions.save_parsed json_loads suffix w stem raw_text json_text) s =
        [EvJsonDump (GeminiAPIExtractActions.json_path suffix stem) data;
         EvPrint ("Saved JSON: " ++ GeminiAPIExtractActions.json_path suffix stem);
         EvPrint "JSON structure not suitable for tabular output."] /\
      ending (GeminiAPIExtractActions.save_parsed json_loads suffix w stem raw_text json_text) s =
        Normal tt).
Proof.
  split.
  - intros path data. unfold trace, GeminiAPIExtractActions.save_parsed. unfold_monad.
    repeat (split_match; cbn -[String.append] in * );
      intros H; repeat (destruct H as [H|H]; try discriminate H); try contradiction;
      injection H as <- <-;
      match goal with
      | J : json_loads json_text = Some ?v, T : tabular ?v = true |- _ =>
          apply tabular_iff in T; auto
      end.
  - intros data J T C. unfold trace, ending, GeminiAPIExtractActions.save_parsed.
    unfold_monad. rewrite J. cbn -[String.append GeminiAPIExtractActions.json_path].
    rewrite C. cbn -[String.append GeminiAPIExtractActions.json_path].
    rewrite T. cbn -[String.append GeminiAPIExtractActions.json_path]. auto.
Qed.

End ExtractActionsSaving.

(** C9 on an instance: the parsed value is the empty list. *)
Lemma excel_only_for_tabular_witness :
  trace (GeminiAPIExtractActions.save_parsed (fun _ => Some (PList [])) "_energy_actions"
           service_refusing "doc" (py "[]") (py "[]")) empty_store =
    [EvJsonDump "doc_energy_actions.json" (PList []);
     EvPrint "Saved JSON: doc_energy_actions.json";
     EvPrint "JSON structure not suitable for tabular output."].
Proof.
  exact (proj1 (proj2 (excel_only_for_tabular (fun _ => Some (PList [])) "_energy_actions"
                         service_refusing "doc" (py "[]") (py "[]") empty_store)
                  (PList []) eq_refl eq_refl eq_refl)).
Defined.

(** On a text that is one array block the search finds a block at the
    start: the text itself or a proper prefix of it. *)
Lemma search_in_block (ws1 body ws2 : pystr) :
  blanks ws1 -> blanks ws2 ->
  exists n,
    n <= length (block_text ws1 body ws2) /\
    is_array_block (firstn n (block_text ws1 body ws2)) = true /\
    re_search array_pattern (block_text ws1 body ws2) =
      Some (firstn n (block_text ws1 body ws2)).
Proof.
  intros Hws1 Hws2. set (t := block_text ws1 body ws2).
  assert (Hb : block_prefix t (length t)).
  { apply block_prefix_iff. split; [lia|]. rewrite firstn_all.
    apply is_array_block_iff. exists ws1, body, ws2. auto. }
  destruct (match_here array_pattern t) as [n|] eqn:M.
  - destruct (match_block_sound _ _ M) as [Hn _].
    apply block_prefix_iff in Hn. destruct Hn as [Hle Hblock].
    exists n. split; [exact Hle|]. split; [exact Hblock|].
    unfold re_search.
    assert (E : forall u, match_here array_pattern u = Some n ->
                          search_from array_pattern 0 u = Some (0, n)).
    { intros u Hu. destruct u; cbn [search_from]; now rewrite Hu. }
    rewrite (E t M). reflexivity.
  - exfalso. now apply (match_block_complete t (length t)).
Qed.

(** A text that is one array block starts with an opening bracket and
    ends with a closing one: it carries no code fence and no blank
    around it. *)
Lemma block_text_unfenced (ws1 body ws2 : pystr) :
  remove_markdown (block_text ws1 body ws2) = strip (block_text ws1 body ws2).
Proof.
  unfold remove_markdown.
  assert (S1 : startswith (block_text ws1 body ws2) (py "```json") = false) by reflexivity.
  assert (S2 : startswith (block_text ws1 body ws2) (py "```") = false) by reflexivity.
  rewrite S1, S2.
  assert (E : endswith (block_text ws1 body ws2) (py "```") = false).
  { unfold endswith, block_text.
    change (lbracket :: ws1 ++ lbrace :: body ++ rbrace :: ws2 ++ [rbracket])
      with ((lbracket :: ws1) ++ lbrace :: body ++ rbrace :: ws2 ++ [rbracket]).
    rewrite rev_app_distr.
    change (lbrace :: body ++ rbrace :: ws2 ++ [rbracket])
      with ((lbrace :: body) ++ rbrace :: ws2 ++ [rbracket]).
    rewrite rev_app_distr.
    change (rbrace :: ws2 ++ [rbracket]) with ((rbrace :: ws2) ++ [rbracket]).
    rewrite rev_app_distr. reflexivity. }
  now rewrite E.
Qed.

(** C1 on the code: two texts that are each a single well-formed array
    of one object, with no prose and no code fence around it.  In the
    first the object holds the string of a closing brace and a closing
    bracket, in the second an array of one object.  The search stops at
    the first closing brace followed by a closing bracket, inside the
    array; the inline extraction of GeminiAPIExtractActions.getScores
    gives that cut to [json.loads], which rejects it, and writes the
    fallback file instead of the parsed array.
    [extract_json_from_response] goes on to parse the whole text and
    returns the contents of the array. *)
Lemma inline_extraction_cuts_array :
  (loads_two_arrays bracket_in_string = Some bracket_in_string_value /\
   re_search array_pattern bracket_in_string =
     Some (py "[{" ++ quoted "a" ++ py ": " ++ [quote] ++ py "}]") /\
   trace (GeminiAPIExtractActions.analyse loads_two_arrays "_energy_actions"
            (service_after_two "ACTIVE" bracket_in_string) "doc" (file_in "ACTIVE"))
         empty_store =
     [EvGenerateContent (file_in "ACTIVE");
      EvPrintExn "JSON parsing error: " JSONDecodeError;
      EvWriteText "doc_RAW.txt" bracket_in_string;
      EvPrint "Raw fallback saved: doc_RAW.txt"] /\
   extract_json_from_response (or_decode_error loads_two_arrays) never bracket_in_string =
     Returns bracket_in_string_value) /\
  (loads_two_arrays array_in_array = Some array_in_array_value /\
   re_search array_pattern array_in_array =
     Some (py "[{" ++ quoted "a" ++ py ": [{" ++ quoted "b" ++ py ": 1}]") /\
   trace (GeminiAPIExtractActions.analyse loads_two_arrays "_energy_actions"
            (service_after_two "ACTIVE" array_in_array) "doc" (file_in "ACTIVE"))
         empty_store =
     [EvGenerateContent (file_in "ACTIVE");
      EvPrintExn "JSON parsing error: " JSONDecodeError;
      EvWriteText "doc_RAW.txt" array_in_array;
      EvPrint "Raw fallback saved: doc_RAW.txt"] /\
   extract_json_from_response (or_decode_error loads_two_arrays) never array_in_array =
     Returns array_in_array_value).
Proof. vm_compute. repeat split. Qed.

(** X24.  A response text that is one array of objects - an opening
    bracket, blanks, the braces, blanks, a closing bracket - and that
    [json.loads] accepts, while it accepts no proper prefix of it, as no
    proper prefix of a JSON document is one: [extract_json_from_response]
    returns exactly the value [json.loads] gives for the text, whatever
    stands between the braces.  The inline extraction of
    GeminiAPIExtractActions.getScores dumps that value first after the
    completion when no proper prefix of the text is itself such a block,
    so that the search returns the whole text. *)
Theorem whole_array_is_parsed
    (json_loads : pystr -> option pyval) (loads : pystr -> outcome pyval)
    (literal_eval : pystr -> option pyval) (ws1 body ws2 : pystr) (v : pyval) :
  blanks ws1 -> blanks ws2 ->
  (loads (block_text ws1 body ws2) = Returns v ->
   (forall n v', n < length (block_text ws1 body ws2) ->
                 loads (firstn n (block_text ws1 body ws2)) <> Returns v') ->
   extract_json_from_response loads literal_eval (block_text ws1 body ws2) = Returns v) /\
  (json_loads (block_text ws1 body ws2) = Some v ->
   (forall n, n < length (block_text ws1 body ws2) ->
              is_array_block (firstn n (block_text ws1 body ws2)) = false) ->
   forall suffix w stem f s r,
     on_generate_content w = Returns r ->
     text r = Returns (Some (block_text ws1 body ws2)) ->
     exists rest,
       trace (GeminiAPIExtractActions.analyse json_loads suffix w stem f) s =
         EvGenerateContent f
         :: EvJsonDump (GeminiAPIExtractActions.json_path suffix stem) v :: rest).
Proof.
  intros Hws1 Hws2.
  destruct (search_in_block ws1 body ws2 Hws1 Hws2) as (n & Hle & Hblock & Hsearch).
  split.
  - intros Hv Hprefix. unfold extract_json_from_response.
    rewrite block_text_strip, Hsearch by assumption.
    assert (W : parse_whole loads literal_eval (remove_markdown (block_text ws1 body ws2))
                = Returns v).
    { rewrite block_text_unfenced, block_text_strip by assumption.
      unfold parse_whole. now rewrite Hv. }
    destruct (Nat.eq_dec n (length (block_text ws1 body ws2))) as [->|Hne].
    + rewrite firstn_all, Hv. reflexivity.
    + destruct (loads (firstn n (block_text ws1 body ws2))) as [v'|e] eqn:E; [|exact W].
      exfalso. apply (Hprefix n v'); [lia|exact E].
  - intros Hv Hshort suffix w stem f s r Hr Ht.
    assert (Hn : n = length (block_text ws1 body ws2)).
    { destruct (Nat.eq_dec n (length (block_text ws1 body ws2))) as [E|Hne]; [exact E|].
      rewrite (Hshort n) in Hblock by lia. discriminate Hblock. }
    rewrite Hn, firstn_all in Hsearch.
    unfold trace, GeminiAPIExtractActions.analyse, GeminiAPIExtractActions.save_parsed.
    unfold_monad. rewrite Hr. cbn -[re_search strip String.append block_text].
    rewrite Ht. cbn -[re_search strip String.append block_text].
    rewrite block_text_strip, Hsearch, Hv by assumption.
    cbn -[String.append block_text].
    repeat (split_match; cbn -[String.append block_text] in * );
      eexists; reflexivity.
Qed.

(** X24 on two instances: the array whose object holds the string of a
    closing brace and a closing bracket, which [extract_json_from_response]
    parses whole, and the array whose object holds an array of numbers,
    which the inline extraction dumps. *)
Lemma whole_array_is_parsed_witness :
  extract_json_from_response (or_decode_error loads_two_arrays) never bracket_in_string =
    Returns bracket_in_string_value /\
  exists rest,
    trace (GeminiAPIExtractActions.analyse loads_numbers_in_array "_energy_actions"
             (service_after_two "ACTIVE" numbers_in_array) "doc" (file_in "ACTIVE"))
          empty_store =
      EvGenerateContent (file_in "ACTIVE")
      :: EvJsonDump "doc_energy_actions.json" numbers_in_array_value :: rest.
Proof.
  split.
  - refine (proj1 (whole_array_is_parsed never (or_decode_error loads_two_arrays) never
                     [] (quoted "a" ++ py ": " ++ quoted "}]") []
                     bracket_in_string_value eq_refl eq_refl) eq_refl _).
    intros n v' Hn.
    do 13 (destruct n as [|n]; [vm_compute; intros K; discriminate K|]).
    exfalso. cbn in Hn. lia.
  - refine (proj2 (whole_array_is_parsed loads_numbers_in_array
                     (or_decode_error loads_numbers_in_array) never
                     [] (quoted "pages" ++ py ": [1, 2]") []
                     numbers_in_array_value eq_refl eq_refl) eq_refl _
                  "_energy_actions" (service_after_two "ACTIVE" numbers_in_array) "doc"
                  (file_in "ACTIVE") empty_store
                  {| text := Returns (Some numbers_in_array) |} eq_refl eq_refl).
    intros n Hn.
    do 19 (destruct n as [|n]; [vm_compute; reflexivity|]).
    exfalso. cbn in Hn. lia.
Defined.

(* ===================================================================== *)
(** ** The fallback artifact *)
(* ===================================================================== *)







(* ===================================================================== *)
(** ** How often the uploaded file is deleted *)
(* ===================================================================== *)

(** Keeping the items of a parsed array makes no call, and ends normally
    or with an exception. *)
Lemma keep_items_silent (stem : string) (items : list pyval) (s : store) :
  trace (GHGEmissionPercentage.keep_items stem items) s = [] /\
  returns_or_raises (ending (GHGEmissionPercentage.keep_items stem items) s).
Proof.
  revert s. induction items as [|item items IH]; intros s; [now split|].
  unfold trace, ending in *. cbn [GHGEmissionPercentage.keep_items].
  unfold bind.
  assert (K : snd (fst (GHGEmissionPercentage.keep_item stem item s)) = [] /\
              returns_or_raises (fst (fst (GHGEmissionPercentage.keep_item stem item s)))).
  { unfold GHGEmissionPercentage.keep_item. unfold_monad.
    destruct (has_key (py "Sector") item) as [[|]|]; cbn; auto.
    destruct item; cbn; auto. }
  destruct (GHGEmissionPercentage.keep_item stem item s) as [[[u|sg] t] s1];
    cbn in K; destruct K as [-> K]; [|now split].
  specialize (IH s1).
  destruct (GHGEmissionPercentage.keep_items stem items s1) as [[r t2] s2].
  exact IH.
Qed.

(** C3 on the code: the delete calls of one document, branch by branch.
    When the completion request raises, GHGEmissionPercentage, which has
    no [finally] block, logs the error and never deletes the uploaded
    file, where ExtractEnergyInventoryActions and GeminiAPIExtractActions
    delete it once in theirs.  When the file ends FAILED,
    ExtractEnergyInventoryActions deletes it in the branch and again in
    its [finally] block, GHGEmissionPercentage goes to the next document
    without deleting it, and GeminiAPIExtractActions deletes it once.  On
    success the three scripts delete it once. *)
Lemma cleanup_count_depends_on_branch :
  let raising := service_failing_completion in
  let failed := service_after_two "FAILED" [] in
  let active := service_after_two "ACTIVE" (py "[{}]") in
  (trace (GHGEmissionPercentage.process_pdf never raising 3 "doc") empty_store =
     [EvUploadFile "doc"; EvPrint "Processing: doc.pdf";
      EvGenerateContent (file_in "ACTIVE");
      EvPrintExn "Error processing doc.pdf: " (EnvError "quota exceeded")] /\
   deletions (trace (GHGEmissionPercentage.process_pdf never raising 3 "doc") empty_store) = 0 /\
   deletions (trace (ExtractEnergyInventoryActions.process_pdf raising 3 "doc") empty_store) = 1 /\
   deletions (trace (GeminiAPIExtractActions.process_pdf never "_energy_actions" raising 3 "doc")
                empty_store) = 1) /\
  (trace (ExtractEnergyInventoryActions.process_pdf failed 3 "doc") empty_store =
     [EvPrint "Processing 'doc.pdf'..."; EvPrint "Uploading file to Gemini...";
      EvUploadFile "doc"; EvPrint "Successfully uploaded as file ID: files/doc";
      EvPrint "Waiting for file processing...";
      EvSleep 5; EvGetFile "files/doc"; EvPrint "Current file state: PROCESSING";
      EvSleep 5; EvGetFile "files/doc"; EvPrint "Current file state: PROCESSING";
      EvSleep 5; EvGetFile "files/doc"; EvPrint "Current file state: FAILED";
      EvPrint "Error: File processing failed or file is not active.";
      EvPrint "Final state: FAILED";
      EvDeleteFile "files/doc"; EvPrint "Cleaned up file files/doc from server.";
      EvDeleteFile "files/doc"; EvPrint "Deleted file files/doc from Gemini server."] /\
   deletions (trace (ExtractEnergyInventoryActions.process_pdf failed 3 "doc") empty_store) = 2 /\
   deletions (trace (GHGEmissionPercentage.process_pdf never failed 3 "doc") empty_store) = 0 /\
   deletions (trace (GeminiAPIExtractActions.process_pdf never "_energy_actions" failed 3 "doc")
                empty_store) = 1) /\
  (deletions (trace (ExtractEnergyInventoryActions.process_pdf active 3 "doc") empty_store) = 1 /\
   deletions (trace (GHGEmissionPercentage.process_pdf never active 3 "doc") empty_store) = 1 /\
   deletions (trace (GeminiAPIExtractActions.process_pdf never "_energy_actions" active 3 "doc")
                empty_store) = 1).
Proof. vm_compute. repeat split. Qed.

(** C5 on the code: a file that goes from PROCESSING to FAILED.  No
    script requests a completion.  GeminiAPIExtractActions deletes the
    file once; GeminiAPIReport and ExtractEnergyInventoryActions delete
    it twice, in the branch and again in the [finally] block;
    GHGEmissionPercentage does not delete it. *)
Lemma failed_file_cleanup_counts :
  let w := service_after_two "FAILED" [] in
  let extract_actions :=
    trace (GeminiAPIExtractActions.process_pdf never "_energy_actions" w 3 "doc") empty_store in
  let report := trace (GeminiAPIReport.process_pdf (or_decode_error never) never w 3 "doc") empty_store in
  let energy := trace (ExtractEnergyInventoryActions.process_pdf w 3 "doc") empty_store in
  let ghg := trace (GHGEmissionPercentage.process_pdf never w 3 "doc") empty_store in
  (completions extract_actions = 0 /\ deletions extract_actions = 1) /\
  (completions report = 0 /\ deletions report = 2) /\
  (completions energy = 0 /\ deletions energy = 2) /\
  (completions ghg = 0 /\ deletions ghg = 0) /\
  report =
    [EvPrint "Processing 'doc.pdf'..."; EvUploadFile "doc"; EvPrint "Uploaded: doc.pdf";
     EvSleep 5; EvGetFile "files/doc"; EvSleep 5; EvGetFile "files/doc";
     EvSleep 5; EvGetFile "files/doc";
     EvPrint "File not active. Skipping: doc.pdf";
     EvDeleteFile "files/doc";
     EvDeleteFile "files/doc"; EvPrint "Deleted file from Gemini: files/doc"] /\
  ghg =
    [EvUploadFile "doc"; EvSleep 5; EvGetFile "files/doc"; EvSleep 5;
     EvGetFile "files/doc"; EvSleep 5; EvGetFile "files/doc";
     EvPrint "Processing: doc.pdf"].
Proof. vm_compute. repeat split. Qed.

(* ===================================================================== *)
(** ** The batch *)
(* ===================================================================== *)

(** C2 on the code: a folder with two PDF files, the upload of the first
    refused.  GeminiAPIExtractActions.getScores (and with it
    ExtractScope123Emissions.getScores) ends with the [UnboundLocalError]
    its handler raises on [print(df)] and never reaches the second file;
    ExtractEnergyInventoryActions.getScores logs the error and goes on to
    the second file. *)
Lemma batch_aborts_in_handler :
  run (GeminiAPIExtractActions.getScores never "_energy_actions" two_files 3) =
    (Abrupt (Raise (UnboundLocalError "df")),
     [EvPrint "Gemini API configured."; EvPrint "Output folder: analysis_output_excel";
      EvPrint "Processing: a.pdf"; EvUploadFile "a"]) /\
  run (ExtractScope123Emissions.getScores never two_files 3) =
    (Abrupt (Raise (UnboundLocalError "df")),
     [EvPrint "Gemini API configured."; EvPrint "Output folder: analysis_output_excel";
      EvPrint "Processing: a.pdf"; EvUploadFile "a"]) /\
  fst (run (ExtractEnergyInventoryActions.getScores two_files 3)) = Normal tt /\
  In (EvUploadFile "b") (snd (run (ExtractEnergyInventoryActions.getScores two_files 3))).
Proof.
  split; [vm_compute; reflexivity|].
  split; [vm_compute; reflexivity|].
  split; [vm_compute; reflexivity|].
  vm_compute. repeat ((left; reflexivity) || right).
Qed.

(** The polling loop does not end with [continue]. *)
Lemma while_ending (w : remote) (echo : bool) (fuel : nat) (s : store) :
  ending (while_processing w echo fuel) s <> Abrupt Continue.
Proof.
  revert s. induction fuel as [|fuel IH]; intros s; unfold ending in *.
  - destruct (pdf_file s) as [f|] eqn:F.
    + destruct (state_name f =? "PROCESSING")%string eqn:E.
      * rewrite (while_out_of_fuel w echo s f F E). discriminate.
      * rewrite (while_done w echo 0 s f F E). discriminate.
    + rewrite (while_no_file w echo 0 s F). discriminate.
  - destruct (pdf_file s) as [f|] eqn:F.
    + destruct (state_name f =? "PROCESSING")%string eqn:E.
      * rewrite (while_round w echo fuel s f F E).
        destruct (on_get_file w (polls s)) as [f'|e]; [|discriminate].
        specialize (IH (polled s f')).
        destruct (while_processing w echo fuel (polled s f')) as [[r t] s']. exact IH.
      * rewrite (while_done w echo (S fuel) s f F E). discriminate.
    + rewrite (while_no_file w echo (S fuel) s F). discriminate.
Qed.

(** No exception leaves an iteration of ExtractEnergyInventoryActions. *)
Lemma energy_iteration_catches (w : remote) (fuel : nat) (stem : string) (s : store) :
  no_exception (ending (ExtractEnergyInventoryActions.process_pdf w fuel stem) s).
Proof.
  unfold ending, ExtractEnergyInventoryActions.process_pdf,
    ExtractEnergyInventoryActions.try_body, ExtractEnergyInventoryActions.analyse,
    ExtractEnergyInventoryActions.not_active.
  unfold_monad.
  destruct (on_upload_file w) as [f0|e]; cbn -[while_processing strip String.append];
    [|exact I].
  match goal with
  | |- context [while_processing w true fuel ?s1] =>
      pose proof (while_ending w true fuel s1) as W; unfold ending in W;
      destruct (while_processing w true fuel s1) as [[r t] s']
  end.
  cbn in W. destruct r as [u|[e| |]]; try contradiction;
    cbn -[strip String.append];
    repeat (split_match; cbn -[strip String.append] in * ); exact I.
Qed.

Lemma energy_loop_catches (env : folder) (fuel : nat) (files : list string) (s : store) :
  no_exception
    (ending (for_each files
               (fun stem => ExtractEnergyInventoryActions.process_pdf (service env stem)
                              fuel stem)) s).
Proof.
  revert s. induction files as [|stem files IH]; intros s; [exact I|].
  unfold ending in *. cbn [for_each]. unfold bind, iteration.
  pose proof (energy_iteration_catches (service env stem) fuel stem s) as P.
  unfold ending in P.
  destruct (ExtractEnergyInventoryActions.process_pdf (service env stem) fuel stem s)
    as [[r t] s1].
  cbn in P. destruct r as [u|[e| |]]; try contradiction; cbn; try exact I.
  - specialize (IH s1).
    destruct (for_each files _ s1) as [[r2 t2] s2]. exact IH.
  - specialize (IH s1).
    destruct (for_each files _ s1) as [[r2 t2] s2]. exact IH.
Qed.

(** X1.  ExtractEnergyInventoryActions.getScores on any folder and any
    behaviour of the service: an exception ends the run only when it is
    raised by the creation of the output folder, before the first file;
    whatever is raised while a document is processed is caught in its
    iteration. *)
Theorem energy_batch_survives_documents (env : folder) (fuel : nat) (s : store) (e : exn) :
  ending (ExtractEnergyInventoryActions.getScores env fuel) s = Abrupt (Raise e) ->
  configure env = None /\ is_dir env = true /\ mkdir env = Some e.
Proof.
  unfold ending, ExtractEnergyInventoryActions.getScores.
  destruct (configure env) as [c|]; [discriminate|].
  unfold bind at 1. cbn [print emit].
  destruct (is_dir env); cbn [negb]; [|discriminate].
  destruct (mkdir env) as [m|].
  - cbn. intros H. injection H as ->. auto.
  - unfold bind at 1. cbn [print emit].
    destruct (pdf_files env) as [|stem files] eqn:F; [discriminate|].
    pose proof (energy_loop_catches env fuel (stem :: files) s) as P.
    unfold ending in P.
    destruct (for_each (stem :: files) _ s) as [[r t] s1].
    cbn in P |- *. intros H. rewrite H in P. contradiction.
Qed.

(** The batch property on an instance: the output folder cannot be
    created. *)
Lemma energy_batch_survives_documents_witness :
  ending (ExtractEnergyInventoryActions.getScores unwritable_folder 3) empty_store
    = Abrupt (Raise (EnvError "PermissionError")) /\
  mkdir unwritable_folder = Some (EnvError "PermissionError").
Proof.
  split; [reflexivity|].
  exact (proj2 (proj2 (energy_batch_survives_documents unwritable_folder 3 empty_store
                         (EnvError "PermissionError") eq_refl))).
Defined.

(* ===================================================================== *)
(** ** The polling loop on any service *)
(* ===================================================================== *)

(** Whatever the service answers and however much fuel there is, the loop
    requests no completion and deletes nothing, leaves the tables alone,
    and when it ends normally the file it holds is no longer PROCESSING. *)
Lemma while_frame (w : remote) (echo : bool) (fuel : nat) :
  forall s r t s',
    while_processing w echo fuel s = (r, t, s') ->
    completions t = 0 /\ deletions t = 0 /\
    df s' = df s /\ all_data s' = all_data s /\ summary_data s' = summary_data s /\
    r <> Abrupt Continue /\
    (pdf_file s <> None -> pdf_file s' <> None) /\
    (forall u, r = Normal u ->
       exists f, pdf_file s' = Some f /\ (state_name f =? "PROCESSING")%string = false).
Proof.
  induction fuel as [|fuel IH]; intros s r t s' W;
    destruct (pdf_file s) as [f|] eqn:F;
    try (rewrite (while_no_file w echo _ s F) in W; injection W as <- <- <-;
         repeat split; auto; discriminate);
    destruct (state_name f =? "PROCESSING")%string eqn:E;
    try (rewrite (while_done w echo _ s f F E) in W; injection W as <- <- <-;
         repeat split; auto; try discriminate;
         [intros _; rewrite F; discriminate | intros u _; now exists f]).
  - rewrite (while_out_of_fuel w echo s f F E) in W. injection W as <- <- <-.
    repeat split; auto; try discriminate. intros _; rewrite F; discriminate.
  - rewrite (while_round w echo fuel s f F E) in W.
    destruct (on_get_file w (polls s)) as [f'|e].
    + destruct (while_processing w echo fuel (polled s f')) as [[r1 t1] s1] eqn:W1.
      injection W as <- <- <-.
      destruct (IH _ _ _ _ W1) as (C & D & H1 & H2 & H3 & H4 & H5 & H6).
      assert (Q : forall l, completions (l ++ t1) = completions l /\
                            deletions (l ++ t1) = deletions l)
        by (intros l; now rewrite completions_app, deletions_app, C, D, !Nat.add_0_r).
      destruct echo; cbn [echo_line];
        rewrite !completions_cons, !deletions_cons; cbn [is_generate is_delete];
        try (destruct (Q [EvPrint ("Current file state: " ++ state_name f')%string])
               as [-> ->]);
        try (destruct (Q []) as [Q1 Q2]; cbn [app] in Q1, Q2; rewrite Q1, Q2).
      all: repeat split; auto; intros _; apply H5; discriminate.
    + injection W as <- <- <-. repeat split; auto; try discriminate.
      cbn. intros _; rewrite F; discriminate.
Qed.

Lemma no_completion_in (t : list event) (f : File) :
  completions t = 0 -> ~ In (EvGenerateContent f) t.
Proof.
  unfold completions. intros H I.
  assert (X : In (EvGenerateContent f) (filter is_generate t))
    by (apply filter_In; split; [exact I|reflexivity]).
  destruct (filter is_generate t); [contradiction|discriminate].
Qed.

Lemma completions_nil : completions [] = 0.
Proof. reflexivity. Qed.

(** The file tested ACTIVE. *)
Lemma tested_active (f : File) :
  negb (state_name f =? "ACTIVE")%string = false -> state_name f = "ACTIVE".
Proof. intros H. apply negb_false_iff in H. now apply String.eqb_eq. Qed.

Ltac solve_active C :=
  repeat match goal with
         | H : Some _ = Some _ |- _ => injection H as ->
         end;
  split;
  [ unfold completes_only_active; intros g HIn;
    repeat (rewrite in_app_iff in HIn || cbn [In] in HIn);
    repeat match goal with
           | H : _ \/ _ |- _ => destruct H
           | H : False |- _ => contradiction
           | H : In (EvGenerateContent _) _ |- _ => now apply (no_completion_in _ _ C) in H
           | H : In (EvGenerateContent _) ?t, K : completions ?t = 0 |- _ =>
               now apply (no_completion_in _ _ K) in H
           | H : _ = EvGenerateContent _ |- _ => first [discriminate H | injection H as <-]
           end;
    auto using tested_active
  | repeat (rewrite completions_cons || rewrite completions_app);
    repeat match goal with
           | K : completions ?t = 0 |- context [completions ?t] => rewrite K
           end;
    rewrite ?C, ?completions_nil; cbn [is_generate]; lia ].

Ltac step_script :=
  cbn -[re_search strip String.append completions while_processing
        extract_json_from_response GHGEmissionPercentage.keep_items] in *.

Ltac silence_keep_items :=
  match goal with
  | |- context [GHGEmissionPercentage.keep_items ?st ?it ?s0] =>
      let K := fresh "K" in
      pose proof (keep_items_silent st it s0) as K; unfold trace, ending in K;
      destruct (GHGEmissionPercentage.keep_items st it s0) as [[? ?] ?];
      cbn [fst snd] in K; destruct K as [-> K]
  end.

Section CompletionSafety.

Variable json_loads : pystr -> option pyval.
Variable loads : pystr -> outcome pyval.
Variable literal_eval : pystr -> option pyval.
Variable suffix : string.

Lemma extract_actions_completes_active (w : remote) (fuel : nat) (stem : string) (s : store) :
  completes_only_active
    (trace (GeminiAPIExtractActions.process_pdf json_loads suffix w fuel stem) s) /\
  completions (trace (GeminiAPIExtractActions.process_pdf json_loads suffix w fuel stem) s) <= 1.
Proof.
  unfold trace, GeminiAPIExtractActions.process_pdf, GeminiAPIExtractActions.try_body,
    GeminiAPIExtractActions.analyse, GeminiAPIExtractActions.save_parsed,
    GeminiAPIExtractActions.handler.
  unfold_monad.
  destruct (on_upload_file w) as [f0|e]; step_script.
  2: { repeat (split_match; step_script); solve_active completions_nil. }
  match goal with
  | |- context [while_processing w false fuel ?s1] =>
      destruct (while_processing w false fuel s1) as [[r t] s'] eqn:W;
      destruct (while_frame _ _ _ _ _ _ _ W) as (C & D & H1 & H2 & H3 & H4 & H5 & H6)
  end.
  destruct r as [u|sg].
  - destruct (H6 u eq_refl) as (f & Pf & Ef).
    step_script. rewrite Pf in *. step_script.
    repeat (split_match; step_script).
    all: solve_active C.
  - destruct sg as [e| |]; step_script;
      repeat (split_match; step_script); solve_active C.
Qed.

Lemma energy_completes_active (w : remote) (fuel : nat) (stem : string) (s : store) :
  completes_only_active (trace (ExtractEnergyInventoryActions.process_pdf w fuel stem) s) /\
  completions (trace (ExtractEnergyInventoryActions.process_pdf w fuel stem) s) <= 1.
Proof.
  unfold trace, ExtractEnergyInventoryActions.process_pdf,
    ExtractEnergyInventoryActions.try_body, ExtractEnergyInventoryActions.analyse,
    ExtractEnergyInventoryActions.not_active.
  unfold_monad.
  destruct (on_upload_file w) as [f0|e]; step_script.
  2: { repeat (split_match; step_script); solve_active completions_nil. }
  match goal with
  | |- context [while_processing w true fuel ?s1] =>
      destruct (while_processing w true fuel s1) as [[r t] s'] eqn:W;
      destruct (while_frame _ _ _ _ _ _ _ W) as (C & D & H1 & H2 & H3 & H4 & H5 & H6)
  end.
  destruct r as [u|sg].
  - destruct (H6 u eq_refl) as (f & Pf & Ef).
    step_script. rewrite Pf in *. step_script.
    repeat (split_match; step_script).
    all: solve_active C.
  - destruct sg as [e| |]; step_script;
      repeat (split_match; step_script); solve_active C.
Qed.

Lemma report_completes_active (w : remote) (fuel : nat) (stem : string) (s : store) :
  completes_only_active
    (trace (GeminiAPIReport.process_pdf loads literal_eval w fuel stem) s) /\
  completions (trace (GeminiAPIReport.process_pdf loads literal_eval w fuel stem) s) <= 1.
Proof.
  unfold trace, GeminiAPIReport.process_pdf, GeminiAPIReport.try_body,
    GeminiAPIReport.analyse, GeminiAPIReport.report, GeminiAPIReport.raw_text_of.
  unfold_monad.
  destruct (on_upload_file w) as [f0|e]; step_script.
  2: { repeat (split_match; step_script); solve_active completions_nil. }
  match goal with
  | |- context [while_processing w false fuel ?s1] =>
      destruct (while_processing w false fuel s1) as [[r t] s'] eqn:W;
      destruct (while_frame _ _ _ _ _ _ _ W) as (C & D & H1 & H2 & H3 & H4 & H5 & H6)
  end.
  destruct r as [u|sg].
  - destruct (H6 u eq_refl) as (f & Pf & Ef).
    step_script. rewrite Pf in *. step_script.
    repeat (split_match; step_script).
    all: solve_active C.
  - destruct sg as [e| |]; step_script;
      repeat (split_match; step_script); solve_active C.
Qed.

Lemma ghg_completes_active (w : remote) (fuel : nat) (stem : string) (s : store) :
  completes_only_active (trace (GHGEmissionPercentage.process_pdf json_loads w fuel stem) s) /\
  completions (trace (GHGEmissionPercentage.process_pdf json_loads w fuel stem) s) <= 1.
Proof.
  unfold trace, GHGEmissionPercentage.process_pdf, GHGEmissionPercentage.try_body,
    GHGEmissionPercentage.analyse.
  unfold_monad.
  destruct (on_upload_file w) as [f0|e]; step_script.
  2: { repeat (split_match; step_script); solve_active completions_nil. }
  match goal with
  | |- context [while_processing w false fuel ?s1] =>
      destruct (while_processing w false fuel s1) as [[r t] s'] eqn:W;
      destruct (while_frame _ _ _ _ _ _ _ W) as (C & D & H1 & H2 & H3 & H4 & H5 & H6)
  end.
  destruct r as [u|sg].
  - destruct (H6 u eq_refl) as (f & Pf & Ef).
    step_script. rewrite Pf in *. step_script.
    repeat (first [silence_keep_items | split_match]; step_script).
    all: solve_active C.
  - destruct sg as [e| |]; step_script;
      repeat (split_match; step_script); solve_active C.
Qed.

End CompletionSafety.

(** X3.  One iteration of each of the four scripts, on any behaviour of
    the service and of the disk and with any fuel: at most one completion
    is requested, and only on a file whose state was seen ACTIVE. *)
Theorem completion_only_on_active_file
    (json_loads : pystr -> option pyval) (loads : pystr -> outcome pyval)
    (literal_eval : pystr -> option pyval) (suffix : string)
    (w : remote) (fuel : nat) (stem : string) (s : store) :
  at_most_one_on_active
    (trace (GeminiAPIExtractActions.process_pdf json_loads suffix w fuel stem) s) /\
  at_most_one_on_active (trace (ExtractEnergyInventoryActions.process_pdf w fuel stem) s) /\
  at_most_one_on_active
    (trace (GHGEmissionPercentage.process_pdf json_loads w fuel stem) s) /\
  at_most_one_on_active
    (trace (GeminiAPIReport.process_pdf loads literal_eval w fuel stem) s).
Proof.
  unfold at_most_one_on_active. repeat apply conj.
  - apply extract_actions_completes_active.
  - apply extract_actions_completes_active.
  - apply energy_completes_active.
  - apply energy_completes_active.
  - apply ghg_completes_active.
  - apply ghg_completes_active.
  - apply report_completes_active.
  - apply report_completes_active.
Qed.

(* ===================================================================== *)
(** ** GeminiAPIExtractActions: what can end the batch *)
(* ===================================================================== *)

Section ExtractActionsBatch.

Variable json_loads : pystr -> option pyval.
Variable suffix : string.

Ltac solve_escape H1 :=
  repeat match goal with
         | H : Some _ = Some _ |- _ => injection H as ->
         end;
  split;
  [ intros x X; first [discriminate X | injection X as <-; split; [reflexivity|congruence]]
  | unfold final; cbn; congruence ].

(** An iteration ends with an exception only through its handler, reading
    [df] before any document bound it; a bound [df] stays bound. *)
Lemma extract_actions_iteration (w : remote) (fuel : nat) (stem : string) (s : store) :
  (forall e,
      ending (GeminiAPIExtractActions.process_pdf json_loads suffix w fuel stem) s
        = Abrupt (Raise e) ->
      e = UnboundLocalError "df" /\ df s = None) /\
  (df s <> None ->
   df (final (GeminiAPIExtractActions.process_pdf json_loads suffix w fuel stem) s) <> None).
Proof.
  unfold ending, final, GeminiAPIExtractActions.process_pdf, GeminiAPIExtractActions.try_body,
    GeminiAPIExtractActions.analyse, GeminiAPIExtractActions.save_parsed,
    GeminiAPIExtractActions.handler.
  unfold_monad.
  destruct (on_upload_file w) as [f0|e0]; step_script.
  2: { repeat (split_match; step_script); solve_escape I. }
  match goal with
  | |- context [while_processing w false fuel ?s1] =>
      destruct (while_processing w false fuel s1) as [[r t] s'] eqn:W;
      destruct (while_frame _ _ _ _ _ _ _ W) as (C & D & H1 & H2 & H3 & H4 & H5 & H6)
  end.
  destruct r as [u|sg].
  - destruct (H6 u eq_refl) as (f & Pf & Ef).
    step_script. rewrite Pf in *. step_script.
    repeat (split_match; step_script).
    all: solve_escape H1.
  - destruct sg as [e1| |]; step_script;
      repeat (split_match; step_script); solve_escape H1.
Qed.

Lemma extract_actions_loop (env : folder) (fuel : nat) (files : list string) :
  forall s e,
    ending (for_each files
              (fun stem => GeminiAPIExtractActions.process_pdf json_loads suffix
                             (service env stem) fuel stem)) s = Abrupt (Raise e) ->
    e = UnboundLocalError "df" /\ df s = None.
Proof.
  induction files as [|stem files IH]; intros s e; [discriminate|].
  unfold ending in *. cbn [for_each]. unfold bind, iteration.
  destruct (extract_actions_iteration (service env stem) fuel stem s) as [P Q].
  unfold ending, final in P, Q.
  destruct (GeminiAPIExtractActions.process_pdf json_loads suffix (service env stem) fuel stem s)
    as [[r t] s1].
  cbn [fst snd] in P, Q.
  assert (R : forall x, fst (fst (for_each files
                (fun stem => GeminiAPIExtractActions.process_pdf json_loads suffix
                               (service env stem) fuel stem) s1)) = Abrupt (Raise x) ->
              x = UnboundLocalError "df" /\ df s = None).
  { intros x X. destruct (IH s1 x X) as [-> N]. split; [reflexivity|].
    destruct (df s) eqn:Ds; [|reflexivity]. exfalso. apply Q; [discriminate|exact N]. }
  destruct r as [u|[x| |]]; cbn.
  - destruct (for_each files _ s1) as [[r2 t2] s2]. cbn in *. apply R.
  - apply P.
  - destruct (for_each files _ s1) as [[r2 t2] s2]. cbn in *. apply R.
  - discriminate.
Qed.

End ExtractActionsBatch.

(** X4.  GeminiAPIExtractActions.getScores and
    ExtractScope123Emissions.getScores, on any folder and any behaviour of
    the service: the run ends with an exception only when the output
    folder cannot be created, or with the handler's own
    [UnboundLocalError] on [df]. *)
Theorem only_unbound_table_aborts_batch
    (json_loads : pystr -> option pyval) (suffix : string) (env : folder) (fuel : nat)
    (e : exn) :
  fst (run (GeminiAPIExtractActions.getScores json_loads suffix env fuel)) = Abrupt (Raise e) ->
  configure env = None /\ is_dir env = true /\
  (mkdir env = Some e \/ e = UnboundLocalError "df").
Proof.
  unfold run, GeminiAPIExtractActions.getScores.
  destruct (configure env) as [c|]; [discriminate|].
  unfold bind at 1. cbn [print emit].
  destruct (is_dir env); cbn [negb]; [|discriminate].
  destruct (mkdir env) as [m|].
  - cbn. intros H. injection H as ->. auto.
  - unfold bind at 1. cbn [print emit].
    destruct (pdf_files env) as [|stem files] eqn:F; [discriminate|].
    pose proof (extract_actions_loop json_loads suffix env fuel (stem :: files) empty_store e)
      as P.
    unfold ending in P.
    destruct (for_each (stem :: files) _ empty_store) as [[r t] s1].
    cbn in P |- *. intros H. destruct (P H) as [-> _]. auto.
Qed.

(** The run of the two-file folder ends in the handler. *)
Lemma only_unbound_table_aborts_batch_witness :
  fst (run (GeminiAPIExtractActions.getScores never "_energy_actions" two_files 3))
    = Abrupt (Raise (UnboundLocalError "df")) /\
  (mkdir two_files = Some (UnboundLocalError "df") \/
   UnboundLocalError "df" = UnboundLocalError "df").
Proof.
  split; [reflexivity|].
  exact (proj2 (proj2 (only_unbound_table_aborts_batch never "_energy_actions" two_files 3
                         (UnboundLocalError "df") eq_refl))).
Defined.

(** X5.  In the same two scripts, once a document got as far as
    [pd.DataFrame], [df] is bound: from then on no exception raised while
    a document is processed ends the loop, whatever the service does. *)
Theorem bound_table_keeps_batch_alive
    (json_loads : pystr -> option pyval) (suffix : string) (env : folder) (fuel : nat)
    (files : list string) (s : store) (d : pyval) :
  df s = Some d ->
  no_exception
    (ending (for_each files
               (fun stem => GeminiAPIExtractActions.process_pdf json_loads suffix
                              (service env stem) fuel stem)) s).
Proof.
  intros D.
  destruct (ending (for_each files _) s) as [u|[e| |]] eqn:E; cbn; auto.
  destruct (extract_actions_loop json_loads suffix env fuel files s e E) as [_ N].
  congruence.
Qed.

(** The two-file folder again, with [df] bound: the refused upload is
    logged and the second file is processed. *)
Lemma bound_table_keeps_batch_alive_witness :
  df table_bound = Some (PList [PDict []]) /\
  no_exception
    (ending (for_each (pdf_files two_files)
               (fun stem => GeminiAPIExtractActions.process_pdf never "_energy_actions"
                              (service two_files stem) 3 stem)) table_bound).
Proof.
  split; [reflexivity|].
  exact (bound_table_keeps_batch_alive never "_energy_actions" two_files 3
           (pdf_files two_files) table_bound (PList [PDict []]) eq_refl).
Defined.

(* ===================================================================== *)
(** ** GeminiAPIReport and GHGEmissionPercentage: what can end the batch *)
(* ===================================================================== *)

Section BatchSurvival.

Variable json_loads : pystr -> option pyval.
Variable loads : pystr -> outcome pyval.
Variable literal_eval : pystr -> option pyval.

Ltac solve_caught :=
  repeat match goal with
         | H : Some _ = Some _ |- _ => injection H as ->
         end;
  exact I.

Lemma report_iteration_catches (w : remote) (fuel : nat) (stem : string) (s : store) :
  no_exception (ending (GeminiAPIReport.process_pdf loads literal_eval w fuel stem) s).
Proof.
  unfold ending, GeminiAPIReport.process_pdf, GeminiAPIReport.try_body,
    GeminiAPIReport.analyse, GeminiAPIReport.report, GeminiAPIReport.raw_text_of.
  unfold_monad.
  destruct (on_upload_file w) as [f0|e0]; step_script.
  2: { repeat (split_match; step_script); solve_caught. }
  match goal with
  | |- context [while_processing w false fuel ?s1] =>
      destruct (while_processing w false fuel s1) as [[r t] s'] eqn:W;
      destruct (while_frame _ _ _ _ _ _ _ W) as (C & D & H1 & H2 & H3 & H4 & H5 & H6)
  end.
  destruct r as [u|sg].
  - destruct (H6 u eq_refl) as (f & Pf & Ef).
    step_script. rewrite Pf in *. step_script.
    repeat (split_match; step_script).
    all: solve_caught.
  - destruct sg as [e1| |]; step_script; try contradiction;
      repeat (split_match; step_script); solve_caught.
Qed.

Lemma ghg_iteration_catches (w : remote) (fuel : nat) (stem : string) (s : store) :
  no_exception (ending (GHGEmissionPercentage.process_pdf json_loads w fuel stem) s).
Proof.
  unfold ending, GHGEmissionPercentage.process_pdf, GHGEmissionPercentage.try_body,
    GHGEmissionPercentage.analyse.
  unfold_monad.
  destruct (on_upload_file w) as [f0|e0]; step_script.
  2: { repeat (split_match; step_script); solve_caught. }
  match goal with
  | |- context [while_processing w false fuel ?s1] =>
      destruct (while_processing w false fuel s1) as [[r t] s'] eqn:W;
      destruct (while_frame _ _ _ _ _ _ _ W) as (C & D & H1 & H2 & H3 & H4 & H5 & H6)
  end.
  destruct r as [u|sg].
  - destruct (H6 u eq_refl) as (f & Pf & Ef).
    step_script. rewrite Pf in *. step_script.
    repeat (first [silence_keep_items | split_match]; step_script).
    all: solve_caught.
  - destruct sg as [e1| |]; step_script; try contradiction;
      repeat (split_match; step_script); solve_caught.
Qed.

(** A loop whose iterations catch every exception raises none. *)
Lemma loop_catches (body : string -> M unit) (files : list string) :
  (forall stem s, no_exception (ending (body stem) s)) ->
  forall s, no_exception (ending (for_each files body) s).
Proof.
  intros B. induction files as [|stem files IH]; intros s; [exact I|].
  unfold ending in *. cbn [for_each]. unfold bind, iteration.
  pose proof (B stem s) as P.
  destruct (body stem s) as [[r t] s1].
  cbn in P. destruct r as [u|[e| |]]; try contradiction; cbn; try exact I.
  - specialize (IH s1). destruct (for_each files body s1) as [[r2 t2] s2]. exact IH.
  - specialize (IH s1). destruct (for_each files body s1) as [[r2 t2] s2]. exact IH.
Qed.

End BatchSurvival.

(** X6.  GeminiAPIReport.getScores and
    GHGEmissionPercentage.extract_ghg_percentages, on any folder and any
    behaviour of the service: no exception raised while a document is
    processed ends the run.  The first ends with an exception only when
    the output folder cannot be created or the summary workbook cannot be
    made or written after the loop.  The second ends with an exception
    only when [genai.configure] raises or the folder does not exist,
    which it does not guard, when the output folder cannot be created,
    or when one of its pandas calls after the loop raises: making the
    table, title-casing the sectors, opening the writer, writing the
    table, the pivot on the percentages, writing the pivot, closing the
    writer. *)
Theorem setup_or_workbook_ends_batch
    (json_loads : pystr -> option pyval) (loads : pystr -> outcome pyval)
    (literal_eval : pystr -> option pyval) (env : folder) (fuel : nat) (e : exn) :
  (fst (run (GeminiAPIReport.getScores loads literal_eval env fuel)) = Abrupt (Raise e) ->
   configure env = None /\ is_dir env = true /\
   (mkdir env = Some e \/
    exists rows,
      after_loop env (EvDataFrame (PList rows)) = Some e \/
      after_loop env (EvToExcel "analysis_scores.xlsx" (PList rows)) = Some e)) /\
  (fst (run (GHGEmissionPercentage.extract_ghg_percentages json_loads env fuel))
     = Abrupt (Raise e) ->
   configure env = Some e \/
   configure env = None /\
   (is_dir env = false /\ e = EnvError "FileNotFoundError" \/
    is_dir env = true /\
    (mkdir env = Some e \/
     exists rows call,
       In call (GHGEmissionPercentage.workbook_calls rows) /\
       after_loop env call = Some e))).
Proof.
  split.
  - unfold run, GeminiAPIReport.getScores.
    destruct (configure env) as [c|]; [discriminate|].
    unfold bind at 1. cbn [print emit].
    destruct (is_dir env); cbn [negb]; [|discriminate].
    destruct (mkdir env) as [m|].
    + cbn. intros H. injection H as ->. auto.
    + unfold bind at 1. cbn [print emit].
      destruct (pdf_files env) as [|stem files] eqn:F; [discriminate|].
      pose proof (loop_catches
                    (fun stem => GeminiAPIReport.process_pdf loads literal_eval
                                   (service env stem) fuel stem)
                    (stem :: files)
                    (fun st s => report_iteration_catches loads literal_eval
                                   (service env st) fuel st s) empty_store) as P.
      unfold ending in P. unfold bind at 1.
      destruct (for_each (stem :: files) _ empty_store) as [[r t] s1].
      cbn [fst] in P.
      destruct r as [u|[x| |]]; try contradiction; try discriminate.
      unfold GeminiAPIReport.save_summary. unfold_monad.
      destruct (summary_data s1) as [|row rows] eqn:S; cbn; [discriminate|].
      destruct (after_loop env (EvDataFrame (PList (row :: rows)))) as [x|] eqn:A1; cbn.
      * intros H. injection H as ->. repeat split. right. exists (row :: rows). auto.
      * destruct (after_loop env (EvToExcel "analysis_scores.xlsx" (PList (row :: rows))))
          as [x|] eqn:A2; cbn; [|discriminate].
        intros H. injection H as ->. repeat split. right. exists (row :: rows). auto.
  - unfold run, GHGEmissionPercentage.extract_ghg_percentages.
    destruct (configure env) as [c|].
    { cbn. intros H. injection H as ->. auto. }
    unfold bind at 1. cbn [print emit].
    destruct (is_dir env); cbn [negb].
    2: { cbn. intros H. injection H as <-. right. auto. }
    destruct (mkdir env) as [m|].
    + cbn. intros H. injection H as ->. right. auto.
    + pose proof (loop_catches
                    (fun stem => GHGEmissionPercentage.process_pdf json_loads
                                   (service env stem) fuel stem)
                    (pdf_files env)
                    (fun st s => ghg_iteration_catches json_loads (service env st) fuel st s)
                    empty_store) as P.
      unfold ending in P. unfold bind at 1.
      destruct (for_each (pdf_files env) _ empty_store) as [[r t] s1].
      cbn [fst] in P.
      destruct r as [u|[x| |]]; try contradiction; try discriminate.
      unfold GHGEmissionPercentage.save_all. unfold_monad.
      destruct (all_data s1) as [|row rows] eqn:S; cbn -[GHGEmissionPercentage.workbook_calls];
        [discriminate|].
      repeat (split_match; cbn -[GHGEmissionPercentage.workbook_calls] in * );
        intros H; try discriminate H; injection H as ->;
        match goal with
        | A : after_loop env ?call = Some e |- _ =>
            right; split; [reflexivity|]; right; split; [reflexivity|]; right;
            exists (row :: rows), call; split; [cbn; auto 10|exact A]
        end.
Qed.

(** Both scripts on a folder whose output folder cannot be created, and
    GHGEmissionPercentage on a folder whose only row has no percentage,
    on which the pivot raises. *)
Lemma setup_or_workbook_ends_batch_witness :
  (fst (run (GeminiAPIReport.getScores (or_decode_error never) never unwritable_folder 3))
     = Abrupt (Raise (EnvError "PermissionError")) /\
   fst (run (GHGEmissionPercentage.extract_ghg_percentages never unwritable_folder 3))
     = Abrupt (Raise (EnvError "PermissionError")) /\
   configure unwritable_folder = None /\ is_dir unwritable_folder = true) /\
  (fst (run (GHGEmissionPercentage.extract_ghg_percentages loads_sector_row
               folder_without_percentage 3))
     = Abrupt (Raise (KeyError "Percentage GHG")) /\
   (configure folder_without_percentage = Some (KeyError "Percentage GHG") \/
    configure folder_without_percentage = None /\
    (is_dir folder_without_percentage = false /\
     KeyError "Percentage GHG" = EnvError "FileNotFoundError" \/
     is_dir folder_without_percentage = true /\
     (mkdir folder_without_percentage = Some (KeyError "Percentage GHG") \/
      exists rows call,
        In call (GHGEmissionPercentage.workbook_calls rows) /\
        after_loop folder_without_percentage call = Some (KeyError "Percentage GHG"))))).
Proof.
  split.
  - split; [reflexivity|]. split; [reflexivity|].
    destruct (proj1 (setup_or_workbook_ends_batch never (or_decode_error never) never
                       unwritable_folder 3 (EnvError "PermissionError")) eq_refl)
      as (C & D & _).
    exact (conj C D).
  - assert (R : fst (run (GHGEmissionPercentage.extract_ghg_percentages loads_sector_row
                            folder_without_percentage 3))
                = Abrupt (Raise (KeyError "Percentage GHG")))
      by (vm_compute; reflexivity).
    split; [exact R|].
    exact (proj2 (setup_or_workbook_ends_batch loads_sector_row (or_decode_error never) never
                    folder_without_percentage 3 (KeyError "Percentage GHG")) R).
Defined.

(* ===================================================================== *)
(** ** GHGEmissionPercentage: the rows kept *)
(* ===================================================================== *)

Lemma pystr_eqb_refl (a : pystr) : pystr_eqb a a = true.
Proof. induction a as [|c a IH]; [reflexivity|]. cbn. now rewrite N.eqb_refl. Qed.

Lemma pystr_eqb_eq (a b : pystr) : pystr_eqb a b = true <-> a = b.
Proof.
  split; [|intros ->; apply pystr_eqb_refl].
  revert b. induction a as [|c a IH]; intros [|d b]; cbn; try discriminate; auto.
  intros H. apply andb_prop in H. destruct H as [H1 H2].
  apply N.eqb_eq in H1. subst. f_equal. auto.
Qed.

Lemma pystr_eqb_trans_false (s a b : pystr) :
  pystr_eqb s a = true -> pystr_eqb b a = false -> pystr_eqb s b = false.
Proof.
  intros H1 H2. apply pystr_eqb_eq in H1. subst.
  destruct (pystr_eqb a b) eqn:E; [|reflexivity].
  apply pystr_eqb_eq in E. subst. now rewrite pystr_eqb_refl in H2.
Qed.

(** [d[key] = value] then [d.get(key, _)] gives [value]. *)
Lemma dict_get_set_same (key : pystr) (value default : pyval) (items : list (pyval * pyval)) :
  dict_get key default (dict_set key value items) = value.
Proof.
  induction items as [|[k v] items IH]; cbn.
  - now rewrite pystr_eqb_refl.
  - destruct (is_str key k) eqn:E; cbn; rewrite E; auto.
Qed.

(** [d[key] = value] leaves what [d.get] finds under another key. *)
Lemma dict_get_set_other (key other : pystr) (value default : pyval)
    (items : list (pyval * pyval)) :
  pystr_eqb other key = false ->
  dict_get other default (dict_set key value items) = dict_get other default items.
Proof.
  intros N. induction items as [|[k v] items IH]; cbn.
  - destruct (pystr_eqb key other) eqn:E; [|reflexivity].
    apply pystr_eqb_eq in E. subst. now rewrite pystr_eqb_refl in N.
  - destruct (is_str key k) eqn:E; cbn.
    + destruct k; cbn in E |- *; try discriminate.
      now rewrite (pystr_eqb_trans_false _ _ _ E N).
    + destruct (is_str other k); auto.
Qed.

(** X7.  GHGEmissionPercentage, lines 78-80, on a record that has a
    ["Sector"] key: the record is appended to [all_data] with its
    ["Document Name"] kept when it has one and set to the name of the PDF
    file when it has none; what every other key holds is unchanged. *)
Theorem document_name_kept_or_set (stem : string) (fields : list (pyval * pyval))
    (s : store) :
  has_key (py "Sector") (PDict fields) = Returns true ->
  exists row,
    GHGEmissionPercentage.keep_item stem (PDict fields) s
      = (Normal tt, [],
         {| pdf_file := pdf_file s; df := df s; all_data := all_data s ++ [PDict row];
            summary_data := summary_data s; polls := polls s |}) /\
    (forall default,
        dict_get (py "Document Name") default row =
        dict_get (py "Document Name") (PStr (py (stem ++ ".pdf"))) fields) /\
    (forall key default,
        pystr_eqb key (py "Document Name") = false ->
        dict_get key default row = dict_get key default fields).
Proof.
  intros H.
  exists (dict_set (py "Document Name")
            (dict_get (py "Document Name") (PStr (py (stem ++ ".pdf"))) fields) fields).
  split; [|split].
  - unfold GHGEmissionPercentage.keep_item. rewrite H. reflexivity.
  - intros default. apply dict_get_set_same.
  - intros key default N. now apply dict_get_set_other.
Qed.

Lemma document_name_kept_or_set_witness :
  exists row,
    GHGEmissionPercentage.keep_item "plan"
      (PDict [(PStr (py "Sector"), PStr (py "Waste"))]) empty_store
      = (Normal tt, [],
         {| pdf_file := None; df := None; all_data := [PDict row];
            summary_data := []; polls := 0 |}) /\
    dict_get (py "Document Name") PNone row = PStr (py "plan.pdf").
Proof.
  destruct (document_name_kept_or_set "plan" [(PStr (py "Sector"), PStr (py "Waste"))]
              empty_store eq_refl) as (row & E & D & _).
  exists row. split; [exact E|]. rewrite D. reflexivity.
Defined.

(** The rows kept from one answer are appended to those kept before,
    also when a later record of the answer raises. *)
Lemma keep_items_appends (stem : string) (items : list pyval) :
  forall s,
    exists rows,
      all_data (final (GHGEmissionPercentage.keep_items stem items) s) = all_data s ++ rows /\
      df (final (GHGEmissionPercentage.keep_items stem items) s) = df s /\
      summary_data (final (GHGEmissionPercentage.keep_items stem items) s) = summary_data s /\
      pdf_file (final (GHGEmissionPercentage.keep_items stem items) s) = pdf_file s.
Proof.
  induction items as [|item items IH]; intros s.
  - exists []. unfold final. cbn. now rewrite app_nil_r.
  - unfold final in *. cbn [GHGEmissionPercentage.keep_items].
    unfold GHGEmissionPercentage.keep_item at 1. unfold has_key.
    unfold_monad.
    destruct item; cbn -[GHGEmissionPercentage.keep_items contains existsb];
      try (exists []; now rewrite app_nil_r);
      match goal with
      | |- context [if ?c then _ else _] => destruct c
      end;
      cbn -[GHGEmissionPercentage.keep_items];
      try (exists []; now rewrite app_nil_r);
      match goal with
      | |- context [GHGEmissionPercentage.keep_items stem items ?s1] =>
          destruct (IH s1) as (rows & A & B & C & D);
          destruct (GHGEmissionPercentage.keep_items stem items s1) as [[r t] s2]
      end;
      cbn in *; eexists; rewrite A, <- ?app_assoc; repeat split; eauto.
Qed.

Ltac frame_keep_items :=
  match goal with
  | |- context [GHGEmissionPercentage.keep_items ?st ?it ?s0] =>
      let K := fresh "K" in
      let rows := fresh "rows" in
      let A := fresh "A" in
      pose proof (keep_items_silent st it s0) as K; unfold trace, ending in K;
      destruct (keep_items_appends st it s0) as (rows & A & _); unfold final in A;
      destruct (GHGEmissionPercentage.keep_items st it s0) as [[? ?] ?];
      cbn [fst snd] in K, A; destruct K as [-> K]
  end.

Ltac solve_appended H2 :=
  repeat match goal with
         | H : Some _ = Some _ |- _ => injection H as ->
         end;
  unfold final; cbn [snd all_data];
  first [ exists []; rewrite app_nil_r; congruence
        | match goal with
          | A : all_data _ = _ ++ ?rows |- _ => exists rows; rewrite A; congruence
          end ].

Section GHGRows.

Variable json_loads : pystr -> option pyval.

Lemma ghg_iteration_appends (w : remote) (fuel : nat) (stem : string) (s : store) :
  exists rows,
    all_data (final (GHGEmissionPercentage.process_pdf json_loads w fuel stem) s)
      = all_data s ++ rows.
Proof.
  unfold final, GHGEmissionPercentage.process_pdf, GHGEmissionPercentage.try_body,
    GHGEmissionPercentage.analyse.
  unfold_monad.
  destruct (on_upload_file w) as [f0|e0]; step_script.
  2: { repeat (split_match; step_script); solve_appended I. }
  match goal with
  | |- context [while_processing w false fuel ?s1] =>
      destruct (while_processing w false fuel s1) as [[r t] s'] eqn:W;
      destruct (while_frame _ _ _ _ _ _ _ W) as (C & D & H1 & H2 & H3 & H4 & H5 & H6)
  end.
  cbn [all_data] in H2.
  destruct r as [u|sg].
  - destruct (H6 u eq_refl) as (f & Pf & Ef).
    step_script. rewrite Pf in *. step_script.
    repeat (first [frame_keep_items | split_match]; step_script).
    all: solve_appended H2.
  - destruct sg as [e1| |]; step_script; try contradiction;
      repeat (split_match; step_script); solve_appended H2.
Qed.

Lemma ghg_loop_appends (env : folder) (fuel : nat) (files : list string) :
  forall s,
    exists rows,
      all_data (final (for_each files
                         (fun stem => GHGEmissionPercentage.process_pdf json_loads
                                        (service env stem) fuel stem)) s)
        = all_data s ++ rows.
Proof.
  induction files as [|stem files IH]; intros s.
  - exists []. unfold final. cbn. now rewrite app_nil_r.
  - unfold final in *. cbn [for_each]. unfold bind, iteration.
    destruct (ghg_iteration_appends (service env stem) fuel stem s) as (rows1 & A1).
    unfold final in A1.
    destruct (GHGEmissionPercentage.process_pdf json_loads (service env stem) fuel stem s)
      as [[r t] s1].
    cbn [snd] in A1.
    destruct (IH s1) as (rows2 & A2).
    destruct r as [u|[x| |]]; cbn;
      try (now exists rows1);
      destruct (for_each files _ s1) as [[r2 t2] s2]; cbn [snd] in A2 |- *;
      exists (rows1 ++ rows2); now rewrite A2, A1, app_assoc.
Qed.

End GHGRows.

Section ReportRows.

Variable json_loads : pystr -> option pyval.
Variable loads : pystr -> outcome pyval.
Variable literal_eval : pystr -> option pyval.

Ltac solve_one_row H3 :=
  repeat match goal with
         | H : Some _ = Some _ |- _ => injection H as ->
         end;
  unfold final; cbn [snd summary_data];
  first [ exists []; rewrite app_nil_r; split; [congruence | cbn; lia]
        | eexists [_]; split; [rewrite H3; reflexivity | cbn; lia] ].

Lemma report_iteration_appends (w : remote) (fuel : nat) (stem : string) (s : store) :
  exists rows,
    summary_data (final (GeminiAPIReport.process_pdf loads literal_eval w fuel stem) s)
      = summary_data s ++ rows /\ length rows <= 1.
Proof.
  unfold final, GeminiAPIReport.process_pdf, GeminiAPIReport.try_body,
    GeminiAPIReport.analyse, GeminiAPIReport.report, GeminiAPIReport.raw_text_of.
  unfold_monad.
  destruct (on_upload_file w) as [f0|e0]; step_script.
  2: { repeat (split_match; step_script); solve_one_row I. }
  match goal with
  | |- context [while_processing w false fuel ?s1] =>
      destruct (while_processing w false fuel s1) as [[r t] s'] eqn:W;
      destruct (while_frame _ _ _ _ _ _ _ W) as (C & D & H1 & H2 & H3 & H4 & H5 & H6)
  end.
  cbn [summary_data] in H3.
  destruct r as [u|sg].
  - destruct (H6 u eq_refl) as (f & Pf & Ef).
    step_script. rewrite Pf in *. step_script.
    repeat (split_match; step_script).
    all: solve_one_row H3.
  - destruct sg as [e1| |]; step_script; try contradiction;
      repeat (split_match; step_script); solve_one_row H3.
Qed.

Lemma report_loop_appends (env : folder) (fuel : nat) (files : list string) :
  forall s,
    exists rows,
      summary_data (final (for_each files
                             (fun stem => GeminiAPIReport.process_pdf loads literal_eval
                                            (service env stem) fuel stem)) s)
        = summary_data s ++ rows /\ length rows <= length files.
Proof.
  induction files as [|stem files IH]; intros s.
  - exists []. unfold final. cbn. now rewrite app_nil_r.
  - unfold final in *. cbn [for_each]. unfold bind, iteration.
    destruct (report_iteration_appends (service env stem) fuel stem s) as (rows1 & A1 & L1).
    unfold final in A1.
    destruct (GeminiAPIReport.process_pdf loads literal_eval (service env stem) fuel stem s)
      as [[r t] s1].
    cbn [snd] in A1.
    destruct (IH s1) as (rows2 & A2 & L2).
    destruct r as [u|[x| |]]; cbn -[length];
      try (exists rows1; split; [assumption|cbn [length]; lia]);
      destruct (for_each files _ s1) as [[r2 t2] s2]; cbn [snd] in A2 |- *;
      exists (rows1 ++ rows2); rewrite A2, A1, app_assoc, length_app;
      (split; [reflexivity|cbn [length]; lia]).
Qed.

End ReportRows.

(** X8.  The tables the loops fill only grow, whatever the service does:
    GHGEmissionPercentage appends the rows it keeps to those kept from the
    documents before, and GeminiAPIReport appends at most one summary row
    for each PDF file; a document that fails removes nothing. *)
Theorem collected_rows_only_grow
    (json_loads : pystr -> option pyval) (loads : pystr -> outcome pyval)
    (literal_eval : pystr -> option pyval) (env : folder) (fuel : nat)
    (files : list string) (s : store) :
  (exists rows,
      all_data (final (for_each files
                         (fun stem => GHGEmissionPercentage.process_pdf json_loads
                                        (service env stem) fuel stem)) s)
        = all_data s ++ rows) /\
  (exists rows,
      summary_data (final (for_each files
                             (fun stem => GeminiAPIReport.process_pdf loads literal_eval
                                            (service env stem) fuel stem)) s)
        = summary_data s ++ rows /\ length rows <= length files).
Proof.
  split; [apply ghg_loop_appends | apply report_loop_appends].
Qed.

(* ===================================================================== *)
(** ** extract_json_from_response: blanks, prose and code fences around *)
(* ===================================================================== *)

Lemma lstrip_app_nonblank (before rest : pystr) (c : pychar) :
  isspace c = false -> lstrip (before ++ c :: rest) = lstrip before ++ c :: rest.
Proof.
  intros Hc. induction before as [|b before IH]; cbn.
  - now rewrite Hc.
  - destruct (isspace b); auto.
Qed.

Lemma rstrip_app_nonblank (front after : pystr) (d : pychar) :
  isspace d = false -> rstrip (front ++ d :: after) = front ++ d :: rstrip after.
Proof.
  intros Hd. unfold rstrip.
  rewrite rev_app_distr. cbn [rev]. rewrite <- app_assoc. cbn [app].
  rewrite (lstrip_app_nonblank (rev after) (rev front) d Hd).
  rewrite rev_app_distr. cbn [rev]. rewrite rev_involutive, <- app_assoc.
  reflexivity.
Qed.

Lemma lstrip_all_blanks (ws : pystr) : blanks ws -> lstrip ws = [].
Proof.
  intros H. rewrite <- (app_nil_r ws). now rewrite (lstrip_blanks ws [] H).
Qed.

Lemma rstrip_blanks (s ws : pystr) : blanks ws -> rstrip (s ++ ws) = rstrip s.
Proof.
  intros H. unfold rstrip. rewrite rev_app_distr.
  now rewrite (lstrip_blanks (rev ws) (rev s) (blanks_rev ws H)).
Qed.

(** Blanks around a text do not survive [strip]. *)
Lemma strip_blanks_around (lead text trail : pystr) :
  blanks lead -> blanks trail -> strip (lead ++ text ++ trail) = strip text.
Proof.
  intros Hl Ht. unfold strip. rewrite (lstrip_blanks lead _ Hl).
  destruct (lstrip_split text) as (ws & E & Hws).
  destruct (lstrip text) as [|c rest] eqn:L.
  - rewrite app_nil_r in E. subst ws.
    rewrite (lstrip_all_blanks (text ++ trail)) by now apply blanks_app.
    reflexivity.
  - assert (Hc : isspace c = false) by exact (lstrip_head text c rest L).
    rewrite E at 1. rewrite <- app_assoc, (lstrip_blanks ws _ Hws). cbn [app].
    rewrite (lstrip_nonblank c _ Hc).
    change (c :: rest ++ trail) with ((c :: rest) ++ trail).
    now apply rstrip_blanks.
Qed.

(** X9.  Blanks before and after the response text change nothing of
    what extract_json_from_response returns. *)
Theorem extraction_ignores_blanks_around
    (json_loads : pystr -> outcome pyval) (literal_eval : pystr -> option pyval)
    (lead text trail : pystr) :
  blanks lead -> blanks trail ->
  extract_json_from_response json_loads literal_eval (lead ++ text ++ trail) =
  extract_json_from_response json_loads literal_eval text.
Proof.
  intros Hl Ht. unfold extract_json_from_response.
  now rewrite (strip_blanks_around lead text trail Hl Ht).
Qed.

Lemma extraction_ignores_blanks_around_witness :
  extract_json_from_response (or_decode_error loads_empty_object_array) never
    (py " " ++ py "[{}]" ++ py " ") =
  extract_json_from_response (or_decode_error loads_empty_object_array) never (py "[{}]").
Proof.
  apply (extraction_ignores_blanks_around (or_decode_error loads_empty_object_array) never
           (py " ") (py "[{}]") (py " ")); reflexivity.
Defined.

Lemma first_bracket_position (x y rest rest' : pystr) :
  ~ In rbracket x -> x ++ rbracket :: rest = y ++ rbracket :: rest' -> length x <= length y.
Proof.
  revert y. induction x as [|a x IH]; intros y Hx E; [cbn; lia|].
  destruct y as [|b y]; cbn in E.
  - injection E as -> _. exfalso. apply Hx. now left.
  - injection E as _ E. cbn. apply le_n_S. apply (IH y); auto.
    intros Hin. apply Hx. now right.
Qed.

(** An array block with no closing bracket between its braces is what the
    pattern matches at its start, whatever follows. *)
Lemma match_block_with_rest (ws1 body ws2 rest : pystr) :
  blanks ws1 -> blanks ws2 -> ~ In rbracket body ->
  match_here array_pattern (block_text ws1 body ws2 ++ rest) =
  Some (length (block_text ws1 body ws2)).
Proof.
  intros Hws1 Hws2 Hbody. set (t := block_text ws1 body ws2 ++ rest).
  assert (Hb : block_prefix t (length (block_text ws1 body ws2))).
  { exists ws1, body, ws2, rest. repeat split; auto.
    - unfold t. apply block_text_app.
    - apply block_text_length. }
  destruct (match_here array_pattern t) as [n|] eqn:M.
  - destruct (match_block_sound _ _ M) as [Hn Hmin].
    pose proof (Hmin _ Hb) as Hle.
    destruct Hn as (ws1' & body' & ws2' & rest' & E & Hws1' & Hws2' & ->).
    unfold t in E. rewrite block_text_app in E. injection E as E.
    destruct (blanks_prefix_unique ws1 ws1' lbrace lbrace _ _ Hws1 Hws1' eq_refl eq_refl E)
      as (<- & _ & E1).
    assert (P : length (body ++ rbrace :: ws2) <= length (body' ++ rbrace :: ws2')).
    { apply (first_bracket_position _ _ rest rest').
      - intros Hin. apply in_app_or in Hin. destruct Hin as [Hin|[Hin|Hin]].
        + contradiction.
        + discriminate Hin.
        + now apply (blanks_no_bracket ws2).
      - rewrite <- !app_assoc. cbn [app]. exact E1. }
    rewrite !length_app in P. cbn [length] in P.
    rewrite block_text_length in *. f_equal. lia.
  - exfalso. eapply match_block_complete; eauto.
Qed.

Lemma no_match_without_bracket (c : pychar) (s : pystr) :
  c <> lbracket -> match_here array_pattern (c :: s) = None.
Proof.
  intros N. unfold array_pattern. rewrite mh_lit.
  destruct (N.eqb_spec lbracket c) as [E|_]; [congruence|reflexivity].
Qed.

Lemma search_from_next (r : regex) (i : nat) (c : pychar) (s : pystr) :
  match_here r (c :: s) = None -> search_from r i (c :: s) = search_from r (S i) s.
Proof. intros H. cbn [search_from]. now rewrite H. Qed.

Lemma search_skips_prefix (before t : pystr) (c : pychar) :
  ~ In lbracket before ->
  forall i,
    search_from array_pattern i (before ++ c :: t) =
    search_from array_pattern (i + length before) (c :: t).
Proof.
  induction before as [|b before IH]; intros Hb i.
  - cbn [app length]. now rewrite Nat.add_0_r.
  - cbn [app length].
    rewrite search_from_next
      by (apply no_match_without_bracket; intros ->; apply Hb; now left).
    rewrite IH by (intros Hin; apply Hb; now right).
    now rewrite Nat.add_succ_r.
Qed.

Lemma search_block_in_text (before ws1 body ws2 after : pystr) :
  ~ In lbracket before -> blanks ws1 -> blanks ws2 -> ~ In rbracket body ->
  re_search array_pattern (before ++ block_text ws1 body ws2 ++ after) =
  Some (block_text ws1 body ws2).
Proof.
  intros Hb H1 H2 Hbody. unfold re_search.
  assert (E : search_from array_pattern 0 (before ++ block_text ws1 body ws2 ++ after) =
              Some (length before, length (block_text ws1 body ws2))).
  { pose proof (match_block_with_rest ws1 body ws2 after H1 H2 Hbody) as M.
    remember (block_text ws1 body ws2 ++ after) as t eqn:Et.
    destruct t as [|c t']; [discriminate Et|].
    rewrite (search_skips_prefix before t' c Hb 0).
    cbn [search_from]. rewrite M. reflexivity. }
  rewrite E. unfold substr.
  rewrite skipn_app, skipn_all, Nat.sub_diag. cbn [skipn app].
  rewrite firstn_app, firstn_all, Nat.sub_diag. cbn [firstn]. now rewrite app_nil_r.
Qed.

(** X10.  A response in which one array block, with no closing bracket
    between its braces, comes after text that holds no opening bracket
    (prose, a code fence) and before anything: when the block is valid
    JSON, extract_json_from_response returns its parsed contents. *)
Theorem array_after_prose_is_parsed
    (json_loads : pystr -> outcome pyval) (literal_eval : pystr -> option pyval)
    (before ws1 body ws2 after : pystr) (v : pyval) :
  ~ In lbracket before -> blanks ws1 -> blanks ws2 -> ~ In rbracket body ->
  json_loads (block_text ws1 body ws2) = Returns v ->
  extract_json_from_response json_loads literal_eval
    (before ++ block_text ws1 body ws2 ++ after) = Returns v.
Proof.
  intros Hb H1 H2 Hbody Hv. unfold extract_json_from_response.
  assert (S : strip (before ++ block_text ws1 body ws2 ++ after) =
              lstrip before ++ block_text ws1 body ws2 ++ rstrip after).
  { unfold strip, block_text. cbn [app].
    rewrite (lstrip_app_nonblank before _ lbracket eq_refl).
    replace (lstrip before ++ lbracket :: (ws1 ++ lbrace :: body ++ rbrace :: ws2 ++ [rbracket])
             ++ after)
      with ((lstrip before ++ lbracket :: ws1 ++ lbrace :: body ++ rbrace :: ws2)
            ++ rbracket :: after)
      by (repeat (rewrite <- ?app_assoc; cbn [app]; try reflexivity; f_equal)).
    rewrite (rstrip_app_nonblank _ after rbracket eq_refl).
    repeat (rewrite <- ?app_assoc; cbn [app]; try reflexivity; f_equal). }
  rewrite S.
  rewrite search_block_in_text; auto.
  - now rewrite Hv.
  - destruct (lstrip_split before) as (ws & E & _). intros Hin. apply Hb.
    rewrite E. apply in_or_app. now right.
Qed.

(** The answer of a model in a code fence. *)
Lemma array_after_prose_is_parsed_witness :
  extract_json_from_response (or_decode_error loads_empty_object_array) never
    (py "```json " ++ block_text [] [] [] ++ py " ```") = Returns (PList [PDict []]).
Proof.
  apply (array_after_prose_is_parsed (or_decode_error loads_empty_object_array) never
           (py "```json ") [] [] [] (py " ```")).
  - intros H. cbn in H. repeat destruct H as [H|H]; try discriminate H. exact H.
  - reflexivity.
  - reflexivity.
  - intros H. exact H.
  - reflexivity.
Defined.

Lemma startswith_app (p rest : pystr) : startswith (p ++ rest) p = true.
Proof.
  induction p as [|c p IH]; [now destruct rest|]. cbn. now rewrite N.eqb_refl.
Qed.

Lemma endswith_app (front p : pystr) : endswith (front ++ p) p = true.
Proof. unfold endswith. rewrite rev_app_distr. apply startswith_app. Qed.

Lemma slice_to_last_app (front p : pystr) :
  slice_to_last (length p) (front ++ p) = front.
Proof.
  unfold slice_to_last. rewrite length_app, Nat.add_sub.
  rewrite firstn_app, firstn_all, Nat.sub_diag. cbn [firstn]. apply app_nil_r.
Qed.

Lemma startswith_app_false (inner p q : pystr) (c : pychar) :
  startswith inner p = false -> ~ In c p -> startswith (inner ++ c :: q) p = false.
Proof.
  revert p. induction inner as [|b inner IH]; intros [|a p] H N; cbn in *;
    try discriminate.
  - destruct (N.eqb_spec a c) as [->|_]; [|reflexivity]. exfalso. apply N. now left.
  - destruct (a =? b)%N; [|reflexivity]. cbn in *. apply IH; auto.
Qed.

(** X11.  A response that opens with a code fence ([```json], or [```]
    followed by something other than [json]) and closes with one, and in
    which no array block occurs: extract_json_from_response parses what
    stands between the fences, stripped, as JSON and then as a Python
    literal. *)
Theorem fenced_text_is_parsed_whole
    (json_loads : pystr -> outcome pyval) (literal_eval : pystr -> option pyval)
    (opening inner : pystr) :
  opening = py "```json" \/ (opening = py "```" /\ startswith inner (py "json") = false) ->
  ~ has_array_block (opening ++ inner ++ py "```") ->
  extract_json_from_response json_loads literal_eval (opening ++ inner ++ py "```") =
  parse_whole json_loads literal_eval (strip inner).
Proof.
  intros Hopen Hno. unfold extract_json_from_response.
  rewrite (no_block_no_match _ Hno).
  assert (S : strip (opening ++ inner ++ py "```") = opening ++ inner ++ py "```").
  { destruct Hopen as [->|[-> _]].
    - assert (E : py "```json" ++ inner ++ py "```" =
                  96%N :: (py "``json" ++ inner ++ py "``") ++ [96%N])
        by (cbn [py map list_ascii_of_string app]; now rewrite <- !app_assoc).
      rewrite E. now apply strip_fixed.
    - assert (E : py "```" ++ inner ++ py "```" =
                  96%N :: (py "``" ++ inner ++ py "``") ++ [96%N])
        by (cbn [py map list_ascii_of_string app]; now rewrite <- !app_assoc).
      rewrite E. now apply strip_fixed. }
  rewrite S. f_equal. unfold remove_markdown.
  destruct Hopen as [->|[-> Hj]].
  - rewrite (startswith_app (py "```json")).
    change (slice_from 7 (py "```json" ++ inner ++ py "```")) with (inner ++ py "```").
    rewrite endswith_app.
    now rewrite (slice_to_last_app inner (py "```")
                 : slice_to_last 3 (inner ++ py "```") = inner).
  - replace (startswith (py "```" ++ inner ++ py "```") (py "```json")) with false.
    + rewrite (startswith_app (py "```")).
      change (slice_from 3 (py "```" ++ inner ++ py "```")) with (inner ++ py "```").
      rewrite endswith_app.
      now rewrite (slice_to_last_app inner (py "```")
                 : slice_to_last 3 (inner ++ py "```") = inner).
    + symmetry.
      change (startswith (py "```" ++ inner ++ py "```") (py "```json"))
        with (startswith (inner ++ 96%N :: py "``") (py "json")).
      apply startswith_app_false; [exact Hj|].
      intros Hin. cbn in Hin. repeat destruct Hin as [Hin|Hin]; try discriminate Hin.
      exact Hin.
Qed.

(** A fenced JSON object holds no array block. *)
Lemma fenced_object_has_no_block : ~ has_array_block (py "```json" ++ py " {} " ++ py "```").
Proof.
  intros H. apply block_has_bracket in H. cbn in H.
  repeat destruct H as [H|H]; try discriminate H. exact H.
Qed.

Lemma fenced_text_is_parsed_whole_witness :
  extract_json_from_response
    (or_decode_error (fun s => if pystr_eqb s (py "{}") then Some (PDict []) else None))
    never (py "```json" ++ py " {} " ++ py "```") = Returns (PDict []).
Proof.
  rewrite (fenced_text_is_parsed_whole _ never (py "```json") (py " {} ")
             (or_introl eq_refl) fenced_object_has_no_block).
  reflexivity.
Defined.

(* ===================================================================== *)
(** ** The paragraphs of the Word document *)
(* ===================================================================== *)

(** What the bold pattern matches at the start of a text: two asterisks,
    at least one character, two asterisks. *)
Lemma bold_match_sound (t : pystr) (n : nat) :
  match_here bold_pattern t = Some n ->
  exists inner rest,
    t = asterisk :: asterisk :: inner ++ asterisk :: asterisk :: rest /\
    inner <> [] /\ n = length inner + 4.
Proof.
  unfold bold_pattern. intros M.
  destruct t as [|c1 t]; [discriminate M|]. rewrite mh_lit in M.
  destruct (N.eqb_spec asterisk c1) as [<-|]; [|discriminate M].
  destruct t as [|c2 t]; [discriminate M|]. rewrite mh_lit in M.
  destruct (N.eqb_spec asterisk c2) as [<-|]; [|discriminate M].
  destruct t as [|c3 t]; [discriminate M|].
  change (match_here (One Dot :: ?r) (c3 :: t)) with
    (option_map S (match_here r t)) in M.
  rewrite mh_lazy in M.
  destruct (star_lazy Dot _ t) as [m|] eqn:L; [|discriminate M].
  cbn in M. injection M as <-.
  destruct (lazy_dot_sound _ _ _ L) as (pre & u & n' & -> & K & -> & _).
  destruct u as [|d1 u]; [discriminate K|]. rewrite mh_lit in K.
  destruct (N.eqb_spec asterisk d1) as [<-|]; [|discriminate K].
  destruct u as [|d2 u]; [discriminate K|]. rewrite mh_lit in K.
  destruct (N.eqb_spec asterisk d2) as [<-|]; [|discriminate K].
  rewrite mh_end in K. cbn in K. injection K as <-.
  exists (c3 :: pre), u. repeat split.
  - discriminate.
  - cbn [length]. lia.
Qed.

Lemma skipn_cons_inv {A} (l : list A) (i : nat) (c : A) (s : list A) :
  skipn i l = c :: s -> skipn (S i) l = s /\ i < length l.
Proof.
  revert l. induction i as [|i IH]; intros [|a l] E; cbn in E; try discriminate.
  - injection E as _ <-. split; [reflexivity|cbn; lia].
  - destruct (IH l E) as [E' L]. split; [exact E'|cbn; lia].
Qed.

Lemma skipn_nil_inv {A} (l : list A) (i : nat) : skipn i l = [] -> length l <= i.
Proof.
  revert l. induction i as [|i IH]; intros [|a l] E; cbn in *; try discriminate; try lia.
  apply IH in E. lia.
Qed.

Lemma skipn_substr (line : pystr) (a b : nat) :
  a <= b -> skipn a line = substr a (b - a) line ++ skipn b line.
Proof.
  intros Le. unfold substr.
  replace (skipn b line) with (skipn (b - a) (skipn a line)).
  - symmetry. apply firstn_skipn.
  - rewrite skipn_skipn. f_equal. lia.
Qed.

Lemma substr_prefix (line inner rest : pystr) (i : nat) :
  skipn i line = inner ++ rest -> substr i (length inner) line = inner.
Proof.
  intros E. unfold substr. rewrite E.
  rewrite firstn_app, firstn_all, Nat.sub_diag. cbn [firstn]. apply app_nil_r.
Qed.

Lemma skipn_suffix (line inner rest : pystr) (i : nat) :
  skipn i line = inner ++ rest -> skipn (i + length inner) line = rest.
Proof.
  intros E. rewrite Nat.add_comm, <- skipn_skipn, E.
  rewrite skipn_app, skipn_all, Nat.sub_diag. reflexivity.
Qed.

Lemma markdown_of_app (a b : list text_run) :
  markdown_of (a ++ b) = markdown_of a ++ markdown_of b.
Proof. unfold markdown_of. apply flat_map_app. Qed.

Section Runs.

Variable line : pystr.

(** The runs made of the matches found from position [i] on, when the
    text up to [last] is already in runs. *)
Lemma runs_render (s : pystr) :
  forall i skip last,
    s = skipn i line -> i <= length line ->
    (skip = 0 -> last <= i) ->
    (0 < skip -> last = i + skip /\ last <= length line) ->
    markdown_of (runs_between line last (finditer_from bold_pattern skip i s))
      = skipn last line /\
    Forall (fun r => run_text r <> [])
           (runs_between line last (finditer_from bold_pattern skip i s)).
Proof.
  assert (Tail : forall last,
             markdown_of (runs_between line last []) = skipn last line /\
             Forall (fun r => run_text r <> []) (runs_between line last [])).
  { intros last. cbn [runs_between].
    destruct (Nat.ltb_spec last (length line)) as [L|L].
    - cbn [markdown_of flat_map bold run_text]. rewrite app_nil_r. split; [reflexivity|].
      constructor; [|constructor]. cbn. unfold slice_from. intros E.
      apply skipn_nil_inv in E. lia.
    - cbn. split; [|constructor]. symmetry. now apply skipn_all2. }
  induction s as [|c s' IH]; intros i skip last Es Hi H0 H1.
  - destruct skip as [|k]; cbn [finditer_from].
    + replace (match_here bold_pattern []) with (@None nat) by reflexivity. apply Tail.
    + apply Tail.
  - symmetry in Es. destruct (skipn_cons_inv _ _ _ _ Es) as [Es' Li].
    destruct skip as [|k]; cbn [finditer_from].
    + destruct (match_here bold_pattern (c :: s')) as [n|] eqn:M.
      * destruct (bold_match_sound _ _ M) as (inner & rest & Et & Ne & ->).
        rewrite <- Es in Et.
        assert (Len : i + (length inner + 4) <= length line).
        { assert (L := f_equal (@length _) Et). rewrite length_skipn in L.
          cbn [length] in L. rewrite length_app in L. cbn [length] in L. lia. }
        destruct (IH (S i) (pred (length inner + 4)) (i + (length inner + 4)))
          as [R F]; auto; try lia.
        cbn [runs_between]. rewrite markdown_of_app. split.
        -- cbn [markdown_of flat_map bold run_text]. fold (markdown_of (runs_between line
             (i + (length inner + 4))
             (finditer_from bold_pattern (pred (length inner + 4)) (S i) s'))).
           rewrite R.
           replace (length inner + 4 - 4) with (length inner) by lia.
           rewrite (substr_prefix line inner (asterisk :: asterisk :: rest) (i + 2)).
           2: { rewrite Nat.add_comm, <- skipn_skipn, Et. reflexivity. }
           replace (skipn (i + (length inner + 4)) line) with rest.
           2: { symmetry.
                replace (i + (length inner + 4))
                  with (i + length (asterisk :: asterisk :: inner ++ [asterisk; asterisk]))
                  by (cbn [length]; rewrite length_app; cbn [length]; lia).
                apply skipn_suffix. rewrite Et. cbn [app]. rewrite <- app_assoc.
                reflexivity. }
           rewrite (skipn_substr line last i) by auto.
           rewrite Et.
           destruct (Nat.ltb_spec last i) as [L|L].
           ++ cbn [markdown_of flat_map bold run_text]. rewrite app_nil_r.
              cbn [app]. rewrite <- !app_assoc. reflexivity.
           ++ replace (i - last) with 0 by lia. unfold substr.
              cbn [markdown_of firstn flat_map app].
              rewrite <- !app_assoc. reflexivity.
        -- apply Forall_app. split.
           ++ destruct (Nat.ltb_spec last i) as [L|L]; [|constructor].
              constructor; [|constructor]. cbn [run_text]. unfold substr. intros E.
              assert (X := f_equal (@length _) E).
              rewrite length_firstn, length_skipn in X. cbn [length] in X. lia.
           ++ constructor; [|exact F]. cbn [run_text].
              replace (length inner + 4 - 4) with (length inner) by lia.
              rewrite (substr_prefix line inner (asterisk :: asterisk :: rest) (i + 2)).
              ** exact Ne.
              ** rewrite Nat.add_comm, <- skipn_skipn, Et. reflexivity.
      * apply IH; auto; try lia.
    + destruct (H1 (Nat.lt_0_succ k)) as [-> L].
      apply IH; auto; try lia.
Qed.

End Runs.

(** One paragraph written back with its markers is the line it was made
    of, and none of its runs is empty. *)
Lemma paragraph_runs_render (line : pystr) :
  markdown_of (paragraph_runs line) = line /\
  Forall (fun r => run_text r <> []) (paragraph_runs line).
Proof.
  unfold paragraph_runs, finditer.
  destruct (runs_render line line 0 0 0) as [R F]; auto; try lia.
Qed.

(** The pieces of [split] hold no separator. *)
Lemma split_on_no_sep (sep : pychar) (s : pystr) :
  split_on sep s <> [] /\ Forall (fun piece => ~ In sep piece) (split_on sep s).
Proof.
  induction s as [|c s [N IH]]; cbn [split_on].
  - split; [discriminate|]. constructor; [|constructor]. intros [].
  - destruct (N.eqb_spec c sep) as [->|Ne].
    + split; [discriminate|]. constructor; [intros []|exact IH].
    + destruct (split_on sep s) as [|piece pieces]; [contradiction|].
      split; [discriminate|]. inversion IH as [|? ? P Ps]; subst.
      constructor; [|exact Ps]. intros [E|Hin]; [congruence|contradiction].
Qed.

Lemma in_strip (c : pychar) (s : pystr) : In c (strip s) -> In c s.
Proof.
  destruct (strip_split s) as (lead & trail & E & _). intros H. rewrite E.
  apply in_or_app. right. apply in_or_app. now left.
Qed.

Lemma in_markdown_of (c : pychar) (r : text_run) (p : list text_run) :
  In r p -> In c (run_text r) -> In c (markdown_of p).
Proof.
  intros Hr Hc. unfold markdown_of. apply in_flat_map. exists r. split; [exact Hr|].
  destruct (bold r); [|exact Hc].
  right. right. apply in_or_app. now left.
Qed.

(** The paragraphs asked for lines that hold no newline. *)
Lemma paragraphs_keep_nonblank (lines : list pystr) :
  Forall (fun piece => ~ In newline piece) lines ->
  map markdown_of (requested_paragraphs lines) = nonblank lines /\
  well_formed_document (requested_paragraphs lines).
Proof.
  unfold requested_paragraphs, nonblank, well_formed_document, well_formed_runs.
  induction lines as [|piece pieces IH]; intros N; [split; [reflexivity|constructor]|].
  inversion N as [|? ? Np Nps]; subst. destruct (IH Nps) as [IH1 IH2].
  cbn [flat_map map filter].
  destruct (strip piece) as [|c line] eqn:S.
  - split; [exact IH1|exact IH2].
  - destruct (paragraph_runs_render (c :: line)) as [R F].
    cbn [app map]. split.
    + now rewrite R, IH1.
    + constructor; [|exact IH2]. split.
      * intros E. rewrite E in R. discriminate R.
      * rewrite Forall_forall in F |- *. intros r Hr. split; [now apply F|].
        intros Hin. apply Np. apply in_strip. rewrite S. rewrite <- R.
        now apply (in_markdown_of newline r).
Qed.

Lemma unstripped_keep_lines (lines : list pystr) :
  Forall (fun piece => ~ In newline piece) lines ->
  map markdown_of (requested_unstripped lines) =
    filter (fun line => match strip line with [] => false | _ => true end) lines /\
  Forall well_formed_runs (requested_unstripped lines).
Proof.
  unfold requested_unstripped, well_formed_runs.
  induction lines as [|line lines IH]; intros N; [split; [reflexivity|constructor]|].
  inversion N as [|? ? Nl Nls]; subst. destruct (IH Nls) as [IH1 IH2].
  cbn [flat_map map filter].
  destruct (strip line) as [|c rest]; [split; assumption|].
  destruct (paragraph_runs_render line) as [R F].
  cbn [app map]. split.
  - now rewrite R, IH1.
  - constructor; [|exact IH2].
    rewrite Forall_forall in F |- *. intros r Hr. split; [now apply F|].
    intros Hin. apply Nl. rewrite <- R. now apply (in_markdown_of newline r).
Qed.

(** *** The document read back from the calls *)

Lemma runs_added_calls (runs : list text_run) (rest : list event) :
  runs_added rest = [] -> runs_added (map run_call runs ++ rest) = runs.
Proof.
  intros R. induction runs as [|[x b] runs IH]; [exact R|].
  cbn [map app run_call runs_added run_text bold]. now rewrite IH.
Qed.

Lemma paragraphs_added_runs (runs : list text_run) (rest : list event) :
  paragraphs_added (map run_call runs ++ rest) = paragraphs_added rest.
Proof. induction runs as [|r runs IH]; [reflexivity|exact IH]. Qed.

Lemma runs_added_docx_calls (paragraphs : list (list text_run)) :
  runs_added (docx_calls paragraphs) = [].
Proof. now destruct paragraphs. Qed.

Lemma paragraphs_added_calls (paragraphs : list (list text_run)) :
  paragraphs_added (docx_calls paragraphs) = paragraphs.
Proof.
  induction paragraphs as [|p ps IH]; [reflexivity|].
  cbn [docx_calls flat_map]. fold (docx_calls ps).
  unfold paragraph_calls. cbn [app paragraphs_added].
  now rewrite runs_added_calls, paragraphs_added_runs, IH by apply runs_added_docx_calls.
Qed.

(** What a list of calls that asks for given paragraphs builds. *)
Lemma calls_build (raises : event -> option exn) (paragraphs : list (list text_run))
    (s : store) :
  (ending (make_calls raises (docx_calls paragraphs)) s = Normal tt ->
   paragraphs_added (trace (make_calls raises (docx_calls paragraphs)) s) = paragraphs) /\
  ((forall text bold, raises (EvAddRun text bold) = None) ->
   raises (EvAddParagraph "" None) = None ->
   ending (make_calls raises (docx_calls paragraphs)) s = Normal tt) /\
  (forall e,
      ending (make_calls raises (docx_calls paragraphs)) s = Abrupt (Raise e) ->
      exists made refused,
        trace (make_calls raises (docx_calls paragraphs)) s = made ++ [refused] /\
        raises refused = Some e) /\
  returns_or_raises (ending (make_calls raises (docx_calls paragraphs)) s).
Proof.
  destruct (make_calls_spec raises (docx_calls paragraphs) s) as
    [_ [(E & T & A)|(made & refused & rest & e & C & T & R & E)]].
  - rewrite E, T. split; [intros _; apply paragraphs_added_calls|].
    split; [reflexivity|]. split; [discriminate|exact I].
  - rewrite E, T. split; [discriminate|]. split; [|split; [|exact I]].
    + intros Hr Hp. exfalso.
      assert (I : In refused (docx_calls paragraphs))
        by (rewrite C; apply in_or_app; right; now left).
      unfold docx_calls in I. apply in_flat_map in I. destruct I as (p & _ & [<-|I]).
      * rewrite Hp in R. discriminate R.
      * apply in_map_iff in I. destruct I as (r & <- & _). unfold run_call in R.
        rewrite Hr in R. discriminate R.
    + intros e' H. injection H as <-. now exists made, refused.
Qed.

(** X12.  The Word document ExtractEnergyInventoryActions builds from an
    answer, by the calls of its loop over the lines.  When the loop ends
    normally, the paragraphs added, written back with the [**] markers
    around their bold runs, are the non-blank lines of the answer,
    stripped, in order; every paragraph has a run, no run is empty, and
    no run holds a newline.  The loop ends normally when python-docx
    accepts every paragraph and run; it ends with an exception only when
    the last call made raised it, as [add_run] does on a control
    character, and in no other way. *)
Theorem document_keeps_nonblank_lines
    (raises : event -> option exn) (text : pystr) (s : store) :
  let build := for_each (split_on newline text) (add_line raises) in
  (ending build s = Normal tt ->
   map markdown_of (paragraphs_added (trace build s)) = nonblank_lines text /\
   well_formed_document (paragraphs_added (trace build s))) /\
  ((forall run bold, raises (EvAddRun run bold) = None) ->
   raises (EvAddParagraph "" None) = None ->
   ending build s = Normal tt) /\
  (forall e,
      ending build s = Abrupt (Raise e) ->
      exists made refused, trace build s = made ++ [refused] /\ raises refused = Some e) /\
  returns_or_raises (ending build s).
Proof.
  cbv zeta. unfold ending, trace. rewrite add_lines_calls.
  destruct (calls_build raises (requested_paragraphs (split_on newline text)) s)
    as (A & B & C & D).
  split; [|split; [exact B|split; [exact C|exact D]]].
  intros E. unfold ending, trace in A. rewrite (A E).
  apply paragraphs_keep_nonblank. apply split_on_no_sep.
Qed.

(** X12 on two instances: an answer of three lines, one of them blank,
    which python-docx accepts, and an answer with the control character
    U+0001, on which [add_run] raises. *)
Lemma document_keeps_nonblank_lines_witness :
  map markdown_of
    (paragraphs_added
       (trace (for_each (split_on newline (py "**Waste** plan" ++ [newline; newline]
                                           ++ py " next "))
                 (add_line accepting)) empty_store)) =
    [py "**Waste** plan"; py "next"] /\
  exists made refused,
    trace (for_each (split_on newline (py "a" ++ [1%N] ++ py "b")) (add_line refusing_controls))
      empty_store = made ++ [refused] /\
    refusing_controls refused = Some (ValueError "All strings must be XML compatible").
Proof.
  split.
  - destruct (document_keeps_nonblank_lines accepting
                (py "**Waste** plan" ++ [newline; newline] ++ py " next ") empty_store)
      as (A & _).
    rewrite (proj1 (A eq_refl)). reflexivity.
  - destruct (document_keeps_nonblank_lines refusing_controls
                (py "a" ++ [1%N] ++ py "b") empty_store) as (_ & _ & C & _).
    exact (C (ValueError "All strings must be XML compatible") eq_refl).
Defined.

(** X25.  ExtractEnergyInventoryActions.getScores on an answer with
    text: the Word document is saved only once the heading, every
    paragraph and every run were added.  When building the document ends
    normally, [doc.save] is the next call; when python-docx raises on the
    way, as [add_run] does on a control character, the analysis ends with
    that exception right after the call that raised, and the document is
    not saved. *)
Theorem document_saved_only_when_built
    (w : remote) (stem : string) (f : File) (s : store) (r : response) (reply : pystr) :
  on_generate_content w = Returns r ->
  text r = Returns (Some reply) ->
  reply <> [] ->
  let build := build_document (on_call w) ("Analysis for " ++ stem ++ ".pdf")
                 (split_on newline (strip reply)) in
  let save := EvSaveDocx (ExtractEnergyInventoryActions.docx_path stem) (PStr (strip reply)) in
  let analyse := ExtractEnergyInventoryActions.analyse w stem f in
  (ending build s = Normal tt ->
   exists rest,
     trace analyse s =
       EvPrint "Sending request to Gemini for analysis..." :: EvGenerateContent f
       :: trace build s ++ save :: rest) /\
  (forall e,
      ending build s = Abrupt (Raise e) ->
      ending analyse s = Abrupt (Raise e) /\
      trace analyse s =
        EvPrint "Sending request to Gemini for analysis..." :: EvGenerateContent f
        :: trace build s /\
      ~ In save (trace analyse s)).
Proof.
  intros Hr Ht Hne. destruct reply as [|c t]; [contradiction|]. cbv zeta.
  pose proof (build_document_trace (on_call w) ("Analysis for " ++ stem ++ ".pdf")
                (split_on newline (strip (c :: t))) s) as O.
  assert (P : ExtractEnergyInventoryActions.analyse w stem f s =
              match
                bind (build_document (on_call w) ("Analysis for " ++ stem ++ ".pdf")
                        (split_on newline (strip (c :: t))))
                  (fun _ =>
                     call (on_call w)
                       (EvSaveDocx (ExtractEnergyInventoryActions.docx_path stem)
                          (PStr (strip (c :: t)))) ;;
                     print ("Analysis saved to: "
                            ++ ExtractEnergyInventoryActions.docx_path stem)) s
              with
              | (r2, t2, s2) =>
                  (r2, EvPrint "Sending request to Gemini for analysis..."
                       :: EvGenerateContent f :: t2, s2)
              end).
  { unfold ExtractEnergyInventoryActions.analyse.
    rewrite (bind_normal _ _ s s tt [EvPrint "Sending request to Gemini for analysis..."])
      by reflexivity.
    rewrite (bind_normal _ _ s s r [EvGenerateContent f])
      by (unfold generate_content, answer; now rewrite Hr).
    rewrite Ht.
    destruct (bind (build_document _ _ _) _ s) as [[r2 t2] s2]. reflexivity. }
  unfold ending, trace in *. rewrite P. unfold bind.
  destruct (build_document (on_call w) ("Analysis for " ++ stem ++ ".pdf")
              (split_on newline (strip (c :: t))) s) as [[rb tb] sb].
  cbn [fst snd] in *. split.
  - intros ->. unfold call, print, emit.
    destruct (on_call w (EvSaveDocx _ _)); cbn [fst snd app]; eexists;
      rewrite <- ?app_assoc; reflexivity.
  - intros e ->. cbn [fst snd app]. repeat split.
    intros [H|[H|H]]; try discriminate H.
    rewrite forallb_forall in O. specialize (O _ H). discriminate O.
Qed.

(** X25 on an instance: the run with the control character is refused
    and nothing is saved. *)
Lemma document_saved_only_when_built_witness :
  trace (ExtractEnergyInventoryActions.analyse service_with_control "doc" (file_in "ACTIVE"))
    empty_store =
    [EvPrint "Sending request to Gemini for analysis..."; EvGenerateContent (file_in "ACTIVE");
     EvAddHeading "Analysis for doc.pdf"; EvAddParagraph "" None;
     EvAddRun (py "a" ++ [1%N] ++ py "b") false] /\
  ending (ExtractEnergyInventoryActions.analyse service_with_control "doc" (file_in "ACTIVE"))
    empty_store = Abrupt (Raise (ValueError "All strings must be XML compatible")).
Proof.
  assert (N : py "a" ++ [1%N] ++ py "b" <> []) by discriminate.
  destruct (proj2 (document_saved_only_when_built service_with_control "doc" (file_in "ACTIVE")
                     empty_store {| text := Returns (Some (py "a" ++ [1%N] ++ py "b")) |}
                     (py "a" ++ [1%N] ++ py "b") eq_refl eq_refl N)
                  (ValueError "All strings must be XML compatible") eq_refl)
    as (E & T & _).
  split; [rewrite T; reflexivity|exact E].
Defined.

(* ===================================================================== *)
(** ** GeminiAPIReport.getScores: the category scores *)
(* ===================================================================== *)

Section ScoringFacts.

Variable number_add : pyval -> pyval -> outcome pyval.
Variable raises : event -> option exn.

Lemma add_score_int (a : Z) (score : pyval) (z : Z) :
  as_int score = Some z -> add_score number_add (PInt a) score = Returns (PInt (a + z)).
Proof. destruct score; cbn; intros E; try discriminate E; now injection E as <-. Qed.

(** Two prefixes that differ in their first character exclude each other. *)
Lemma prefix_exclusive (q p1 p2 : pystr) (x y : pychar) :
  x <> y -> startswith q (x :: p1) = true -> startswith q (y :: p2) = false.
Proof.
  intros N. destruct q as [|c q]; cbn; [discriminate|].
  destruct (N.eqb_spec x c) as [<-|]; [|discriminate]. intros _.
  destruct (N.eqb_spec y x) as [->|]; [congruence|reflexivity].
Qed.

Lemma count_answer_step (a b c d : Z) (item : pyval) :
  well_shaped item = true ->
  count_answer number_add (scores_of a b c d) item =
  Returns (scores_of (a + scored (py "1.") item) (b + scored (py "2.") item)
                     (c + scored (py "3.") item) (d + scored (py "4.") item)).
Proof.
  destruct item as [| | | | |fields|fields|]; try discriminate.
  unfold well_shaped, count_answer, scored.
  destruct (dict_get (py "question_id") (PStr (py "N/A")) fields) as [| | | |q| | |];
    try discriminate.
  destruct (as_int (dict_get (py "score") (PInt 0) fields)) as [z|] eqn:Z; [|discriminate].
  intros _. unfold category_of.
  destruct (startswith q (py "1.")) eqn:S1.
  { rewrite (prefix_exclusive q _ _ 49%N 50%N ltac:(discriminate) S1
               : startswith q (py "2.") = false),
            (prefix_exclusive q _ _ 49%N 51%N ltac:(discriminate) S1
               : startswith q (py "3.") = false),
            (prefix_exclusive q _ _ 49%N 52%N ltac:(discriminate) S1
               : startswith q (py "4.") = false).
    change (dict_get (py "Emissions Inventory") PNone (scores_of a b c d)) with (PInt a).
    rewrite (add_score_int a _ z Z). rewrite !Z.add_0_r. reflexivity. }
  destruct (startswith q (py "2.")) eqn:S2.
  { rewrite (prefix_exclusive q _ _ 50%N 51%N ltac:(discriminate) S2
               : startswith q (py "3.") = false),
            (prefix_exclusive q _ _ 50%N 52%N ltac:(discriminate) S2
               : startswith q (py "4.") = false).
    change (dict_get (py "Strategy Identification") PNone (scores_of a b c d)) with (PInt b).
    rewrite (add_score_int b _ z Z). rewrite !Z.add_0_r. reflexivity. }
  destruct (startswith q (py "3.")) eqn:S3.
  { rewrite (prefix_exclusive q _ _ 51%N 52%N ltac:(discriminate) S3
               : startswith q (py "4.") = false).
    change (dict_get (py "Action Prioritization & Detailing") PNone (scores_of a b c d))
      with (PInt c).
    rewrite (add_score_int c _ z Z). rewrite !Z.add_0_r. reflexivity. }
  destruct (startswith q (py "4.")) eqn:S4.
  { change (dict_get (py "Monitoring, Evaluation & Reporting (MER)") PNone (scores_of a b c d))
      with (PInt d).
    rewrite (add_score_int d _ z Z). rewrite !Z.add_0_r. reflexivity. }
  now rewrite !Z.add_0_r.
Qed.

Lemma score_item_step (a b c d : Z) (item : pyval) :
  well_shaped item = true ->
  first_refusal raises (answer_paragraphs item) = None ->
  score_item number_add raises (scores_of a b c d) item =
  Returns (scores_of (a + scored (py "1.") item) (b + scored (py "2.") item)
                     (c + scored (py "3.") item) (d + scored (py "4.") item)).
Proof.
  intros W A. unfold score_item. now rewrite (count_answer_step a b c d item W), A.
Qed.

Lemma score_items_total (items : list pyval) :
  forallb well_shaped items = true ->
  accepted raises items ->
  forall a b c d,
    score_items number_add raises (scores_of a b c d) items =
    Returns (scores_of (a + category_total (py "1.") items) (b + category_total (py "2.") items)
                       (c + category_total (py "3.") items) (d + category_total (py "4.") items)).
Proof.
  induction items as [|item items IH]; intros W A a b c d.
  - cbn. now rewrite !Z.add_0_r.
  - cbn [forallb] in W. apply andb_prop in W. destruct W as [W1 W2].
    inversion A as [|? ? A1 A2]; subst.
    cbn [score_items]. rewrite (score_item_step a b c d item W1 A1).
    rewrite (IH W2 A2). unfold category_total. cbn [map fold_right].
    now rewrite !Z.add_assoc.
Qed.

Lemma score_items_app (good rest : list pyval) :
  forall scores,
    score_items number_add raises scores (good ++ rest) =
    match score_items number_add raises scores good with
    | Returns scores' => score_items number_add raises scores' rest
    | Raises e => Raises e
    end.
Proof.
  induction good as [|item good IH]; intros scores; [reflexivity|].
  cbn [app score_items]. destruct (score_item number_add raises scores item); auto.
Qed.

Lemma summary_row_raises (stem : string) (good rest : list pyval) (bad : pyval) (e : exn) :
  forallb well_shaped good = true ->
  accepted raises good ->
  (forall a b c d, score_item number_add raises (scores_of a b c d) bad = Raises e) ->
  summary_row number_add raises stem (good ++ bad :: rest) = Raises e.
Proof.
  intros W A B. unfold summary_row.
  change initial_scores with (scores_of 0 0 0 0).
  rewrite score_items_app, (score_items_total good W A). cbn [score_items].
  now rewrite B.
Qed.

Lemma count_answer_raises (scores : list (pyval * pyval)) (bad : pyval) (e : exn) :
  count_answer number_add scores bad = Raises e ->
  score_item number_add raises scores bad = Raises e.
Proof. intros H. unfold score_item. now rewrite H. Qed.

End ScoringFacts.

(** X13.  GeminiAPIReport.getScores on a list of answers that are objects
    with a string for question id and an integer for score (a missing id
    is ["N/A"], a missing score 0), when python-docx accepts the
    paragraphs of every answer: each category holds the sum of the scores
    of the answers whose id starts with its number and a dot, an answer
    with another id counts nowhere, and the total is the sum of the four
    categories. *)
Theorem category_scores_add_up
    (number_add : pyval -> pyval -> outcome pyval) (raises : event -> option exn)
    (stem : string) (items : list pyval) :
  forallb well_shaped items = true ->
  accepted raises items ->
  summary_row number_add raises stem items =
    Returns (PDict
      [(PStr (py "City"), PStr (py stem));
       (PStr (py "Emissions Inventory"), PInt (category_total (py "1.") items));
       (PStr (py "Strategy Identification"), PInt (category_total (py "2.") items));
       (PStr (py "Action Prioritization & Detailing"), PInt (category_total (py "3.") items));
       (PStr (py "Monitoring, Evaluation & Reporting (MER)"),
        PInt (category_total (py "4.") items));
       (PStr (py "Total Score"),
        PInt (category_total (py "1.") items + category_total (py "2.") items +
              category_total (py "3.") items + category_total (py "4.") items))]).
Proof.
  intros W A. unfold summary_row.
  change initial_scores with (scores_of 0 0 0 0).
  rewrite (score_items_total number_add raises items W A).
  cbn [scores_of map snd py_sum add_score as_int app Z.add].
  reflexivity.
Qed.

Lemma four_answers_accepted : accepted refusing_control_fields four_answers.
Proof. repeat constructor. Defined.

Lemma category_scores_add_up_witness :
  summary_row no_float refusing_control_fields "city" four_answers =
    Returns (PDict
      [(PStr (py "City"), PStr (py "city"));
       (PStr (py "Emissions Inventory"), PInt 1);
       (PStr (py "Strategy Identification"), PInt 1);
       (PStr (py "Action Prioritization & Detailing"), PInt 0);
       (PStr (py "Monitoring, Evaluation & Reporting (MER)"), PInt 0);
       (PStr (py "Total Score"), PInt 2)]).
Proof.
  exact (category_scores_add_up no_float refusing_control_fields "city" four_answers
           eq_refl four_answers_accepted).
Defined.

(** X14.  After any number of well-shaped answers whose paragraphs
    python-docx accepts, one more answer ends the scoring of the document
    with an exception, and no row is made: [AttributeError] when the
    answer is no object, or when its question id is a number;
    [TypeError] when its id counts for a category and its score is a
    string, [None], a list or an object; and, when the answer is
    well-shaped, the exception python-docx raises on the first of its
    paragraphs it refuses. *)
Theorem ill_shaped_answer_raises
    (number_add : pyval -> pyval -> outcome pyval) (raises : event -> option exn)
    (stem : string) (good rest : list pyval) (bad : pyval) :
  forallb well_shaped good = true ->
  accepted raises good ->
  (is_dict bad = false ->
   summary_row number_add raises stem (good ++ bad :: rest) = Raises (AttributeError "get")) /\
  (forall fields,
      bad = PDict fields ->
      is_number (dict_get (py "question_id") (PStr (py "N/A")) fields) = true ->
      summary_row number_add raises stem (good ++ bad :: rest) =
        Raises (AttributeError "startswith")) /\
  (forall fields q,
      bad = PDict fields ->
      dict_get (py "question_id") (PStr (py "N/A")) fields = PStr q ->
      category_of q <> None ->
      no_number (dict_get (py "score") (PInt 0) fields) = true ->
      summary_row number_add raises stem (good ++ bad :: rest) =
        Raises (TypeError "unsupported operand type(s) for +")) /\
  (forall e,
      well_shaped bad = true ->
      first_refusal raises (answer_paragraphs bad) = Some e ->
      summary_row number_add raises stem (good ++ bad :: rest) = Raises e).
Proof.
  intros W A. repeat split.
  - intros D. apply summary_row_raises; [exact W|exact A|]. intros a b c d.
    apply count_answer_raises. destruct bad; try reflexivity. discriminate D.
  - intros fields -> Q. apply summary_row_raises; [exact W|exact A|]. intros a b c d.
    apply count_answer_raises. unfold count_answer.
    destruct (dict_get (py "question_id") (PStr (py "N/A")) fields); try discriminate Q;
      reflexivity.
  - intros fields q -> Q C S. apply summary_row_raises; [exact W|exact A|]. intros a b c d.
    apply count_answer_raises. unfold count_answer. rewrite Q.
    destruct (category_of q) as [category|]; [|contradiction].
    destruct (dict_get (py "score") (PInt 0) fields); try discriminate S; reflexivity.
  - intros e Wb R. apply summary_row_raises; [exact W|exact A|]. intros a b c d.
    unfold score_item. now rewrite (count_answer_step number_add a b c d bad Wb), R.
Qed.

(** After four good answers: a question id given as a number, and an
    answer whose justification holds a control character. *)
Lemma ill_shaped_answer_raises_witness :
  summary_row no_float refusing_control_fields "city"
    (four_answers ++ [PDict [(PStr (py "question_id"), PFloat 0); (PStr (py "score"), PInt 1)]])
    = Raises (AttributeError "startswith") /\
  summary_row no_float refusing_control_fields "city" (four_answers ++ [answer_with_control])
    = Raises (ValueError "All strings must be XML compatible").
Proof.
  split.
  - exact (proj1 (proj2 (ill_shaped_answer_raises no_float refusing_control_fields "city"
                           four_answers []
                           (PDict [(PStr (py "question_id"), PFloat 0);
                                   (PStr (py "score"), PInt 1)])
                           eq_refl four_answers_accepted))
                 _ eq_refl eq_refl).
  - exact (proj2 (proj2 (proj2 (ill_shaped_answer_raises no_float refusing_control_fields
                                  "city" four_answers [] answer_with_control
                                  eq_refl four_answers_accepted)))
                 _ eq_refl eq_refl).
Defined.

(* ===================================================================== *)
(** ** GeminiAPIPromptValidation.save_text_as_excel: the two tables *)
(* ===================================================================== *)

Lemma cells_clean (line : pystr) : Forall clean_cell (cells line).
Proof.
  unfold cells. apply Forall_forall. intros cell Hin.
  apply filter_In in Hin. destruct Hin as [Hin Hne].
  apply in_map_iff in Hin. destruct Hin as (raw & <- & _).
  split.
  - intros E. rewrite E in Hne. discriminate Hne.
  - apply strip_idem.
Qed.

Lemma clean_table_app (rows : list (list pystr)) (row : list pystr) :
  clean_table rows -> row <> [] -> Forall clean_cell row -> clean_table (rows ++ [row]).
Proof.
  intros T N C. apply Forall_app. split; [exact T|]. constructor; [|constructor]. auto.
Qed.

Lemma parse_line_clean (st : tables) (raw_line : pystr) :
  clean_table (coverage_matrix st) -> clean_table (validation_table st) ->
  clean_table (coverage_matrix (parse_line st raw_line)) /\
  clean_table (validation_table (parse_line st raw_line)).
Proof.
  intros C V. unfold parse_line.
  destruct (strip raw_line) as [|c0 line0] eqn:S; [auto|].
  set (line := c0 :: line0).
  destruct (_ || _); [auto|]. destruct (_ || _); [auto|]. destruct (_ || _); [|auto].
  pose proof (cells_clean line) as K.
  destruct (current_table st) as [[|]|]; destruct (cells line) as [|c row]; cbn; auto.
  - split; [|exact V]. apply clean_table_app; auto. discriminate.
  - split; [exact C|]. apply clean_table_app; auto. discriminate.
Qed.

Lemma parse_lines_clean (lines : list pystr) :
  forall st,
    clean_table (coverage_matrix st) -> clean_table (validation_table st) ->
    clean_table (coverage_matrix (fold_left parse_line lines st)) /\
    clean_table (validation_table (fold_left parse_line lines st)).
Proof.
  induction lines as [|l lines IH]; intros st C V; [auto|].
  cbn [fold_left]. destruct (parse_line_clean st l C V) as [C' V']. now apply IH.
Qed.

Lemma with_defaults_ok (header no_data : list pystr) (rows : list (list pystr)) :
  header <> [] -> no_data <> [] -> Forall clean_cell header -> Forall clean_cell no_data ->
  clean_table rows ->
  2 <= length (with_defaults header no_data rows) /\
  clean_table (with_defaults header no_data rows).
Proof.
  intros H1 H2 H3 H4 T. unfold with_defaults.
  destruct rows as [|r1 [|r2 rows]]; cbn [length].
  - split; [lia|]. repeat constructor; auto.
  - split; [lia|]. inversion T; subst. repeat constructor; tauto.
  - split; [lia|exact T].
Qed.

Lemma literal_cells_clean (cells : list pystr) :
  forallb (fun cell => match cell with [] => false | _ => pystr_eqb (strip cell) cell end) cells
    = true ->
  Forall clean_cell cells.
Proof.
  intros H. apply Forall_forall. intros cell Hin.
  rewrite forallb_forall in H. specialize (H cell Hin).
  destruct cell as [|c cell]; [discriminate H|]. split; [discriminate|].
  now apply pystr_eqb_eq.
Qed.

(** X15.  The two tables save_text_as_excel gives to [pd.DataFrame], on
    any text: each has the row for its columns and at least one more
    row; every row has a cell, and no cell is empty or has a blank at
    either end. *)
Theorem tables_have_header_and_data (text : pystr) :
  2 <= length (fst (parse_tables text)) /\ clean_table (fst (parse_tables text)) /\
  2 <= length (snd (parse_tables text)) /\ clean_table (snd (parse_tables text)).
Proof.
  unfold parse_tables. cbn [fst snd].
  destruct (parse_lines_clean (splitlines text)
              {| coverage_matrix := []; validation_table := []; current_table := None |}
              (Forall_nil _) (Forall_nil _)) as [C V].
  match goal with
  | |- _ <= length (with_defaults ?h1 ?n1 ?r1) /\ _ /\
       _ <= length (with_defaults ?h2 ?n2 ?r2) /\ _ =>
      destruct (with_defaults_ok h1 n1 r1) as [A1 B1];
      [discriminate | discriminate | now apply literal_cells_clean
      | now apply literal_cells_clean | exact C |];
      destruct (with_defaults_ok h2 n2 r2) as [A2 B2];
      [discriminate | discriminate | now apply literal_cells_clean
      | now apply literal_cells_clean | exact V |]
  end.
  auto.
Qed.

Lemma parse_line_no_title (st : tables) (raw_line : pystr) :
  current_table st = None -> no_title raw_line = true -> parse_line st raw_line = st.
Proof.
  intros N T. unfold parse_line, no_title in *.
  destruct (strip raw_line) as [|c line]; [reflexivity|].
  apply negb_true_iff in T. rewrite !orb_false_iff in T.
  destruct T as [[[-> ->] ->] ->]. cbn [orb]. rewrite N.
  destruct (_ || _); reflexivity.
Qed.

(** X16.  A text in which no line holds one of the four titles ("Output
    Format 1:", "C40 Key Parameter Coverage Matrix", "Output Format 2:",
    "Enhanced Validation Table") gives the two tables of the "No data
    available" rows, whatever rows of cells it holds: rows are only taken
    below a title. *)
Theorem tables_need_titles (text : pystr) :
  forallb no_title (splitlines text) = true ->
  parse_tables text =
    ([[py "Key Parameter"; py "Covered by Question(s)?"; py "Question ID(s)"; py "Gap?";
       py "Comments"]; no_coverage],
     [[py "Question ID"; py "Aligned with C40?"; py "Key Parameters Missing"; py "Comments"];
      no_validation]).
Proof.
  intros H. unfold parse_tables.
  assert (E : forall lines st,
             current_table st = None -> forallb no_title lines = true ->
             fold_left parse_line lines st = st).
  { induction lines as [|l lines IH]; intros st N T; [reflexivity|].
    cbn [forallb] in T. apply andb_prop in T. destruct T as [T1 T2].
    cbn [fold_left]. rewrite (parse_line_no_title st l N T1). now apply IH. }
  rewrite E; auto.
Qed.

(** A table of two rows under no title. *)
Lemma tables_need_titles_witness :
  parse_tables (py "|a|b|" ++ [10%N] ++ py "|1|2|") =
    ([[py "Key Parameter"; py "Covered by Question(s)?"; py "Question ID(s)"; py "Gap?";
       py "Comments"]; no_coverage],
     [[py "Question ID"; py "Aligned with C40?"; py "Key Parameters Missing"; py "Comments"];
      no_validation]).
Proof.
  exact (tables_need_titles (py "|a|b|" ++ [10%N] ++ py "|1|2|") eq_refl).
Defined.

(* ===================================================================== *)
(** ** The uploaded file after the completion was requested *)
(* ===================================================================== *)

Lemma deletions_nil : deletions [] = 0.
Proof. reflexivity. Qed.

Ltac step_counts :=
  cbn -[re_search strip String.append completions deletions while_processing
        extract_json_from_response GHGEmissionPercentage.keep_items] in *.

Ltac count_calls C D :=
  try contradiction;
  try match goal with
      | H : None = Some _ |- _ => discriminate H
      | H : Some _ = None |- _ => discriminate H
      end;
  repeat match goal with
         | H : Some _ = Some _ |- _ => injection H as ->
         end;
  intros Hc;
  repeat (rewrite completions_cons in Hc || rewrite completions_app in Hc);
  repeat match goal with
         | K : completions ?t = 0 |- _ => rewrite K in Hc
         end;
  rewrite ?C, ?completions_nil in Hc; cbn [is_generate] in Hc;
  first [ discriminate Hc
        | repeat (rewrite deletions_cons || rewrite deletions_app);
          repeat match goal with
                 | K : deletions ?t = 0 |- context [deletions ?t] => rewrite K
                 end;
          rewrite ?D, ?deletions_nil; cbn [is_delete]; reflexivity ].

Section AfterCompletion.

Variable json_loads : pystr -> option pyval.
Variable loads : pystr -> outcome pyval.
Variable literal_eval : pystr -> option pyval.
Variable suffix : string.

Lemma extract_actions_deletes_after_completion (w : remote) (fuel : nat) (stem : string)
    (s : store) :
  completions (trace (GeminiAPIExtractActions.process_pdf json_loads suffix w fuel stem) s) = 1 ->
  deletions (trace (GeminiAPIExtractActions.process_pdf json_loads suffix w fuel stem) s) = 1.
Proof.
  unfold trace, GeminiAPIExtractActions.process_pdf, GeminiAPIExtractActions.try_body,
    GeminiAPIExtractActions.analyse, GeminiAPIExtractActions.save_parsed,
    GeminiAPIExtractActions.handler.
  unfold_monad.
  destruct (on_upload_file w) as [f0|e]; step_counts.
  2: { repeat (split_match; step_counts); count_calls completions_nil deletions_nil. }
  match goal with
  | |- context [while_processing w false fuel ?s1] =>
      destruct (while_processing w false fuel s1) as [[r t] s'] eqn:W;
      destruct (while_frame _ _ _ _ _ _ _ W) as (C & D & H1 & H2 & H3 & H4 & H5 & H6)
  end.
  destruct r as [u|sg].
  - destruct (H6 u eq_refl) as (f & Pf & Ef).
    step_counts. rewrite Pf in *. step_counts.
    repeat (split_match; step_counts).
    all: count_calls C D.
  - destruct sg as [e1| |]; step_counts;
      repeat (split_match; step_counts); count_calls C D.
Qed.

Lemma energy_deletes_after_completion (w : remote) (fuel : nat) (stem : string) (s : store) :
  completions (trace (ExtractEnergyInventoryActions.process_pdf w fuel stem) s) = 1 ->
  deletions (trace (ExtractEnergyInventoryActions.process_pdf w fuel stem) s) = 1.
Proof.
  unfold trace, ExtractEnergyInventoryActions.process_pdf,
    ExtractEnergyInventoryActions.try_body, ExtractEnergyInventoryActions.analyse,
    ExtractEnergyInventoryActions.not_active.
  unfold_monad.
  destruct (on_upload_file w) as [f0|e]; step_counts.
  2: { repeat (split_match; step_counts); count_calls completions_nil deletions_nil. }
  match goal with
  | |- context [while_processing w true fuel ?s1] =>
      destruct (while_processing w true fuel s1) as [[r t] s'] eqn:W;
      destruct (while_frame _ _ _ _ _ _ _ W) as (C & D & H1 & H2 & H3 & H4 & H5 & H6)
  end.
  destruct r as [u|sg].
  - destruct (H6 u eq_refl) as (f & Pf & Ef).
    step_counts. rewrite Pf in *. step_counts.
    repeat (split_match; step_counts).
    all: count_calls C D.
  - destruct sg as [e1| |]; step_counts;
      repeat (split_match; step_counts); count_calls C D.
Qed.

Lemma report_deletes_after_completion (w : remote) (fuel : nat) (stem : string) (s : store) :
  completions (trace (GeminiAPIReport.process_pdf loads literal_eval w fuel stem) s) = 1 ->
  deletions (trace (GeminiAPIReport.process_pdf loads literal_eval w fuel stem) s) = 1.
Proof.
  unfold trace, GeminiAPIReport.process_pdf, GeminiAPIReport.try_body,
    GeminiAPIReport.analyse, GeminiAPIReport.report, GeminiAPIReport.raw_text_of.
  unfold_monad.
  destruct (on_upload_file w) as [f0|e]; step_counts.
  2: { repeat (split_match; step_counts); count_calls completions_nil deletions_nil. }
  match goal with
  | |- context [while_processing w false fuel ?s1] =>
      destruct (while_processing w false fuel s1) as [[r t] s'] eqn:W;
      destruct (while_frame _ _ _ _ _ _ _ W) as (C & D & H1 & H2 & H3 & H4 & H5 & H6)
  end.
  destruct r as [u|sg].
  - destruct (H6 u eq_refl) as (f & Pf & Ef).
    step_counts. rewrite Pf in *. step_counts.
    repeat (split_match; step_counts).
    all: count_calls C D.
  - destruct sg as [e1| |]; step_counts;
      repeat (split_match; step_counts); count_calls C D.
Qed.

Lemma ghg_deletes_when_text_came (w : remote) (fuel : nat) (stem : string) (s : store) :
  completions (trace (GHGEmissionPercentage.process_pdf json_loads w fuel stem) s) = 1 ->
  deletions (trace (GHGEmissionPercentage.process_pdf json_loads w fuel stem) s) =
    match on_generate_content w with
    | Returns r => match text r with
                   | Returns (Some _) => 1
                   | _ => 0
                   end
    | Raises _ => 0
    end.
Proof.
  unfold trace, GHGEmissionPercentage.process_pdf, GHGEmissionPercentage.try_body,
    GHGEmissionPercentage.analyse.
  unfold_monad.
  destruct (on_upload_file w) as [f0|e]; step_counts.
  2: { repeat (split_match; step_counts); count_calls completions_nil deletions_nil. }
  match goal with
  | |- context [while_processing w false fuel ?s1] =>
      destruct (while_processing w false fuel s1) as [[r t] s'] eqn:W;
      destruct (while_frame _ _ _ _ _ _ _ W) as (C & D & H1 & H2 & H3 & H4 & H5 & H6)
  end.
  destruct r as [u|sg].
  - destruct (H6 u eq_refl) as (f & Pf & Ef).
    step_counts. rewrite Pf in *. step_counts.
    repeat (first [silence_keep_items | split_match]; step_counts).
    all: count_calls C D.
  - destruct sg as [e1| |]; step_counts;
      repeat (split_match; step_counts); count_calls C D.
Qed.

End AfterCompletion.

(** X17.  One iteration, on any behaviour of the service and of the disk:
    once the completion was requested, GeminiAPIExtractActions,
    ExtractEnergyInventoryActions and GeminiAPIReport call
    [genai.delete_file] exactly once, whatever happens after the request;
    GHGEmissionPercentage, which has no [finally] block, calls it once
    when the completion came with a text and not at all when the request
    raised or the response has no text. *)
Theorem file_deleted_after_completion
    (json_loads : pystr -> option pyval) (loads : pystr -> outcome pyval)
    (literal_eval : pystr -> option pyval) (suffix : string)
    (w : remote) (fuel : nat) (stem : string) (s : store) :
  (completions (trace (GeminiAPIExtractActions.process_pdf json_loads suffix w fuel stem) s) = 1 ->
   deletions (trace (GeminiAPIExtractActions.process_pdf json_loads suffix w fuel stem) s) = 1) /\
  (completions (trace (ExtractEnergyInventoryActions.process_pdf w fuel stem) s) = 1 ->
   deletions (trace (ExtractEnergyInventoryActions.process_pdf w fuel stem) s) = 1) /\
  (completions (trace (GeminiAPIReport.process_pdf loads literal_eval w fuel stem) s) = 1 ->
   deletions (trace (GeminiAPIReport.process_pdf loads literal_eval w fuel stem) s) = 1) /\
  (completions (trace (GHGEmissionPercentage.process_pdf json_loads w fuel stem) s) = 1 ->
   deletions (trace (GHGEmissionPercentage.process_pdf json_loads w fuel stem) s) =
     match on_generate_content w with
     | Returns r => match text r with
                    | Returns (Some _) => 1
                    | _ => 0
                    end
     | Raises _ => 0
     end).
Proof.
  repeat split.
  - apply extract_actions_deletes_after_completion.
  - apply energy_deletes_after_completion.
  - apply report_deletes_after_completion.
  - apply ghg_deletes_when_text_came.
Qed.

(** The four scripts on a service whose completion request raises. *)
Lemma file_deleted_after_completion_witness :
  deletions (trace (GeminiAPIExtractActions.process_pdf never "_energy_actions"
                      service_failing_completion 3 "doc") empty_store) = 1 /\
  deletions (trace (ExtractEnergyInventoryActions.process_pdf
                      service_failing_completion 3 "doc") empty_store) = 1 /\
  deletions (trace (GeminiAPIReport.process_pdf (or_decode_error never) never
                      service_failing_completion 3 "doc") empty_store) = 1 /\
  deletions (trace (GHGEmissionPercentage.process_pdf never
                      service_failing_completion 3 "doc") empty_store) = 0.
Proof.
  destruct (file_deleted_after_completion never (or_decode_error never) never "_energy_actions"
              service_failing_completion 3 "doc" empty_store) as (A & B & C & D).
  exact (conj (A eq_refl) (conj (B eq_refl) (conj (C eq_refl) (D eq_refl)))).
Defined.

(* ===================================================================== *)
(** ** Every file of the folder is uploaded *)
(* ===================================================================== *)

Lemma uploads_app (a b : list event) : uploads (a ++ b) = uploads a ++ uploads b.
Proof. apply filter_app. Qed.

Lemma uploads_cons (e : event) (t : list event) :
  uploads (e :: t) = (if is_upload e then [e] else []) ++ uploads t.
Proof. unfold uploads. cbn. now destruct (is_upload e). Qed.

Lemma uploads_nil : uploads [] = [].
Proof. reflexivity. Qed.

(** The polling loop uploads nothing. *)
Lemma while_uploads (w : remote) (echo : bool) (fuel : nat) :
  forall s, uploads (trace (while_processing w echo fuel) s) = [].
Proof.
  unfold trace.
  induction fuel as [|fuel IH]; intros s;
    destruct (pdf_file s) as [f|] eqn:F;
    try (now rewrite (while_no_file w echo _ s F));
    destruct (state_name f =? "PROCESSING")%string eqn:E;
    try (now rewrite (while_done w echo _ s f F E)).
  - now rewrite (while_out_of_fuel w echo s f F E).
  - rewrite (while_round w echo fuel s f F E).
    destruct (on_get_file w (polls s)) as [f'|e]; [|reflexivity].
    specialize (IH (polled s f')).
    destruct (while_processing w echo fuel (polled s f')) as [[r1 t1] s1].
    cbn [fst snd] in *. rewrite !uploads_cons, uploads_app, IH.
    destruct echo; reflexivity.
Qed.

Ltac step_uploads :=
  cbn -[re_search strip String.append uploads while_processing
        extract_json_from_response GHGEmissionPercentage.keep_items] in *.

Ltac list_uploads U :=
  try contradiction;
  repeat (rewrite uploads_cons || rewrite uploads_app);
  repeat match goal with
         | K : uploads ?t = [] |- context [uploads ?t] => rewrite K
         end;
  rewrite ?U, ?uploads_nil; cbn [is_upload app]; reflexivity.

Section Uploads.

Variable json_loads : pystr -> option pyval.
Variable loads : pystr -> outcome pyval.
Variable literal_eval : pystr -> option pyval.

Lemma energy_uploads_once (w : remote) (fuel : nat) (stem : string) (s : store) :
  uploads (trace (ExtractEnergyInventoryActions.process_pdf w fuel stem) s)
    = [EvUploadFile stem].
Proof.
  unfold trace, ExtractEnergyInventoryActions.process_pdf,
    ExtractEnergyInventoryActions.try_body, ExtractEnergyInventoryActions.analyse,
    ExtractEnergyInventoryActions.not_active.
  unfold_monad.
  destruct (on_upload_file w) as [f0|e]; step_uploads.
  2: { repeat (split_match; step_uploads); list_uploads uploads_nil. }
  match goal with
  | |- context [while_processing w true fuel ?s1] =>
      pose proof (while_uploads w true fuel s1) as U; unfold trace in U;
      destruct (while_processing w true fuel s1) as [[r t] s']
  end.
  cbn [fst snd] in U.
  destruct r as [u|[e1| |]]; step_uploads;
    repeat (split_match; step_uploads); list_uploads U.
Qed.

Lemma report_uploads_once (w : remote) (fuel : nat) (stem : string) (s : store) :
  uploads (trace (GeminiAPIReport.process_pdf loads literal_eval w fuel stem) s)
    = [EvUploadFile stem].
Proof.
  unfold trace, GeminiAPIReport.process_pdf, GeminiAPIReport.try_body,
    GeminiAPIReport.analyse, GeminiAPIReport.report, GeminiAPIReport.raw_text_of.
  unfold_monad.
  destruct (on_upload_file w) as [f0|e]; step_uploads.
  2: { repeat (split_match; step_uploads); list_uploads uploads_nil. }
  match goal with
  | |- context [while_processing w false fuel ?s1] =>
      pose proof (while_uploads w false fuel s1) as U; unfold trace in U;
      destruct (while_processing w false fuel s1) as [[r t] s']
  end.
  cbn [fst snd] in U.
  destruct r as [u|[e1| |]]; step_uploads;
    repeat (split_match; step_uploads); list_uploads U.
Qed.

Lemma ghg_uploads_once (w : remote) (fuel : nat) (stem : string) (s : store) :
  uploads (trace (GHGEmissionPercentage.process_pdf json_loads w fuel stem) s)
    = [EvUploadFile stem].
Proof.
  unfold trace, GHGEmissionPercentage.process_pdf, GHGEmissionPercentage.try_body,
    GHGEmissionPercentage.analyse.
  unfold_monad.
  destruct (on_upload_file w) as [f0|e]; step_uploads.
  2: { repeat (split_match; step_uploads); list_uploads uploads_nil. }
  match goal with
  | |- context [while_processing w false fuel ?s1] =>
      pose proof (while_uploads w false fuel s1) as U; unfold trace in U;
      destruct (while_processing w false fuel s1) as [[r t] s']
  end.
  cbn [fst snd] in U.
  destruct r as [u|[e1| |]]; step_uploads;
    repeat (first [silence_keep_items | split_match]; step_uploads); list_uploads U.
Qed.

End Uploads.

(** A loop whose iterations catch every exception and upload their own
    file once uploads every file, in order, unless a polling loop runs out
    of fuel. *)
Lemma loop_uploads (body : string -> M unit) (files : list string) :
  (forall stem s, no_exception (ending (body stem) s)) ->
  (forall stem s, uploads (trace (body stem) s) = [EvUploadFile stem]) ->
  forall s,
    ending (for_each files body) s <> Abrupt OutOfFuel ->
    uploads (trace (for_each files body) s) = map EvUploadFile files.
Proof.
  intros B U. induction files as [|stem files IH]; intros s; [reflexivity|].
  unfold ending, trace in *. cbn [for_each map]. unfold bind, iteration.
  pose proof (B stem s) as P. pose proof (U stem s) as Q.
  destruct (body stem s) as [[r t] s1]. cbn [fst snd] in P, Q.
  destruct r as [u|[e| |]]; try contradiction; cbn [fst snd].
  - specialize (IH s1). destruct (for_each files body s1) as [[r2 t2] s2].
    cbn [fst snd] in *. intros H. now rewrite uploads_app, Q, IH.
  - specialize (IH s1). destruct (for_each files body s1) as [[r2 t2] s2].
    cbn [fst snd] in *. intros H. now rewrite uploads_app, Q, IH.
Qed.

(** X18.  The loops of ExtractEnergyInventoryActions, GeminiAPIReport and
    GHGEmissionPercentage, on any behaviour of the service: unless a
    polling loop never ends, every PDF file of the folder is uploaded
    exactly once, in the order of the folder, whatever happened to the
    files before it. *)
Theorem every_file_is_uploaded_once
    (json_loads : pystr -> option pyval) (loads : pystr -> outcome pyval)
    (literal_eval : pystr -> option pyval) (env : folder) (fuel : nat)
    (files : list string) (s : store) :
  let energy := for_each files (fun stem =>
                  ExtractEnergyInventoryActions.process_pdf (service env stem) fuel stem) in
  let report := for_each files (fun stem =>
                  GeminiAPIReport.process_pdf loads literal_eval
                    (service env stem) fuel stem) in
  let ghg := for_each files (fun stem =>
               GHGEmissionPercentage.process_pdf json_loads (service env stem) fuel stem) in
  (ending energy s <> Abrupt OutOfFuel -> uploads (trace energy s) = map EvUploadFile files) /\
  (ending report s <> Abrupt OutOfFuel -> uploads (trace report s) = map EvUploadFile files) /\
  (ending ghg s <> Abrupt OutOfFuel -> uploads (trace ghg s) = map EvUploadFile files).
Proof.
  cbv zeta. repeat split.
  - apply loop_uploads.
    + intros stem s0. apply energy_iteration_catches.
    + intros stem s0. apply energy_uploads_once.
  - apply loop_uploads.
    + intros stem s0. apply report_iteration_catches.
    + intros stem s0. apply report_uploads_once.
  - apply loop_uploads.
    + intros stem s0. apply ghg_iteration_catches.
    + intros stem s0. apply ghg_uploads_once.
Qed.

(** The folder of two files, the upload of the first refused. *)
Lemma every_file_is_uploaded_once_witness :
  uploads (trace (for_each (pdf_files two_files) (fun stem =>
                    ExtractEnergyInventoryActions.process_pdf (service two_files stem) 3 stem))
             empty_store) = [EvUploadFile "a"; EvUploadFile "b"].
Proof.
  refine (proj1 (every_file_is_uploaded_once never (or_decode_error never) never two_files 3 (pdf_files two_files)
                   empty_store) _).
  vm_compute. discriminate.
Defined.

(* ===================================================================== *)
(** ** GeminiAPIExtractActions: the raw fallback of the saving step *)
(* ===================================================================== *)

(** X19.  The saving step of GeminiAPIExtractActions.getScores (lines
    129-152, the same in ExtractScope123Emissions): whatever raises in it
    is caught, and only a failure to write the raw fallback file leaves
    it; when the matched text is no JSON the raw text is written to the
    fallback file; and when the table or the workbook cannot be made, the
    failure is reported as a JSON parsing error and the raw text is
    written to the fallback file beside the JSON file already written. *)
Theorem saving_failure_writes_raw_fallback
    (json_loads : pystr -> option pyval) (suffix : string)
    (w : remote) (stem : string) (raw_text json_text : pystr) (s : store) :
  (forall e,
      ending (GeminiAPIExtractActions.save_parsed json_loads suffix w stem raw_text json_text) s
        = Abrupt (Raise e) ->
      on_call w (EvWriteText (GeminiAPIExtractActions.raw_path stem) raw_text) = Some e) /\
  (json_loads json_text = None ->
   on_call w (EvWriteText (GeminiAPIExtractActions.raw_path stem) raw_text) = None ->
   trace (GeminiAPIExtractActions.save_parsed json_loads suffix w stem raw_text json_text) s =
     [EvPrintExn "JSON parsing error: " JSONDecodeError;
      EvWriteText (GeminiAPIExtractActions.raw_path stem) raw_text;
      EvPrint ("Raw fallback saved: " ++ GeminiAPIExtractActions.raw_path stem)]) /\
  (forall data e,
      json_loads json_text = Some data ->
      tabular data = true ->
      on_call w (EvJsonDump (GeminiAPIExtractActions.json_path suffix stem) data) = None ->
      on_call w (EvDataFrame data) = None ->
      on_call w (EvToExcel (GeminiAPIExtractActions.excel_path suffix stem) data) = Some e ->
      on_call w (EvWriteText (GeminiAPIExtractActions.raw_path stem) raw_text) = None ->
      trace (GeminiAPIExtractActions.save_parsed json_loads suffix w stem raw_text json_text) s =
        [EvJsonDump (GeminiAPIExtractActions.json_path suffix stem) data;
         EvPrint ("Saved JSON: " ++ GeminiAPIExtractActions.json_path suffix stem);
         EvDataFrame data;
         EvToExcel (GeminiAPIExtractActions.excel_path suffix stem) data;
         EvPrintExn "JSON parsing error: " e;
         EvWriteText (GeminiAPIExtractActions.raw_path stem) raw_text;
         EvPrint ("Raw fallback saved: " ++ GeminiAPIExtractActions.raw_path stem)] /\
      ending (GeminiAPIExtractActions.save_parsed json_loads suffix w stem raw_text json_text) s =
        Normal tt).
Proof.
  unfold ending, trace, GeminiAPIExtractActions.save_parsed.
  unfold_monad. split; [|split].
  - intros e.
    repeat (split_match; cbn -[String.append] in * ); intros X;
      try discriminate X; injection X as <-; congruence.
  - intros -> ->. reflexivity.
  - intros data e -> T J D X R. rewrite J, T. cbn -[String.append].
    rewrite D, X, R. split; reflexivity.
Qed.

(** The workbook cannot be written: the JSON file and the raw fallback
    are. *)
Lemma saving_failure_writes_raw_fallback_witness :
  trace (GeminiAPIExtractActions.save_parsed loads_empty_object_array "_energy_actions"
           service_without_excel "doc" (py "[{}]") (py "[{}]")) empty_store =
    [EvJsonDump "doc_energy_actions.json" (PList [PDict []]);
     EvPrint "Saved JSON: doc_energy_actions.json";
     EvDataFrame (PList [PDict []]);
     EvToExcel "doc_energy_actions.xlsx" (PList [PDict []]);
     EvPrintExn "JSON parsing error: " (EnvError "PermissionError");
     EvWriteText "doc_RAW.txt" (py "[{}]");
     EvPrint "Raw fallback saved: doc_RAW.txt"].
Proof.
  exact (proj1 (proj2 (proj2 (saving_failure_writes_raw_fallback loads_empty_object_array
                                "_energy_actions" service_without_excel "doc"
                                (py "[{}]") (py "[{}]") empty_store))
                  (PList [PDict []]) (EnvError "PermissionError")
                  eq_refl eq_refl eq_refl eq_refl eq_refl eq_refl)).
Defined.

(* ===================================================================== *)
(** ** A response without text *)
(* ===================================================================== *)

(** X20.  What the four scripts make of a response whose [text] is
    [None]: ExtractEnergyInventoryActions prints that no text was received
    and goes on; GeminiAPIReport, as [json.loads] and [ast.literal_eval]
    both refuse the empty text, writes an empty fallback file and goes to
    the next document; GeminiAPIExtractActions and GHGEmissionPercentage
    call [strip] on [None], which raises [AttributeError], the second
    before it deletes the file. *)
Theorem absent_text_outcomes
    (json_loads : pystr -> option pyval) (loads : pystr -> outcome pyval)
    (literal_eval : pystr -> option pyval) (suffix : string)
    (w : remote) (stem : string) (f : File) (s : store) (r : response) :
  on_generate_content w = Returns r ->
  text r = Returns None ->
  (trace (ExtractEnergyInventoryActions.analyse w stem f) s =
     [EvPrint "Sending request to Gemini for analysis..."; EvGenerateContent f;
      EvPrint "[No text content received in the response]"] /\
   ending (ExtractEnergyInventoryActions.analyse w stem f) s = Normal tt) /\
  (trace (GeminiAPIExtractActions.analyse json_loads suffix w stem f) s = [EvGenerateContent f] /\
   ending (GeminiAPIExtractActions.analyse json_loads suffix w stem f) s =
     Abrupt (Raise (AttributeError "strip"))) /\
  (trace (GHGEmissionPercentage.analyse json_loads w stem f) s = [EvGenerateContent f] /\
   ending (GHGEmissionPercentage.analyse json_loads w stem f) s =
     Abrupt (Raise (AttributeError "strip"))) /\
  (loads [] = Raises JSONDecodeError -> literal_eval [] = None ->
   on_call w (EvWriteText (GeminiAPIReport.json_output_file stem) []) = None ->
   trace (GeminiAPIReport.analyse loads literal_eval w stem f) s =
     [EvPrint "Sending prompt to Gemini..."; EvGenerateContent f;
      EvPrint "JSON parsing failed. Saving raw response.";
      EvWriteText (GeminiAPIReport.json_output_file stem) []] /\
   ending (GeminiAPIReport.analyse loads literal_eval w stem f) s = Abrupt Continue).
Proof.
  intros G T.
  unfold trace, ending, ExtractEnergyInventoryActions.analyse,
    GeminiAPIExtractActions.analyse, GHGEmissionPercentage.analyse,
    GeminiAPIReport.analyse, GeminiAPIReport.raw_text_of.
  unfold_monad. rewrite G. cbn -[String.append extract_json_from_response]. rewrite T.
  cbn -[String.append extract_json_from_response].
  split; [split; reflexivity|]. split; [split; reflexivity|]. split; [split; reflexivity|].
  intros J L W.
  assert (X : extract_json_from_response loads literal_eval [] = Returns PNone).
  { unfold extract_json_from_response, parse_whole, remove_markdown.
    cbn. now rewrite J, L. }
  rewrite X. cbn -[String.append]. rewrite W. split; reflexivity.
Qed.

Lemma absent_text_outcomes_witness :
  ending (ExtractEnergyInventoryActions.analyse service_without_text "doc" (file_in "ACTIVE"))
    empty_store = Normal tt /\
  ending (GHGEmissionPercentage.analyse never service_without_text "doc" (file_in "ACTIVE"))
    empty_store = Abrupt (Raise (AttributeError "strip")) /\
  ending (GeminiAPIReport.analyse (or_decode_error never) never service_without_text "doc"
            (file_in "ACTIVE"))
    empty_store = Abrupt Continue.
Proof.
  destruct (absent_text_outcomes never (or_decode_error never) never "_energy_actions"
              service_without_text "doc" (file_in "ACTIVE") empty_store
              {| text := Returns None |} eq_refl eq_refl)
    as ((_ & A) & _ & (_ & B) & C).
  exact (conj A (conj B (proj2 (C eq_refl eq_refl eq_refl)))).
Defined.

(* ===================================================================== *)
(** ** consistency_check.clean_extracted_text *)
(* ===================================================================== *)

Lemma in_sub_runs (in_class : pychar -> bool) (replacement : pychar) (s : pystr) :
  forall inside c,
    In c (sub_runs in_class replacement inside s) ->
    c = replacement \/ (In c s /\ in_class c = false).
Proof.
  induction s as [|a s IH]; intros inside c H; [contradiction|].
  cbn [sub_runs] in H. destruct (in_class a) eqn:A.
  - destruct inside.
    + destruct (IH _ _ H) as [E|[I C]]; [now left|right; split; [now right|exact C]].
    + destruct H as [<-|H]; [now left|].
      destruct (IH _ _ H) as [E|[I C]]; [now left|right; split; [now right|exact C]].
  - destruct H as [<-|H]; [right; split; [now left|exact A]|].
    destruct (IH _ _ H) as [E|[I C]]; [now left|right; split; [now right|exact C]].
Qed.

Lemma length_sub_runs (in_class : pychar -> bool) (replacement : pychar) (s : pystr) :
  forall inside, length (sub_runs in_class replacement inside s) <= length s.
Proof.
  induction s as [|a s IH]; intros inside; [reflexivity|].
  cbn [sub_runs length]. destruct (in_class a); [destruct inside|]; cbn [length];
    pose proof (IH true); pose proof (IH false); lia.
Qed.

Lemma in_sub_spaces (s : pystr) (c : pychar) :
  In c (sub_spaces_before_newline s) -> In c s.
Proof.
  induction s as [|a s IH]; intros H; [contradiction|].
  cbn [sub_spaces_before_newline] in H.
  destruct ((a =? 32)%N && spaces_then_newline s).
  - right. auto.
  - destruct H as [<-|H]; [now left|right; auto].
Qed.

Lemma length_sub_spaces (s : pystr) : length (sub_spaces_before_newline s) <= length s.
Proof.
  induction s as [|a s IH]; [reflexivity|].
  cbn [sub_spaces_before_newline length].
  destruct ((a =? 32)%N && spaces_then_newline s); cbn [length]; lia.
Qed.

Lemma length_strip (s : pystr) : length (strip s) <= length s.
Proof.
  destruct (strip_split s) as (lead & trail & E & _).
  assert (L := f_equal (@length _) E). rewrite !length_app in L. lia.
Qed.

(** X21.  The text clean_extracted_text returns, for any text: it holds
    only ASCII characters and no tab (a character outside ASCII is
    dropped, not replaced), it has no blank at either end, and it is no
    longer than the text given. *)
Theorem cleaned_text_is_plain (text : pystr) :
  Forall (fun c => (c < 128)%N /\ c <> tab) (clean_extracted_text text) /\
  strip (clean_extracted_text text) = clean_extracted_text text /\
  length (clean_extracted_text text) <= length text.
Proof.
  unfold clean_extracted_text. split; [|split].
  - apply Forall_forall. intros c H. apply in_strip in H.
    apply filter_In in H. destruct H as [H A]. split; [now apply N.ltb_lt|].
    apply in_sub_spaces in H.
    apply in_sub_runs in H. destruct H as [->|[H _]]; [discriminate|].
    apply in_sub_runs in H. destruct H as [->|[_ H]]; [discriminate|].
    intros ->. discriminate H.
  - apply strip_idem.
  - eapply Nat.le_trans; [apply length_strip|].
    eapply Nat.le_trans; [apply filter_length_le|].
    eapply Nat.le_trans; [apply length_sub_spaces|].
    eapply Nat.le_trans; [apply length_sub_runs|]. apply length_sub_runs.
Qed.

(* ===================================================================== *)
(** ** GeminiAPIPromptValidation.save_text_as_docx *)
(* ===================================================================== *)

(** The lines of [splitlines] hold no line boundary. *)
Lemma splitlines_no_break (s : pystr) :
  Forall (fun line => forall c, In c line -> is_linebreak c = false) (splitlines s).
Proof.
  assert (P : forall c lines,
             is_linebreak c = false ->
             Forall (fun line => forall d, In d line -> is_linebreak d = false) lines ->
             Forall (fun line => forall d, In d line -> is_linebreak d = false)
                    (push_char c lines)).
  { intros c [|l ls] Hc H; cbn [push_char].
    - constructor; [|constructor]. intros d [<-|[]]. exact Hc.
    - inversion H; subst. constructor; [|assumption].
      intros d [<-|Hd]; auto. }
  assert (G : forall n s, length s <= n ->
             Forall (fun line => forall c, In c line -> is_linebreak c = false) (splitlines s)).
  { induction n as [|n IH]; intros [|c t] L; cbn [length] in L; try lia;
      try (constructor; fail).
    cbn [splitlines]. destruct (N.eqb_spec c 13) as [->|Nc].
    - destruct t as [|d t']; [repeat constructor; intros ? []|].
      destruct (d =? 10)%N; constructor; try (intros ? []); apply IH; cbn [length] in *; lia.
    - destruct (is_linebreak c) eqn:B.
      + constructor; [intros ? []|]. apply IH. lia.
      + apply P; [exact B|]. apply IH. lia. }
  apply (G (length s)). lia.
Qed.

(** X22.  The Word document save_text_as_docx builds from a text, with
    the loop save_summaries_to_docx repeats.  When the document is saved
    - its [doc.save] is among the calls made - the paragraphs added
    before, written back with the [**] markers around their bold runs,
    are the non-blank lines of [text.splitlines()], stripped, in order,
    every paragraph has a run and no run is empty.  The document is saved
    when python-docx accepts the heading, every paragraph and every run;
    an exception that ends the function is the one the last call made
    raised. *)
Theorem docx_of_lines_keeps_nonblank_lines
    (raises : event -> option exn) (text : pystr) (output_path : string) (s : store) :
  let save := save_text_as_docx raises text output_path in
  (In (EvSaveDocx output_path (PStr text)) (trace save s) ->
   map markdown_of (paragraphs_added (trace save s)) = nonblank (splitlines text) /\
   well_formed_document (paragraphs_added (trace save s))) /\
  ((forall call, is_docx_call call = true -> raises call = None) ->
   In (EvSaveDocx output_path (PStr text)) (trace save s)) /\
  (forall e,
      ending save s = Abrupt (Raise e) ->
      exists made refused, trace save s = made ++ [refused] /\ raises refused = Some e) /\
  final save s = s.
Proof.
  cbv zeta.
  assert (N : Forall (fun piece => ~ In newline piece) (splitlines text)).
  { eapply Forall_impl; [|apply splitlines_no_break].
    intros line H Hin. specialize (H newline Hin). discriminate H. }
  destruct (paragraphs_keep_nonblank (splitlines text) N) as [K1 K2].
  set (calls := EvAddHeading "C40 Climate Action Plan Analysis"
                :: docx_calls (requested_paragraphs (splitlines text))).
  assert (O : forall c, In c calls -> is_docx_call c = true).
  { intros c [<-|I]; [reflexivity|].
    pose proof (docx_calls_only (requested_paragraphs (splitlines text))) as F.
    rewrite forallb_forall in F. now apply F. }
  assert (P : paragraphs_added calls = requested_paragraphs (splitlines text))
    by apply paragraphs_added_calls.
  assert (Q : forall made,
             paragraphs_added (calls ++ made) =
             requested_paragraphs (splitlines text) ->
             True) by auto.
  clear Q.
  unfold ending, trace, final, save_text_as_docx. unfold bind.
  rewrite build_document_spec. fold calls.
  destruct (make_calls_spec raises calls s) as
    [F [(E & T & A)|(made & refused & rest & e & C & T & R & E)]].
  - unfold ending, trace, final in *.
    destruct (make_calls raises calls s) as [[r t] s1]. cbn [fst snd] in *. subst r t s1.
    unfold call.
    assert (D : paragraphs_added (calls ++ [EvSaveDocx output_path (PStr text)]) =
                requested_paragraphs (splitlines text)).
    { unfold calls. cbn [app paragraphs_added].
      generalize (requested_paragraphs (splitlines text)) as ps.
      induction ps as [|p ps IH]; [reflexivity|].
      cbn [docx_calls flat_map]. fold (docx_calls ps).
      unfold paragraph_calls. cbn [app paragraphs_added].
      rewrite <- !app_assoc, paragraphs_added_runs, IH. f_equal.
      apply runs_added_calls. now destruct ps. }
    destruct (raises (EvSaveDocx output_path (PStr text))) as [e|] eqn:S; cbn [fst snd].
    + split; [intros _; now rewrite D|]. split; [intros _; apply in_or_app; right; now left|].
      split; [|reflexivity].
      intros e' H. injection H as <-. now exists calls, (EvSaveDocx output_path (PStr text)).
    + split; [intros _; now rewrite D|]. split; [intros _; apply in_or_app; right; now left|].
      split; [discriminate|reflexivity].
  - unfold ending, trace, final in *.
    destruct (make_calls raises calls s) as [[r t] s1]. cbn [fst snd] in *. subst r t s1.
    assert (I : ~ In (EvSaveDocx output_path (PStr text)) (made ++ [refused])).
    { intros I. assert (J : In (EvSaveDocx output_path (PStr text)) calls).
      { rewrite C. apply in_app_or in I. apply in_or_app.
        destruct I as [I|[<-|[]]]; [now left|right; now left]. }
      apply O in J. discriminate J. }
    split; [intros H; contradiction|]. split.
    + intros H. exfalso. rewrite (H refused) in R; [discriminate R|].
      apply O. rewrite C. apply in_or_app. right. now left.
    + split; [|reflexivity]. intros e' H. injection H as <-. now exists made, refused.
Qed.

(** X22 on an instance: a text of two lines that python-docx accepts. *)
Lemma docx_of_lines_keeps_nonblank_lines_witness :
  map markdown_of
    (paragraphs_added
       (trace (save_text_as_docx accepting (py "**Gap** none" ++ [13%N; newline] ++ py " ok ")
                 "analysis.docx") empty_store)) =
    [py "**Gap** none"; py "ok"].
Proof.
  destruct (docx_of_lines_keeps_nonblank_lines accepting
              (py "**Gap** none" ++ [13%N; newline] ++ py " ok ") "analysis.docx" empty_store)
    as (A & B & _).
  rewrite (proj1 (A (B (fun _ _ => eq_refl)))). reflexivity.
Defined.

(** X23.  The Word document Prompt_validation.getScores builds from an
    answer, by the calls of its loop over the lines.  When the loop ends
    normally, the paragraphs added, written back with the [**] markers
    around their bold runs, are the lines of the answer that are not
    blank, in order and with the blanks they start and end with; no run
    is empty and none holds a newline.  The loop ends normally when
    python-docx accepts every paragraph and run, and with an exception
    only when the last call made raised it. *)
Theorem unstripped_paragraphs_keep_lines
    (raises : event -> option exn) (text : pystr) (s : store) :
  let build := for_each (split_on newline text) (add_unstripped_line raises) in
  (ending build s = Normal tt ->
   map markdown_of (paragraphs_added (trace build s)) =
     filter (fun line => match strip line with [] => false | _ => true end)
            (split_on newline text) /\
   Forall well_formed_runs (paragraphs_added (trace build s))) /\
  ((forall run bold, raises (EvAddRun run bold) = None) ->
   raises (EvAddParagraph "" None) = None ->
   ending build s = Normal tt) /\
  (forall e,
      ending build s = Abrupt (Raise e) ->
      exists made refused, trace build s = made ++ [refused] /\ raises refused = Some e) /\
  returns_or_raises (ending build s).
Proof.
  cbv zeta. unfold ending, trace. rewrite add_unstripped_lines_calls.
  destruct (calls_build raises (requested_unstripped (split_on newline text)) s)
    as (A & B & C & D).
  split; [|split; [exact B|split; [exact C|exact D]]].
  intros E. unfold ending, trace in A. rewrite (A E).
  apply unstripped_keep_lines. apply split_on_no_sep.
Qed.

(** X23 on an instance: the second line keeps its blanks. *)
Lemma unstripped_paragraphs_keep_lines_witness :
  map markdown_of
    (paragraphs_added
       (trace (for_each (split_on newline (py "one" ++ [newline; newline] ++ py " two "))
                 (add_unstripped_line accepting)) empty_store)) =
    [py "one"; py " two "].
Proof.
  destruct (unstripped_paragraphs_keep_lines accepting
              (py "one" ++ [newline; newline] ++ py " two ") empty_store) as (A & _).
  rewrite (proj1 (A eq_refl)). reflexivity.
Defined.
